(** * A shallow embedding of the crawler and index core of python-search-engine

    The development follows the source files, one module each:
    - [Py]             the pieces of the Python runtime the code relies on
                       (str.lower, str.split, slicing, [in] on strings,
                       \w+ scanning, Counter);
    - [SearchDatabase] engine/db.py, the SQLite store, with tables as lists of rows;
    - [Urllib]         the fields of a parsed url;
    - [SearchEngine]   engine/search.py in database mode: tokenizer, indexer,
                       the number of search results, clear_index;
    - [Heapq]          heappush and heappop, as queue.PriorityQueue uses them;
    - [SmartCrawler]   engine/advanced_crawler.py: priorities, fingerprints,
                       state snapshots, the crawl loop and the page processor;
    - [Scenario]       concrete inputs for the examples;
    - [Spec]           the priority formula in the words of the specification.
    The properties follow the definitions.

    Text is modelled as Rocq strings of 8-bit characters; case mapping and the
    character classes are the ASCII ones.  Floating-point values (term
    frequencies, importance, timestamps) are modelled as exact rationals. *)

From Stdlib Require Import ZArith QArith Ascii String DecimalString DecimalPos DecimalZ Lqa.
From stdpp Require Import gmap strings list.

Local Open Scope Z_scope.

(* ===================================================================== *)
(** ** Python runtime helpers *)
(* ===================================================================== *)

Module Py.

(** A [str] seen as its list of characters, and back. *)
Definition chars (s : string) : list ascii := list_ascii_of_string s.
Definition str (cs : list ascii) : string := string_of_list_ascii cs.

(** [len(s)] *)
Definition len (s : string) : nat := length (chars s).

(** [c.lower()] on one ASCII character: 'A'..'Z' move by 32. *)
Definition lower_char (c : ascii) : ascii :=
  let n := nat_of_ascii c in
  if (65 <=? n)%nat && (n <=? 90)%nat then ascii_of_nat (n + 32) else c.

(** [s.lower()] on ASCII text, where it maps character by character and
    keeps the length.  On other text Python's [lower] follows Unicode and
    can change the length; statements that compare positions in
    [s.lower()] with positions in [s] are made for ASCII text. *)
Definition lower (s : string) : string := str (map lower_char (chars s)).

(** [s.isascii()] *)
Definition isascii (s : string) : bool :=
  forallb (fun c => (nat_of_ascii c <? 128)%nat) (chars s).

(** [s[i:j]] for [0 <= i], [0 <= j]: Python clips both ends to the string. *)
Definition slice_chars (cs : list ascii) (i j : nat) : list ascii :=
  take (j - i) (drop i cs).
Definition slice (s : string) (i j : nat) : string := str (slice_chars (chars s) i j).

(** [t in s] on strings: [t] occurs as a contiguous block of [s]. *)
Fixpoint starts_with (t cs : list ascii) : bool :=
  match t, cs with
  | [], _ => true
  | _ :: _, [] => false
  | a :: t', c :: cs' => if Ascii.eqb a c then starts_with t' cs' else false
  end.

Fixpoint contains_chars (t cs : list ascii) : bool :=
  starts_with t cs ||
  match cs with
  | [] => false
  | _ :: cs' => contains_chars t cs'
  end.

Definition contains (t s : string) : bool := contains_chars (chars t) (chars s).

(** [s.split(sep)] for a one-character separator: never empty, keeps empty
    fields, so ["".split("/") = [""]]. *)
Fixpoint split_chars (sep : ascii) (cs : list ascii) : list (list ascii) :=
  match cs with
  | [] => [[]]
  | c :: cs' =>
      match split_chars sep cs' with
      | [] => [[]]
      | field :: rest =>
          if Ascii.eqb c sep then [] :: field :: rest else (c :: field) :: rest
      end
  end.

Definition split (sep : ascii) (s : string) : list string :=
  map str (split_chars sep (chars s)).

(** The character class [\w] restricted to ASCII: letters, digits, underscore. *)
Definition is_word_char (c : ascii) : bool :=
  let n := nat_of_ascii c in
  ((48 <=? n)%nat && (n <=? 57)%nat) ||
  ((65 <=? n)%nat && (n <=? 90)%nat) ||
  ((97 <=? n)%nat && (n <=? 122)%nat) ||
  (n =? 95)%nat.

(** [re.findall(r'\w+', s)]: the maximal runs of word characters, left to
    right.  [cur] is the run being read, in reverse. *)
Fixpoint findall_word_from (cur : list ascii) (cs : list ascii) : list (list ascii) :=
  match cs with
  | [] => match cur with [] => [] | _ => [rev cur] end
  | c :: cs' =>
      if is_word_char c then findall_word_from (c :: cur) cs'
      else match cur with
           | [] => findall_word_from [] cs'
           | _ => rev cur :: findall_word_from [] cs'
           end
  end.

Definition findall_word (s : string) : list string :=
  map str (findall_word_from [] (chars s)).

(** [collections.Counter(words)]: a dict from word to count; iteration is
    in order of first occurrence. *)
Fixpoint counter_add (w : string) (c : list (string * nat)) : list (string * nat) :=
  match c with
  | [] => [(w, 1%nat)]
  | (w', n) :: c' =>
      if String.eqb w w' then (w', S n) :: c' else (w', n) :: counter_add w c'
  end.

Definition Counter (words : list string) : list (string * nat) :=
  fold_left (fun c w => counter_add w c) words [].

(** [s.startswith(t)] and [s.endswith(t)] *)
Definition startswith (s t : string) : bool := starts_with (chars t) (chars s).
Definition endswith (s t : string) : bool :=
  starts_with (rev (chars t)) (rev (chars s)).

(** The class [\s] on ASCII text: tab to carriage return, the four
    separators 28 to 31, and the space. *)
Definition is_space (c : ascii) : bool :=
  let n := nat_of_ascii c in
  ((9 <=? n)%nat && (n <=? 13)%nat) || ((28 <=? n)%nat && (n <=? 32)%nat).

(** [re.sub(r'\s+', ' ', s)]: every maximal run of white space becomes one
    space.  [in_run] tells that the previous character was white space. *)
Fixpoint collapse_spaces_from (in_run : bool) (cs : list ascii) : list ascii :=
  match cs with
  | [] => []
  | c :: cs' =>
      if is_space c
      then (if in_run then collapse_spaces_from true cs'
            else " "%char :: collapse_spaces_from true cs')
      else c :: collapse_spaces_from false cs'
  end.

Definition collapse_spaces (s : string) : string :=
  str (collapse_spaces_from false (chars s)).

(** Truthiness of a string: [not s] holds for the empty string only. *)
Definition truthy (s : string) : bool :=
  match s with EmptyString => false | _ => true end.

End Py.

(* ===================================================================== *)
(** ** engine/db.py: the SQLite store *)
(* ===================================================================== *)

Module SearchDatabase.

(** Rows of the four tables the indexer and the crawler write.  The page
    cache table is not touched by any function embedded here and is left
    out.  Timestamps are the ISO strings the code stores. *)
Record document := mk_document {
  doc_id : Z;                 (* id INTEGER PRIMARY KEY *)
  doc_url : string;           (* url TEXT UNIQUE NOT NULL *)
  doc_title : string;
  doc_content : string;
  doc_domain : string;
  doc_indexed_date : string;
  doc_last_updated : string;
  doc_status : Z              (* status INTEGER DEFAULT 1 *)
}.

Record index_entry := mk_index_entry {
  ie_word : string;           (* PRIMARY KEY (word, doc_id) *)
  ie_doc_id : Z;
  ie_frequency : Q;
  ie_importance : Q           (* importance REAL DEFAULT 1.0 *)
}.

Record metadata_row := mk_metadata_row {
  md_key : string;            (* key TEXT PRIMARY KEY *)
  md_value : string;
  md_updated : string
}.

Record visit := mk_visit {
  cv_url : string;            (* url TEXT PRIMARY KEY *)
  cv_visit_date : string;
  cv_depth : Z;
  cv_success : Z              (* success INTEGER DEFAULT 1 *)
}.

Record t := mk_db {
  documents : list document;
  index_entries : list index_entry;
  metadata : list metadata_row;
  crawler_visits : list visit
}.

Definition empty : t := mk_db [] [] [] [].

(** *** SQLite behaviour used by the statements below *)

(** The rowid given to a row inserted without an id: one more than the
    largest id in the table, 1 in an empty table.  (Ids stay far below
    2^63 - 1, where SQLite would switch to random probing.) *)
Definition next_rowid (rows : list document) : Z :=
  1 + fold_right Z.max 0 (map doc_id rows).

(** Numeric value of a TEXT cell in arithmetic, for a cell that holds the
    decimal text of an integer and a result within 64 bits, which is what
    this program stores under [doc_count].  Outside of that SQLite reads a
    numeric prefix and switches to REAL on overflow, which is not modelled:
    the value given here for other text, 0, is not SQLite's.  The general
    statements about the counter are made for a cell that is
    [doc_count_is n] with room below [max_integer]. *)
Definition sql_integer (s : string) : Z :=
  match NilZero.int_of_string s with
  | Some d => Z.of_int d
  | None => 0
  end.

(** An integer stored into a column of TEXT affinity becomes its decimal text. *)
Definition sql_text (z : Z) : string := NilZero.string_of_int (Z.to_int z).

(** The smallest and largest INTEGER of SQLite. *)
Definition min_integer : Z := - 2 ^ 63.
Definition max_integer : Z := 2 ^ 63 - 1.

(** [INSERT OR IGNORE INTO metadata (key, value, updated) VALUES (?, ?, ?)] *)
Definition insert_or_ignore_metadata (k v now : string) (rows : list metadata_row)
  : list metadata_row :=
  if existsb (fun r => String.eqb (md_key r) k) rows then rows
  else rows ++ [mk_metadata_row k v now].

(** [INSERT OR REPLACE INTO metadata (key, value, updated) VALUES (?, ?, ?)] *)
Definition insert_or_replace_metadata (k v now : string) (rows : list metadata_row)
  : list metadata_row :=
  filter (fun r => md_key r ≠ k) rows ++ [mk_metadata_row k v now].

(** *** The methods of [SearchDatabase] *)

(** [init_db]: the tables exist afterwards and the two counters are seeded
    unless present. *)
Definition init_db (now : string) (db : t) : t :=
  mk_db (documents db) (index_entries db)
        (insert_or_ignore_metadata "last_crawl_time" "0" now
           (insert_or_ignore_metadata "doc_count" "0" now (metadata db)))
        (crawler_visits db).

(** [add_document(url, title, content, domain)].

    [INSERT OR REPLACE INTO documents (url, ...)]: the new rowid is drawn
    first, then the row holding the same url (the UNIQUE conflict) is
    deleted, then the new row is written with the default status.
    [cursor.lastrowid] is that new rowid.

    [UPDATE metadata SET value = value + 1, updated = ? WHERE key =
    'doc_count' AND NOT EXISTS (SELECT 1 FROM documents WHERE url = ? AND
    id != ?)] follows, on the table as the insert left it. *)
Definition add_document (now url title content domain : string) (db : t) : Z * t :=
  let rid := next_rowid (documents db) in
  let docs :=
    filter (fun d => doc_url d ≠ url) (documents db)
      ++ [mk_document rid url title content domain now now 1] in
  let other_row_same_url :=
    existsb (fun d => String.eqb (doc_url d) url && negb (doc_id d =? rid)) docs in
  let meta :=
    map (fun r =>
           if String.eqb (md_key r) "doc_count" && negb other_row_same_url
           then mk_metadata_row (md_key r) (sql_text (sql_integer (md_value r) + 1)) now
           else r)
        (metadata db) in
  (rid, mk_db docs (index_entries db) meta (crawler_visits db)).

(** [for (url, title, content, domain) in batch: db.add_document(...)],
    the store after the calls. *)
Definition add_documents (now : string) (batch : list (string * string * string * string))
           (db : t) : t :=
  foldl (λ db doc,
           let '(url, title, content, domain) := doc in
           (add_document now url title content domain db).2)
        db batch.

(** [INSERT INTO index_entries (word, doc_id, frequency) VALUES (?, ?, ?)]:
    fails with an integrity error ([None]) when the key (word, doc_id) is
    taken; the importance column takes its default, 1.0. *)
Definition insert_index_entry (word : string) (doc : Z) (frequency : Q)
           (rows : list index_entry) : option (list index_entry) :=
  if existsb (fun e => String.eqb (ie_word e) word && (ie_doc_id e =? doc)) rows
  then None
  else Some (rows ++ [mk_index_entry word doc frequency 1]).

(** [update_index(doc_id, word_frequencies)]: delete the postings of
    [doc_id], insert one posting per item of the dict, commit.  An
    integrity error leaves the method before the commit: [None]. *)
Definition update_index (doc : Z) (word_frequencies : list (string * Q)) (db : t)
  : option t :=
  let cleared := filter (fun e => ie_doc_id e ≠ doc) (index_entries db) in
  rows ← foldl (fun acc wf => acc ≫= insert_index_entry wf.1 doc wf.2)
               (Some cleared) word_frequencies;
  Some (mk_db (documents db) rows (metadata db) (crawler_visits db)).

(** [mark_url_visited(url, depth, success)]:
    [INSERT OR REPLACE INTO crawler_visits]. *)
Definition mark_url_visited (now url : string) (depth : Z) (success : bool) (db : t) : t :=
  mk_db (documents db) (index_entries db) (metadata db)
        (filter (fun v => cv_url v ≠ url) (crawler_visits db)
           ++ [mk_visit url now depth (if success then 1 else 0)]).

(** [is_url_visited(url)] *)
Definition is_url_visited (url : string) (db : t) : bool :=
  existsb (fun v => String.eqb (cv_url v) url) (crawler_visits db).

(** [update_metadata(key, value)], with [str(value)] already taken. *)
Definition update_metadata (now key value : string) (db : t) : t :=
  mk_db (documents db) (index_entries db)
        (insert_or_replace_metadata key value now (metadata db))
        (crawler_visits db).

(** [get_metadata(key, default)] *)
Definition get_metadata (key default : string) (db : t) : string :=
  match filter (fun r => md_key r = key) (metadata db) with
  | r :: _ => md_value r
  | [] => default
  end.

(** The [doc_count] cell is there and holds the decimal text of [n]. *)
Definition doc_count_is (n : Z) (db : t) : Prop :=
  (∃ r, r ∈ metadata db ∧ md_key r = "doc_count") ∧
  ∀ r, r ∈ metadata db → md_key r = "doc_count" → md_value r = sql_text n.

(** [get_document(url)] *)
Definition get_document (url : string) (db : t) : option document :=
  head (filter (fun d => doc_url d = url) (documents db)).

(** [SELECT COUNT( * ) FROM documents WHERE status = 1], the number of
    active documents. *)
Definition active_documents (db : t) : nat :=
  length (filter (fun d => doc_status d = 1) (documents db)).

(** Postings of one document: [SELECT * FROM index_entries WHERE doc_id = ?]. *)
Definition postings_of (doc : Z) (db : t) : list index_entry :=
  filter (fun e => ie_doc_id e = doc) (index_entries db).

(** *** Search: the number of matches *)

(** [AND d.indexed_date <= ?], present when a time filter is given; TEXT
    values compare byte by byte. *)
Definition in_time_filter (time_filter : option string) (d : document) : bool :=
  match time_filter with
  | Some t => negb (Py.truthy t) || String.leb (doc_indexed_date d) t
  | None => true
  end.

(** The [d.id] column of [documents d JOIN index_entries i ON d.id =
    i.doc_id WHERE i.word IN (...) AND d.status = 1], one value per joined
    row. *)
Definition search_rows (query_tokens : list string) (time_filter : option string)
           (db : t) : list Z :=
  flat_map
    (fun d =>
       map (fun _ => doc_id d)
           (List.filter
              (fun i => (ie_doc_id i =? doc_id d)
                        && existsb (String.eqb (ie_word i)) query_tokens)
              (index_entries db)))
    (List.filter (fun d => (doc_status d =? 1) && in_time_filter time_filter d)
                 (documents db)).

(** The second value of [search(query_tokens, page, results_per_page,
    time_filter)]: 0 for an empty token list, else [SELECT COUNT(DISTINCT
    d.id)] over the join. *)
Definition search_total (query_tokens : list string) (time_filter : option string)
           (db : t) : nat :=
  match query_tokens with
  | [] => 0%nat
  | _ :: _ => length (remove_dups (search_rows query_tokens time_filter db))
  end.

(** *** Snippets *)

(** [sum(1 for token in query_tokens if token in window)] *)
Definition count_matches (query_tokens : list string) (window : string) : nat :=
  length (filter (fun token => Py.contains token window = true) query_tokens).

(** One turn of the scan in [_generate_snippet], on the pair
    [(best_start, max_matches)]. *)
Definition scan_step (content_lower : string) (query_tokens : list string)
           (acc : nat * nat) (i : nat) : nat * nat :=
  let window := Py.slice content_lower i (i + 100) in
  let matches := count_matches query_tokens window in
  if (acc.2 <? matches)%nat then (i, matches) else acc.

(** [for i in range(len(content) - 50): ...], from [best_start = 0] and
    [max_matches = 0]; an empty range when the content has at most 50
    characters. *)
Definition scan_windows (content_lower : string) (query_tokens : list string)
           (content_len : nat) : nat * nat :=
  foldl (scan_step content_lower query_tokens) (0%nat, 0%nat)
        (seq 0 (content_len - 50)).

(** [_generate_snippet(content, query_tokens, max_length=160)] *)
Definition _generate_snippet (content : string) (query_tokens : list string)
           (max_length : nat) : string :=
  if negb (Py.truthy content) then ""
  else
    let content_lower := Py.lower content in
    let best_start := (scan_windows content_lower query_tokens (Py.len content)).1 in
    let start := Nat.max 0 (best_start - 20) in
    let end_ := Nat.min (Py.len content) (best_start + max_length) in
    let snippet := Py.slice content start end_ in
    let snippet := if (0 <? start)%nat then "..." +:+ snippet else snippet in
    let snippet := if (end_ <? Py.len content)%nat then snippet +:+ "..." else snippet in
    snippet.

Definition default_max_length : nat := 160.

End SearchDatabase.

(* ===================================================================== *)
(** ** urllib.parse: the shape of a parsed URL *)
(* ===================================================================== *)

Module Urllib.

(** The fields of [urlparse(url)] the code reads.  The parser itself
    belongs to the Python library; the functions below take it as a
    parameter, [None] standing for the [ValueError] it can raise. *)
Record ParseResult := mk_parse_result {
  scheme : string;
  netloc : string;
  path : string;
  query : string
}.

End Urllib.

(* ===================================================================== *)
(** ** engine/search.py: tokenizer and indexer (database mode) *)
(* ===================================================================== *)

Module SearchEngine.

(** What a call leaves behind: a returned value, or an exception that
    travels up to the caller. *)
Inductive result (A : Type) : Type :=
| Returned (a : A)
| Raised.
Arguments Returned {A} a.
Arguments Raised {A}.

(** The engine with [use_db = True]: the store and the cached count. *)
Record t := mk_engine {
  db : SearchDatabase.t;
  doc_count : Z
}.

Definition stopwords : list string :=
  ["a"; "an"; "the"; "and"; "or"; "but"; "is"; "are"; "in"; "on"; "of"; "to";
   "for"; "with"].

(** [_tokenize(text)] *)
Definition _tokenize (text : string) : list string :=
  if negb (Py.truthy text) then []
  else
    let words := Py.findall_word (Py.lower text) in
    List.filter
      (fun word => (1 <? Py.len word)%nat && negb (existsb (String.eqb word) stopwords))
      words.

(** [{word: count/total_words for word, count in word_freq.items()}] *)
Definition normalize_frequencies (word_freq : list (string * nat)) (total_words : nat)
  : list (string * Q) :=
  map (fun wc => (wc.1, Z.of_nat wc.2 # Pos.of_nat total_words)) word_freq.

(** [int(self.db.get_metadata('doc_count', 0))], for a cell that holds the
    decimal text of an integer (or no cell, where the default 0 is read).
    On other text [int] raises ValueError, after the document and its
    postings have been committed; that exception is not modelled. *)
Definition read_doc_count (d : SearchDatabase.t) : Z :=
  SearchDatabase.sql_integer (SearchDatabase.get_metadata "doc_count" "0" d).

Section Indexer.

Variable urlparse : string → option Urllib.ParseResult.

(** The domain handed to the store: the netloc of the url, the empty
    string when parsing raises, overridden by [metadata["domain"]] when
    a non-empty metadata dict carries that key. *)
Definition document_domain (url : string) (metadata : option (gmap string string))
  : string :=
  let domain :=
    match urlparse url with
    | Some parsed => Urllib.netloc parsed
    | None => ""
    end in
  match metadata with
  | Some md =>
      if bool_decide (md = ∅) then domain
      else default domain (md !! "domain")
  | None => domain
  end.

(** [add_document(url, title, content, metadata=None)] in database mode.
    An integrity error of [update_index] leaves through the caller, after
    the document row has been committed. *)
Definition add_document (now url title content : string)
           (metadata : option (gmap string string)) (e : t)
  : result (option Z) * t :=
  if negb (Py.truthy url) || negb (Py.truthy content) then (Returned None, e)
  else
    let domain := document_domain url metadata in
    let '(doc_id, db1) := SearchDatabase.add_document now url title content domain (db e) in
    let words := _tokenize (title +:+ " " +:+ content) in
    match words with
    | [] =>
        (Returned (Some doc_id), mk_engine db1 (read_doc_count db1))
    | _ :: _ =>
        let word_freq := Py.Counter words in
        let total_words := length words in
        let word_frequencies := normalize_frequencies word_freq total_words in
        match SearchDatabase.update_index doc_id word_frequencies db1 with
        | Some db2 => (Returned (Some doc_id), mk_engine db2 (read_doc_count db2))
        | None => (Raised, mk_engine db1 (doc_count e))
        end
    end.

End Indexer.

(** [SearchEngine(db_path)] on a fresh database file. *)
Definition create (now : string) : t :=
  let d := SearchDatabase.init_db now SearchDatabase.empty in
  mk_engine d (read_doc_count d).

(** The second value of [search(query)] in database mode, with no time
    period: the number of matching documents. *)
Definition search_total (query : string) (e : t) : nat :=
  let query_tokens := _tokenize query in
  match query_tokens with
  | [] => 0%nat
  | _ :: _ => SearchDatabase.search_total query_tokens None (db e)
  end.

(** [clear_index()] in database mode: [DELETE FROM index_entries], [DELETE
    FROM documents], [UPDATE metadata SET value = '0' WHERE key =
    'doc_count'], and the cached count set to 0. *)
Definition clear_index (e : t) : t :=
  let d := db e in
  mk_engine
    (SearchDatabase.mk_db
       [] []
       (map (fun r =>
               if String.eqb (SearchDatabase.md_key r) "doc_count"
               then SearchDatabase.mk_metadata_row (SearchDatabase.md_key r) "0"
                      (SearchDatabase.md_updated r)
               else r)
            (SearchDatabase.metadata d))
       (SearchDatabase.crawler_visits d))
    0.

End SearchEngine.

(* ===================================================================== *)
(** ** heapq, as used by queue.PriorityQueue *)
(* ===================================================================== *)

Module Heapq.

Section Heap.

Context {A : Type}.
Variable lt : A → A → bool.   (* [x < y] on items *)

(** The [while] loop of [_siftdown(heap, startpos, pos)], with [newitem]
    held aside.  [pos] shrinks at every turn, so [fuel = pos] turns are
    always enough. *)
Fixpoint siftdown_loop (fuel : nat) (heap : list A) (startpos pos : nat) (newitem : A)
  : list A :=
  match fuel with
  | O => <[pos := newitem]> heap
  | S fuel' =>
      if (startpos <? pos)%nat then
        let parentpos := ((pos - 1) / 2)%nat in
        match heap !! parentpos with
        | Some parent =>
            if lt newitem parent
            then siftdown_loop fuel' (<[pos := parent]> heap) startpos parentpos newitem
            else <[pos := newitem]> heap
        | None => <[pos := newitem]> heap
        end
      else <[pos := newitem]> heap
  end.

Definition _siftdown (heap : list A) (startpos pos : nat) : list A :=
  match heap !! pos with
  | Some newitem => siftdown_loop pos heap startpos pos newitem
  | None => heap
  end.

(** [heappush(heap, item)] *)
Definition heappush (heap : list A) (item : A) : list A :=
  _siftdown (heap ++ [item]) 0 (length heap).

(** The [while childpos < endpos] loop of [_siftup]: the smaller child
    moves up until a leaf is reached; returns the heap and the leaf
    position.  Every turn at least doubles [pos + 1], so [fuel = endpos]
    turns are enough. *)
Fixpoint siftup_loop (fuel : nat) (heap : list A) (endpos pos : nat) : list A * nat :=
  match fuel with
  | O => (heap, pos)
  | S fuel' =>
      let childpos := (2 * pos + 1)%nat in
      if (childpos <? endpos)%nat then
        let rightpos := (childpos + 1)%nat in
        let childpos :=
          match heap !! childpos, heap !! rightpos with
          | Some l, Some r =>
              if (rightpos <? endpos)%nat && negb (lt l r) then rightpos else childpos
          | _, _ => childpos
          end in
        match heap !! childpos with
        | Some child => siftup_loop fuel' (<[pos := child]> heap) endpos childpos
        | None => (heap, pos)
        end
      else (heap, pos)
  end.

Definition _siftup (heap : list A) (pos : nat) : list A :=
  match heap !! pos with
  | Some newitem =>
      let '(heap1, leaf) := siftup_loop (length heap) heap (length heap) pos in
      _siftdown (<[leaf := newitem]> heap1) pos leaf
  | None => heap
  end.

(** [heappop(heap)]: [None] is the [IndexError] on an empty heap. *)
Definition heappop (heap : list A) : option (A * list A) :=
  match last heap with
  | None => None
  | Some lastelt =>
      let heap1 := take (length heap - 1) heap in
      match heap1 with
      | [] => Some (lastelt, [])
      | returnitem :: _ => Some (returnitem, _siftup (<[0%nat := lastelt]> heap1) 0)
      end
  end.

(** The heap invariant: no item is smaller than its parent. *)
Definition is_heap (heap : list A) : Prop :=
  ∀ k child parent, (0 < k)%nat →
    heap !! k = Some child → heap !! ((k - 1) / 2)%nat = Some parent →
    lt child parent = false.

End Heap.

End Heapq.

(* ===================================================================== *)
(** ** engine/advanced_crawler.py: SmartCrawler *)
(* ===================================================================== *)

Module SmartCrawler.

(** An entry of [recent_urls]. *)
Record recent_url := mk_recent_url {
  ru_url : string;
  ru_title : string;
  ru_domain : string
}.

(** The [crawl_stats] dict.  [max_depth] and [force_recrawl] are the two
    keys that only [crawl] adds. *)
Record stats := mk_stats {
  crawled : Z;
  queued : Z;
  indexed : Z;
  errors : Z;
  skipped_duplicates : Z;
  start_time : Q;
  status : string;
  current_url : string;
  recent_urls : list recent_url;
  max_depth : option Z;
  domains_crawled : Z;
  content_types : gmap string Z;
  robots_blocked : Z;
  stat_force_recrawl : option bool
}.

(** The dict [__init__] installs. *)
Definition initial_stats : stats :=
  mk_stats 0 0 0 0 0 0 "idle" "" [] None 0 ∅ 0 None.

(** A queue entry [(priority, (url, depth))]. *)
Definition item : Type := Z * (string * Z).

(** [x < y] on entries: Python compares tuples lexicographically, strings
    by character code. *)
Definition item_lt (x y : item) : bool :=
  let '(p1, (u1, d1)) := x in
  let '(p2, (u2, d2)) := y in
  (p1 <? p2) ||
  ((p1 =? p2) && (String.ltb u1 u2 || (String.eqb u1 u2 && (d1 <? d2)))).

(** The mutable attributes of a crawler that the embedded methods read or
    write.  [queue] is the heap list [self.queue.queue]. *)
Record t := mk_crawler {
  search_engine : SearchEngine.t;
  visited_urls : gset string;
  queue : list item;
  crawl_stats : stats;
  domain_access_times : gmap string Q;
  min_crawl_delay : Q;
  content_fingerprints : gmap string string;
  domain_importance : gmap string Z;
  force_recrawl : bool
}.

(** [SmartCrawler(search_engine)] with no settings file. *)
Definition create (e : SearchEngine.t) : t :=
  mk_crawler e ∅ [] initial_stats ∅ 1 ∅ ∅ false.

(** *** Attribute and key assignments *)

Definition set_search_engine (e : SearchEngine.t) (c : t) : t :=
  mk_crawler e (visited_urls c) (queue c) (crawl_stats c) (domain_access_times c)
             (min_crawl_delay c) (content_fingerprints c) (domain_importance c)
             (force_recrawl c).
Definition set_visited_urls (v : gset string) (c : t) : t :=
  mk_crawler (search_engine c) v (queue c) (crawl_stats c) (domain_access_times c)
             (min_crawl_delay c) (content_fingerprints c) (domain_importance c)
             (force_recrawl c).
Definition set_queue (q : list item) (c : t) : t :=
  mk_crawler (search_engine c) (visited_urls c) q (crawl_stats c) (domain_access_times c)
             (min_crawl_delay c) (content_fingerprints c) (domain_importance c)
             (force_recrawl c).
Definition set_crawl_stats (s : stats) (c : t) : t :=
  mk_crawler (search_engine c) (visited_urls c) (queue c) s (domain_access_times c)
             (min_crawl_delay c) (content_fingerprints c) (domain_importance c)
             (force_recrawl c).
Definition set_domain_access_times (m : gmap string Q) (c : t) : t :=
  mk_crawler (search_engine c) (visited_urls c) (queue c) (crawl_stats c) m
             (min_crawl_delay c) (content_fingerprints c) (domain_importance c)
             (force_recrawl c).
Definition set_content_fingerprints (m : gmap string string) (c : t) : t :=
  mk_crawler (search_engine c) (visited_urls c) (queue c) (crawl_stats c)
             (domain_access_times c) (min_crawl_delay c) m (domain_importance c)
             (force_recrawl c).

Definition add_crawled (n : Z) (s : stats) : stats :=
  mk_stats (crawled s + n) (queued s) (indexed s) (errors s) (skipped_duplicates s)
           (start_time s) (status s) (current_url s) (recent_urls s) (max_depth s)
           (domains_crawled s) (content_types s) (robots_blocked s) (stat_force_recrawl s).
Definition add_queued (n : Z) (s : stats) : stats :=
  mk_stats (crawled s) (queued s + n) (indexed s) (errors s) (skipped_duplicates s)
           (start_time s) (status s) (current_url s) (recent_urls s) (max_depth s)
           (domains_crawled s) (content_types s) (robots_blocked s) (stat_force_recrawl s).
Definition add_indexed (n : Z) (s : stats) : stats :=
  mk_stats (crawled s) (queued s) (indexed s + n) (errors s) (skipped_duplicates s)
           (start_time s) (status s) (current_url s) (recent_urls s) (max_depth s)
           (domains_crawled s) (content_types s) (robots_blocked s) (stat_force_recrawl s).
Definition add_errors (n : Z) (s : stats) : stats :=
  mk_stats (crawled s) (queued s) (indexed s) (errors s + n) (skipped_duplicates s)
           (start_time s) (status s) (current_url s) (recent_urls s) (max_depth s)
           (domains_crawled s) (content_types s) (robots_blocked s) (stat_force_recrawl s).
Definition add_skipped_duplicates (n : Z) (s : stats) : stats :=
  mk_stats (crawled s) (queued s) (indexed s) (errors s) (skipped_duplicates s + n)
           (start_time s) (status s) (current_url s) (recent_urls s) (max_depth s)
           (domains_crawled s) (content_types s) (robots_blocked s) (stat_force_recrawl s).
Definition add_domains_crawled (n : Z) (s : stats) : stats :=
  mk_stats (crawled s) (queued s) (indexed s) (errors s) (skipped_duplicates s)
           (start_time s) (status s) (current_url s) (recent_urls s) (max_depth s)
           (domains_crawled s + n) (content_types s) (robots_blocked s)
           (stat_force_recrawl s).
Definition add_robots_blocked (n : Z) (s : stats) : stats :=
  mk_stats (crawled s) (queued s) (indexed s) (errors s) (skipped_duplicates s)
           (start_time s) (status s) (current_url s) (recent_urls s) (max_depth s)
           (domains_crawled s) (content_types s) (robots_blocked s + n)
           (stat_force_recrawl s).
Definition set_current_url (u : string) (s : stats) : stats :=
  mk_stats (crawled s) (queued s) (indexed s) (errors s) (skipped_duplicates s)
           (start_time s) (status s) u (recent_urls s) (max_depth s)
           (domains_crawled s) (content_types s) (robots_blocked s) (stat_force_recrawl s).
Definition set_recent_urls (r : list recent_url) (s : stats) : stats :=
  mk_stats (crawled s) (queued s) (indexed s) (errors s) (skipped_duplicates s)
           (start_time s) (status s) (current_url s) r (max_depth s)
           (domains_crawled s) (content_types s) (robots_blocked s) (stat_force_recrawl s).

(** [self.crawl_stats[key] = f(self.crawl_stats[key])] *)
Definition update_stats (f : stats → stats) (c : t) : t :=
  set_crawl_stats (f (crawl_stats c)) c.

(** [self.visited_urls.add(url)] *)
Definition visit (url : string) (c : t) : t :=
  set_visited_urls ({[url]} ∪ visited_urls c) c.

(** [self.queue.put(entry)] *)
Definition queue_put (entry : item) (c : t) : t :=
  set_queue (Heapq.heappush item_lt (queue c) entry) c.

(** *** State snapshots *)

(** What [pickle.load] can hand back from a state file: a dict in which
    each of the five keys may be missing (a file written by other code).
    gzip and pickle themselves belong to the Python library and are taken
    to return what was written. *)
Record saved_state := mk_saved_state {
  saved_visited_urls : option (list string);
  saved_queue : option (list item);
  saved_crawl_stats : option stats;
  saved_domain_access_times : option (gmap string Q);
  saved_content_fingerprints : option (gmap string string)
}.

(** A record that lacks one of the five keys. *)
Definition lacks_key (s : saved_state) : Prop :=
  saved_visited_urls s = None ∨ saved_queue s = None ∨ saved_crawl_stats s = None ∨
  saved_domain_access_times s = None ∨ saved_content_fingerprints s = None.

(** A file on disk: bytes that do not unpickle, or a pickled state. *)
Inductive file : Type :=
| Unreadable
| Pickled (s : saved_state).

(** What the file system makes of the write in [save_state]:
    [gzip.open(filename, 'wb')] followed by [pickle.dump(state, f)]. *)
Inductive write_outcome : Type :=
| Written        (* both calls return *)
| OpenRaises     (* gzip.open raises: empty name, missing directory, no permission *)
| DumpRaises.    (* the file was opened, and so emptied; pickle.dump raises *)

(** [save_state(filename)].  [write] is the answer of the file system for
    each name.  Any exception inside the [try] block ends in the [except]
    branch, which returns [False]; a file that was opened before the
    exception is left with bytes that do not unpickle. *)
Definition save_state (write : string → write_outcome) (filename : string) (c : t)
           (files : gmap string file) : bool * gmap string file :=
  let state :=
    mk_saved_state (Some (elements (visited_urls c)))
                   (Some (queue c))
                   (Some (crawl_stats c))
                   (Some (domain_access_times c))
                   (Some (content_fingerprints c)) in
  match write filename with
  | Written => (true, <[filename := Pickled state]> files)
  | OpenRaises => (false, files)
  | DumpRaises => (false, <[filename := Unreadable]> files)
  end.

(** [load_state(filename)].  The assignments run in source order; a
    missing key raises at its own line, and the [except] branch returns
    [False] with the assignments made so far kept. *)
Definition load_state (filename : string) (c : t) (files : gmap string file)
  : bool * t :=
  match files !! filename with
  | None => (false, c)                          (* not os.path.exists *)
  | Some Unreadable => (false, c)               (* gzip / pickle raises *)
  | Some (Pickled state) =>
      match saved_visited_urls state with
      | None => (false, c)
      | Some urls =>
          let c := set_visited_urls (list_to_set urls) c in
          let c := set_queue [] c in
          match saved_queue state with
          | None => (false, c)
          | Some entries =>
              let c := foldl (fun c entry => queue_put entry c) c entries in
              match saved_crawl_stats state with
              | None => (false, c)
              | Some s =>
                  let c := set_crawl_stats s c in
                  match saved_domain_access_times state with
                  | None => (false, c)
                  | Some times =>
                      let c := set_domain_access_times times c in
                      match saved_content_fingerprints state with
                      | None => (false, c)
                      | Some fingerprints =>
                          (true, set_content_fingerprints fingerprints c)
                      end
                  end
              end
          end
      end
  end.

(** *** Priorities and fingerprints *)

Section Parsing.

Variable urlparse : string → option Urllib.ParseResult.

(** [compute_url_priority(url, depth, source_importance=5)].  The only
    exception the body can meet is the parser's, answered by 50. *)
Definition compute_url_priority (c : t) (url : string) (depth source_importance : Z) : Z :=
  match urlparse url with
  | None => 50
  | Some parsed_url =>
      let domain := Urllib.netloc parsed_url in
      let priority := depth * 10 in
      let priority :=
        match domain_importance c !! domain with
        | Some importance => priority - importance
        | None => priority
        end in
      let query_params :=
        if Py.truthy (Urllib.query parsed_url)
        then length (Py.split "&" (Urllib.query parsed_url))
        else 0%nat in
      let priority := priority + Z.of_nat query_params in
      let path_segments := length (Py.split "/" (Urllib.path parsed_url)) in
      let priority := priority + Z.of_nat path_segments / 2 in
      let priority := priority - source_importance in
      Z.max 1 (Z.min 100 priority)
  end.

Definition default_source_importance : Z := 5.

End Parsing.

Section Fingerprints.

Variable md5_hexdigest : string → string.    (* hashlib.md5(...).hexdigest() *)

(** [compute_content_fingerprint(content, title="")] *)
Definition compute_content_fingerprint (content title : string) : string :=
  let text := Py.collapse_spaces content in
  let text :=
    if Py.truthy title then title +:+ " " +:+ title +:+ " " +:+ text else text in
  md5_hexdigest text.

End Fingerprints.

(** [is_duplicate_content(fingerprint, url)] *)
Definition is_duplicate_content (fingerprint url : string) (c : t) : bool * t :=
  match content_fingerprints c !! fingerprint with
  | Some _ => (true, c)
  | None => (false, set_content_fingerprints (<[fingerprint := url]> (content_fingerprints c)) c)
  end.

(** What duplicate detection reads and writes: the fingerprint table and
    the counter of skipped pages. *)
Definition dedup_view (c : t) : gmap string string * Z :=
  (content_fingerprints c, skipped_duplicates (crawl_stats c)).

(** *** The world outside the crawler *)

(** What the robots parser of a host says about one url: a failure
    anywhere in the lookup, or the [Crawl-delay] for [*] and the verdict
    of [can_fetch("*", url)]. *)
Inductive robots_answer : Type :=
| RobotsFailure
| RobotsRules (crawl_delay : option Q) (can_fetch : bool).

(** What [requests.get(url, ...)] does: raise, or answer with a body, a
    status code and possibly a [Content-Type] header. *)
Inductive http_result : Type :=
| RequestException
| OtherException
| Response (text : string) (status_code : Z) (content_type : option string).

(** What an observer of the crawler sees. *)
Inductive event : Type :=
| Broadcast (status : string)      (* _broadcast_update({"status": ...}) *)
| HttpGet (url : string)           (* requests.get(url, ...) *)
| Sleep (delay : Q).               (* time.sleep(delay) *)

(** The urls requested, in order: the arguments of the [HttpGet] events. *)
Definition fetched (events : list event) : list string :=
  omap (λ ev, match ev with HttpGet url => Some url | _ => None end) events.

(** The library calls the crawl loop makes, as parameters.  [None] from
    an extractor is an exception raised inside it.  The clock is read as
    one value. *)
Record environment := mk_environment {
  urlparse : string → option Urllib.ParseResult;
  md5_hexdigest : string → string;
  robots : string → robots_answer;
  http_get : string → http_result;
  extract_text_content : string → string → option (string * string);
  extract_metadata : string → string → option (gmap string string);
  extract_links : string → string → option (list (string * string));
  isoformat_now : string;          (* datetime.now().isoformat() *)
  time_time : Q                    (* time.time() *)
}.

(** *** The steps of the crawl loop *)

(** [is_allowed_by_robots(url)]: any exception inside answers [True]. *)
Definition is_allowed_by_robots (env : environment) (url : string) (c : t) : bool * t :=
  match urlparse env url with
  | None => (true, c)
  | Some parsed_url =>
      let domain := Urllib.netloc parsed_url in
      match robots env url with
      | RobotsFailure => (true, c)
      | RobotsRules crawl_delay can_fetch =>
          let c :=
            match crawl_delay with
            | Some delay =>
                if Qeq_bool delay 0 then c
                else
                  let longest :=
                    if Qle_bool delay (min_crawl_delay c) then min_crawl_delay c else delay in
                  set_domain_access_times (<[domain := longest]> (domain_access_times c)) c
            | None => c
            end in
          (can_fetch, c)
      end
  end.

(** [_apply_rate_limiting(url)]; [None] when parsing the url raises. *)
Definition _apply_rate_limiting (env : environment) (url : string) (c : t)
  : option (t * list event) :=
  match urlparse env url with
  | None => None
  | Some parsed_url =>
      let domain := Urllib.netloc parsed_url in
      let waits :=
        match domain_access_times c !! domain with
        | Some last_access_time =>
            let time_since_last := (time_time env - last_access_time)%Q in
            let min_delay := min_crawl_delay c in
            if negb (Qle_bool min_delay time_since_last)
            then [Sleep (min_delay - time_since_last)%Q]
            else []
        | None => []
        end in
      Some (set_domain_access_times (<[domain := time_time env]> (domain_access_times c)) c,
            waits)
  end.

Definition skipped_extensions : list string :=
  [".pdf"; ".jpg"; ".jpeg"; ".png"; ".gif"; ".zip"; ".exe"; ".doc"; ".docx"].

(** One turn of the [for] loop of [_add_links_to_queue], on
    [(links_added, crawler)]. *)
Definition add_link (env : environment) (next_depth : Z) (acc : nat * t)
           (link : string * string) : nat * t :=
  let '(links_added, c) := acc in
  let link_url := link.1 in
  if bool_decide (link_url ∈ visited_urls c) then acc
  else if negb (force_recrawl c)
          && SearchDatabase.is_url_visited link_url (SearchEngine.db (search_engine c))
  then acc
  else if negb (Py.startswith link_url "http://" || Py.startswith link_url "https://")
  then acc
  else
    match urlparse env link_url with
    | None => acc
    | Some parsed_url =>
        let path := Py.lower (Urllib.path parsed_url) in
        if existsb (Py.endswith path) skipped_extensions then acc
        else
          let priority :=
            compute_url_priority (urlparse env) c link_url next_depth
                                 default_source_importance in
          let c := queue_put (priority, (link_url, next_depth)) c in
          (S links_added, update_stats (add_queued 1) c)
    end.

(** [_add_links_to_queue(links, current_depth)] *)
Definition _add_links_to_queue (env : environment) (links : list (string * string))
           (current_depth : Z) (c : t) : nat * t :=
  let next_depth := current_depth + 1 in
  let max_links := Nat.min 100 (length links) in
  foldl (add_link env next_depth) (0%nat, c) (take max_links links).

(** The [try] block "Process content directly" of [_crawl_thread]:
    extract, index, follow links.  Any exception ends the block with what
    was done so far. *)
Definition index_page (env : environment) (url : string) (depth : Z) (content : string)
           (c : t) : t :=
  match extract_text_content env content url with
  | None => c
  | Some (title, main_content) =>
      match extract_metadata env content url with
      | None => c
      | Some metadata =>
          match SearchEngine.add_document (urlparse env) (isoformat_now env) url title
                  main_content (Some metadata) (search_engine c) with
          | (SearchEngine.Raised, e) => set_search_engine e c
          | (SearchEngine.Returned _, e) =>
              let c := set_search_engine e c in
              let c := update_stats (add_indexed 1) c in
              if depth <? default 2 (max_depth (crawl_stats c)) then
                match extract_links env content url with
                | None => c
                | Some links => (_add_links_to_queue env links depth c).2
                end
              else c
          end
      end
  end.

(** The fetch of [_crawl_thread] and what follows it.  The boolean tells
    whether the turn goes on to the progress report ([false] for the
    [continue] on content that is not HTML). *)
Definition fetch_page (env : environment) (url : string) (depth : Z) (c : t) : t * bool :=
  match http_get env url with
  | RequestException | OtherException =>
      (visit url (update_stats (add_errors 1) c), true)
  | Response content status_code content_type =>
      if status_code =? 200 then
        let c := visit url c in
        let c := update_stats (add_crawled 1) c in
        let content_type := Py.lower (default "" content_type) in
        if negb (Py.contains "text/html" content_type
                 || Py.contains "application/xhtml+xml" content_type)
        then (c, false)
        else (index_page env url depth content c, true)
      else
        (visit url (update_stats (add_errors 1) c), true)
  end.

(** One turn of the [while] loop of [_crawl_thread], from the entry that
    [self.queue.get] returned. *)
Definition crawl_url (env : environment) (entry : item) (c : t) : t * list event :=
  let '(priority, (url, depth)) := entry in
  if bool_decide (url ∈ visited_urls c) then (c, [])
  else if negb (force_recrawl c)
          && SearchDatabase.is_url_visited url (SearchEngine.db (search_engine c))
  then (visit url c, [])
  else
    let c := update_stats (set_current_url url) c in
    let '(allowed, c) := is_allowed_by_robots env url c in
    if negb allowed then
      let c := update_stats (add_robots_blocked 1) c in
      (visit url c, [Broadcast "crawling"])
    else
      let '(c, waits) := default (c, []) (_apply_rate_limiting env url c) in
      let '(c, reports) := fetch_page env url depth c in
      (c, [Broadcast "crawling"] ++ waits ++ [HttpGet url]
            ++ (if reports then [Broadcast "progress"] else [])).

Definition max_urls : nat := 100 * 100.   (* 10000, the safety limit *)

(** The [while] loop of [_crawl_thread]; [budget] is [max_urls -
    urls_processed].  Returns the crawler, the events in order and the
    number of entries taken from the queue. *)
Fixpoint crawl_loop (env : environment) (budget : nat) (c : t) : t * list event * nat :=
  match budget with
  | O => (c, [], 0%nat)
  | S budget' =>
      if String.eqb (status (crawl_stats c)) "stopping" then (c, [], 0%nat)
      else
        match Heapq.heappop item_lt (queue c) with
        | None => (c, [], 0%nat)
        | Some (entry, rest) =>
            let '(c, events) := crawl_url env entry (set_queue rest c) in
            let '(c, later, n) := crawl_loop env budget' c in
            (c, events ++ later, S n)
        end
  end.

(** *** The page processor outside the loop *)

(** [title[:50] + "..." if len(str(title)) > 50 else title] *)
Definition title_display (title : string) : string :=
  if (50 <? Py.len title)%nat then Py.slice title 0 50 +:+ "..." else title.

(** [_process_page(url, content, headers, depth)], the method that checks
    fingerprints.  [_crawl_thread] does not call it; it is reached from
    the debugging script only.  [Raised] is the parser's exception at the
    first line, outside the method's own [try]. *)
Definition _process_page (env : environment) (url content : string)
           (content_type : option string) (depth : Z) (c : t)
  : SearchEngine.result unit * t :=
  match urlparse env url with
  | None => (SearchEngine.Raised, c)
  | Some parsed_url =>
      let domain := Urllib.netloc parsed_url in
      let domain_key := "domain:" +:+ domain in
      let c :=
        if bool_decide (domain_key ∈ visited_urls c) then c
        else update_stats (add_domains_crawled 1) (visit domain_key c) in
      let content_type := Py.lower (default "" content_type) in
      if negb (Py.startswith content_type "text/html") then (SearchEngine.Returned (), c)
      else if negb (Py.truthy content) || (Py.len content <? 100)%nat
      then (SearchEngine.Returned (), c)
      else
        let failed := (SearchEngine.Returned (), update_stats (add_errors 1) c) in
        match extract_text_content env content url with
        | None => failed
        | Some (title, main_content) =>
            let content_fingerprint :=
              compute_content_fingerprint (md5_hexdigest env) main_content title in
            let '(duplicate, c) := is_duplicate_content content_fingerprint url c in
            if duplicate then
              (SearchEngine.Returned (), update_stats (add_skipped_duplicates 1) c)
            else
              let failed := (SearchEngine.Returned (), update_stats (add_errors 1) c) in
              match extract_metadata env content url with
              | None => failed
              | Some metadata =>
                  match SearchEngine.add_document (urlparse env) (isoformat_now env) url
                          title main_content (Some metadata) (search_engine c) with
                  | (SearchEngine.Raised, e) =>
                      (SearchEngine.Returned (),
                       update_stats (add_errors 1) (set_search_engine e c))
                  | (SearchEngine.Returned _, e) =>
                      let c := set_search_engine e c in
                      let c := update_stats (add_indexed 1) c in
                      let recent :=
                        take 5 (mk_recent_url url (title_display title) domain
                                  :: recent_urls (crawl_stats c)) in
                      let c := update_stats (set_recent_urls recent) c in
                      if depth <? default 2 (max_depth (crawl_stats c)) then
                        match extract_links env content url with
                        | None =>
                            (SearchEngine.Returned (), update_stats (add_errors 1) c)
                        | Some links =>
                            (SearchEngine.Returned (),
                             (_add_links_to_queue env links depth c).2)
                        end
                      else (SearchEngine.Returned (), c)
                  end
              end
        end
  end.

End SmartCrawler.

(* ===================================================================== *)
(** ** Concrete inputs used in the examples below *)
(* ===================================================================== *)

Module Scenario.

(** [urlparse] on the urls of the examples. *)
Definition urlparse (url : string) : option Urllib.ParseResult :=
  if String.eqb url "http://h/a" then Some (Urllib.mk_parse_result "http" "h" "/a" "")
  else if String.eqb url "http://h/1" then Some (Urllib.mk_parse_result "http" "h" "/1" "")
  else if String.eqb url "http://h/2" then Some (Urllib.mk_parse_result "http" "h" "/2" "")
  else if String.eqb url "http://h/p/q?x=1&y=2"
  then Some (Urllib.mk_parse_result "http" "h" "/p/q" "x=1&y=2")
  else None.

(** A crawler just created on a fresh database, and the same with one
    entry waiting in the queue. *)
Definition fresh_crawler : SmartCrawler.t :=
  SmartCrawler.create (SearchEngine.create "t0").

Definition waiting_crawler : SmartCrawler.t :=
  SmartCrawler.queue_put (1, ("http://h/1", 0)) fresh_crawler.

(** An HTML page of 113 characters, served for every url with status 200,
    and the extractors' answers on it.  [robots_allow] is the verdict of
    every robots.txt.  The identity stands in for MD5. *)
Definition page_html : string :=
  "<html><head><title>Title</title></head><body><main>same body text, long enough to be indexed</main></body></html>".

Definition page_title : string := "Title".
Definition page_text : string := "same body text, long enough to be indexed".

Definition environment (robots_allow : bool) : SmartCrawler.environment :=
  SmartCrawler.mk_environment
    urlparse
    (λ text, text)
    (λ _, SmartCrawler.RobotsRules None robots_allow)
    (λ _, SmartCrawler.Response page_html 200 (Some "text/html; charset=utf-8"))
    (λ _ _, Some (page_title, page_text))
    (λ _ url, Some {[ "url" := url ]})
    (λ _ _, Some [])
    "2024-01-01T00:00:00"
    100.

(** The crawler after [_process_page] has handled http://h/1: one document,
    one fingerprint. *)
Definition crawler_after_first_page : SmartCrawler.t :=
  (SmartCrawler._process_page (environment true) "http://h/1" page_html
     (Some "text/html; charset=utf-8") 0 fresh_crawler).2.

(** Texts for the snippet examples: a token of 101 characters at the end of
    a text of 201, and a short token in the middle of a text of 306. *)
Definition long_token : string := Py.str (repeat "a"%char 101).

Definition content_long_token : string :=
  Py.str (repeat "b"%char 100 ++ repeat "a"%char 101).

Definition content_needle : string :=
  Py.str (repeat "x"%char 150) +:+ "needle" +:+ Py.str (repeat "x"%char 150).

(** A state file holding a record with the visited urls and nothing else. *)
Definition state_file : string := "crawler_state.gz".

Definition truncated_state : SmartCrawler.saved_state :=
  SmartCrawler.mk_saved_state (Some ["http://h/a"]) None None None None.

(** A record with the visited urls, a queue of one entry and the stats of
    a crawler that has crawled 7 pages, but no access times and no
    fingerprints; and a file system that takes every write. *)
Definition partial_state : SmartCrawler.saved_state :=
  SmartCrawler.mk_saved_state
    (Some ["http://h/a"])
    (Some [(7, ("http://h/2", 1))])
    (Some (SmartCrawler.add_crawled 7 SmartCrawler.initial_stats))
    None None.

Definition every_write_succeeds : string → SmartCrawler.write_outcome :=
  λ _, SmartCrawler.Written.

(** A store with one document, and a batch of three documents to add, two
    of them under the same url. *)
Definition store_with_one_document : SearchDatabase.t :=
  (SearchDatabase.add_document "t1" "http://h/a" "T" "hello world" "h"
     (SearchDatabase.init_db "t0" SearchDatabase.empty)).2.

Definition batch : list (string * string * string * string) :=
  [("http://h/1", "One", "first page", "h");
   ("http://h/2", "Two", "second page", "h");
   ("http://h/1", "One again", "first page, changed", "h")].

(** A host whose robots.txt allows everything and asks for a crawl delay
    of 5 seconds, and a crawler that accessed the host "h" at the very
    time the clock shows. *)
Definition environment_with_crawl_delay : SmartCrawler.environment :=
  SmartCrawler.mk_environment
    urlparse
    (λ text, text)
    (λ _, SmartCrawler.RobotsRules (Some 5%Q) true)
    (λ _, SmartCrawler.Response page_html 200 (Some "text/html; charset=utf-8"))
    (λ _ _, Some (page_title, page_text))
    (λ _ url, Some {[ "url" := url ]})
    (λ _ _, Some [])
    "2024-01-01T00:00:00"
    100.

Definition crawler_just_accessed : SmartCrawler.t :=
  SmartCrawler.set_domain_access_times {[ "h" := 100%Q ]} fresh_crawler.

End Scenario.

(* ===================================================================== *)
(** ** The priority formula in the words of the specification *)
(* ===================================================================== *)

Module Spec.

(** [clamp(p, lo, hi)] *)
Definition clamp (p lo hi : Z) : Z :=
  if p <? lo then lo else if hi <? p then hi else p.

(** How many times the separator occurs in a string. *)
Definition separators (sep : ascii) (s : string) : nat :=
  length (filter (λ c, c = sep) (Py.chars s)).

(** The number of [&]-separated segments of the query; none for an empty
    query. *)
Definition query_param_count (query : string) : Z :=
  match query with
  | EmptyString => 0
  | _ => Z.of_nat (S (separators "&" query))
  end.

(** The number of [/]-separated segments of the path. *)
Definition path_segment_count (path : string) : Z :=
  Z.of_nat (S (separators "/" path)).

(** [p = depth*10 - domain_importance[host] (0 if unknown) + query_param_count
    + floor(path_segment_count/2) - source_page_importance], clamped to
    [1, 100]. *)
Definition priority (domain_importance : gmap string Z) (parsed : Urllib.ParseResult)
           (depth source_importance : Z) : Z :=
  clamp (depth * 10
         - default 0 (domain_importance !! Urllib.netloc parsed)
         + query_param_count (Urllib.query parsed)
         + path_segment_count (Urllib.path parsed) / 2
         - source_importance)
        1 100.

End Spec.

(* ===================================================================== *)
(** * Properties *)
(* ===================================================================== *)

(** ** The store: document identity and the document counter *)

Section StoreFacts.

Import SearchDatabase.

Lemma next_rowid_above (rows : list document) (d : document) :
  d ∈ rows → doc_id d < next_rowid rows.
Proof.
  unfold next_rowid. induction rows as [|r rows IH]; intros Hin.
  - by apply elem_of_nil in Hin.
  - apply elem_of_cons in Hin as [->|Hin]; simpl; [lia|].
    specialize (IH Hin). lia.
Qed.

Lemma next_rowid_positive (rows : list document) : 1 ≤ next_rowid rows.
Proof.
  unfold next_rowid. induction rows as [|r rows IH]; simpl; lia.
Qed.

(** The id [add_document] returns is larger than every id in the table
    before the call, so it is never the id an existing url had. *)
Lemma add_document_returns_fresh_id now url title content domain db d :
  d ∈ documents db → doc_id d < (add_document now url title content domain db).1.
Proof. apply next_rowid_above. Qed.

Lemma filter_url_excluded (url : string) (rows : list document) :
  filter (λ d, doc_url d = url) (filter (λ d, doc_url d ≠ url) rows) = [].
Proof.
  induction rows as [|r rows IH]; [done|].
  rewrite (filter_cons (λ d, doc_url d ≠ url)). case_decide as Hne.
  - rewrite filter_cons. case_decide; [done|]. exact IH.
  - exact IH.
Qed.

(** After [add_document] exactly one row carries the url, and it is the
    row with the returned id. *)
Lemma add_document_single_row now url title content domain db :
  let '(rid, db') := add_document now url title content domain db in
  filter (λ d, doc_url d = url) (documents db')
  = [mk_document rid url title content domain now now 1].
Proof.
  unfold add_document; simpl.
  rewrite filter_app, filter_url_excluded. simpl.
  rewrite filter_cons. simpl. case_decide; [done|congruence].
Qed.

(** The guard of the counter update looks for a row with the same url and
    another id; after the insert there is none, whatever the table was. *)
Lemma add_document_guard_never_fires now url title content domain db :
  existsb (λ d, String.eqb (doc_url d) url
                && negb (doc_id d =? (add_document now url title content domain db).1))
          (documents (add_document now url title content domain db).2) = false.
Proof.
  unfold add_document; simpl.
  rewrite existsb_app. simpl. rewrite Z.eqb_refl, andb_false_r. simpl.
  rewrite orb_false_r.
  generalize (next_rowid (documents db)) as rid. intros rid.
  induction (documents db) as [|r rows IH]; [done|].
  rewrite filter_cons. case_decide as Hne; [|exact IH].
  simpl. rewrite IH, orb_false_r.
  apply andb_false_iff. left. by apply String.eqb_neq.
Qed.

Lemma sql_integer_text (z : Z) : sql_integer (sql_text z) = z.
Proof.
  unfold sql_integer, sql_text.
  rewrite NilZero.isi.
  - apply DecimalZ.of_to.
  - destruct z as [|p|p]; simpl; [discriminate| |discriminate].
    intros [= H]. by apply DecimalPos.Unsigned.to_uint_nonnil in H.
  - destruct z as [|p|p]; simpl; [discriminate|discriminate|].
    intros [= H]. by apply DecimalPos.Unsigned.to_uint_nonnil in H.
Qed.

(** Every call of [add_document] adds one to the counter, also when the url
    was in the table before. *)
Lemma add_document_always_counts now url title content domain db dflt :
  (∃ r, r ∈ metadata db ∧ md_key r = "doc_count") →
  sql_integer (get_metadata "doc_count" dflt (add_document now url title content domain db).2)
  = sql_integer (get_metadata "doc_count" dflt db) + 1.
Proof.
  intros Hrow. unfold get_metadata.
  pose proof (add_document_guard_never_fires now url title content domain db) as Hguard.
  unfold add_document in *; simpl in *. rewrite Hguard. simpl.
  clear Hguard. induction (metadata db) as [|r rows IH].
  - destruct Hrow as (r & Hin & _). by apply elem_of_nil in Hin.
  - simpl. destruct (String.eqb_spec (md_key r) "doc_count") as [Hk|Hk]; simpl.
    + rewrite !filter_cons. simpl. rewrite !decide_True by done. simpl.
      apply sql_integer_text.
    + rewrite !filter_cons. rewrite !decide_False by done.
      apply IH. destruct Hrow as (r' & Hin & Hk').
      apply elem_of_cons in Hin as [->|Hin]; [done|]. eauto.
Qed.

End StoreFacts.

(** C1.  Re-adding a url that is in the documents table: the claim wants the
    old doc_id back and one row for the url.  On a fresh store the first
    add of http://h/a returns 1 and the second returns 2; one row remains. *)
Theorem add_document_readd_doc_id :
  let db0 := SearchDatabase.init_db "t0" SearchDatabase.empty in
  let r1 := SearchDatabase.add_document "t1" "http://h/a" "T" "hello world" "h" db0 in
  let r2 := SearchDatabase.add_document "t2" "http://h/a" "T" "hello world" "h" r1.2 in
  r1.1 = 1 ∧ r2.1 = 2 ∧
  SearchDatabase.get_document "http://h/a" r1.2
    = Some (SearchDatabase.mk_document 1 "http://h/a" "T" "hello world" "h" "t1" "t1" 1) ∧
  filter (λ d, SearchDatabase.doc_url d = "http://h/a") (SearchDatabase.documents r2.2)
    = [SearchDatabase.mk_document 2 "http://h/a" "T" "hello world" "h" "t2" "t2" 1].
Proof. vm_compute. done. Qed.

(** C2.  After the second add of the same url the doc_count cell holds 2
    while one active document exists. *)
Theorem add_document_readd_doc_count :
  let db0 := SearchDatabase.init_db "t0" SearchDatabase.empty in
  let r1 := SearchDatabase.add_document "t1" "http://h/a" "T" "hello world" "h" db0 in
  let r2 := SearchDatabase.add_document "t2" "http://h/a" "T" "hello world" "h" r1.2 in
  SearchDatabase.get_metadata "doc_count" "0" r1.2 = "1" ∧
  SearchDatabase.active_documents r1.2 = 1%nat ∧
  SearchDatabase.get_metadata "doc_count" "0" r2.2 = "2" ∧
  SearchDatabase.active_documents r2.2 = 1%nat.
Proof. vm_compute. done. Qed.

(** ** The indexer: postings of a re-indexed url, title boost *)

Section IndexFacts.

Import SearchDatabase.

Lemma insert_index_entries_importance doc (wfs : list (string * Q)) :
  ∀ rows rows',
    foldl (λ acc wf, acc ≫= insert_index_entry wf.1 doc wf.2) (Some rows) wfs = Some rows' →
    ∀ e, e ∈ rows' → e ∈ rows ∨ (ie_doc_id e = doc ∧ ie_importance e = 1%Q).
Proof.
  induction wfs as [|wf wfs IH]; intros rows rows' Hfold e He.
  - simpl in Hfold. injection Hfold as <-. by left.
  - simpl in Hfold. unfold insert_index_entry at 2 in Hfold.
    destruct (existsb _ rows).
    + exfalso. clear -Hfold. induction wfs as [|w ws IHw]; [done|]. by apply IHw.
    + destruct (IH _ _ Hfold e He) as [Hin|Hnew]; [|by right].
      apply elem_of_app in Hin as [Hin|Hin]; [by left|].
      apply list_elem_of_singleton in Hin as ->. by right.
Qed.

(** Whatever [update_index] is given, every posting it leaves for the
    document carries the column default, 1.0. *)
Lemma update_index_importance_default doc wfs db db' e :
  update_index doc wfs db = Some db' →
  e ∈ postings_of doc db' → ie_importance e = 1%Q.
Proof.
  unfold update_index, postings_of. intros Hupd He.
  destruct (foldl _ _ wfs) as [rows|] eqn:Hfold; [|done].
  simpl in Hupd. injection Hupd as <-. simpl in He.
  apply list_elem_of_filter in He as [Hdoc He].
  destruct (insert_index_entries_importance _ _ _ _ Hfold e He) as [Hold|[_ Himp]]; [|done].
  apply list_elem_of_filter in Hold as [Hne _]. done.
Qed.

End IndexFacts.

(** C3.  Indexing http://h/a twice through the engine: the second call's
    postings sit under the new doc_id 2, and the postings of the first call
    are still in index_entries under doc_id 1, which no document carries
    any more. *)
Theorem reindex_keeps_first_postings :
  let e0 := SearchEngine.create "t0" in
  let r1 := SearchEngine.add_document Scenario.urlparse "t1" "http://h/a" "T" "hello world"
              None e0 in
  let r2 := SearchEngine.add_document Scenario.urlparse "t2" "http://h/a" "T" "other text"
              None r1.2 in
  r1.1 = SearchEngine.Returned (Some 1) ∧
  r2.1 = SearchEngine.Returned (Some 2) ∧
  map SearchDatabase.doc_id (SearchDatabase.documents (SearchEngine.db r2.2)) = [2] ∧
  map SearchDatabase.ie_word (SearchDatabase.postings_of 2 (SearchEngine.db r2.2))
    = ["other"; "text"] ∧
  map SearchDatabase.ie_word (SearchDatabase.postings_of 1 (SearchEngine.db r2.2))
    = ["hello"; "world"].
Proof. vm_compute. done. Qed.

(** C4.  Indexing a page titled "python" with body "fast code": the term
    python occurs in the tokenized title, and its posting is stored with
    importance 1.0 like the two others, not 1.5. *)
Theorem title_term_importance_is_default :
  let r := SearchEngine.add_document Scenario.urlparse "t1" "http://h/a" "python" "fast code"
             None (SearchEngine.create "t0") in
  SearchEngine._tokenize "python" = ["python"] ∧
  map (λ e, (SearchDatabase.ie_word e, SearchDatabase.ie_importance e))
      (SearchDatabase.index_entries (SearchEngine.db r.2))
    = [("python", 1%Q); ("fast", 1%Q); ("code", 1%Q)].
Proof. vm_compute. done. Qed.

(** ** Link priorities *)

Lemma split_chars_length (sep : ascii) (cs : list ascii) :
  length (Py.split_chars sep cs) = S (length (filter (λ c, c = sep) cs)).
Proof.
  induction cs as [|c cs IH]; [done|].
  simpl. destruct (Py.split_chars sep cs) as [|field rest]; [done|].
  rewrite filter_cons. destruct (Ascii.eqb_spec c sep) as [->|Hne].
  - rewrite decide_True by done. simpl in *. lia.
  - rewrite decide_False by done. simpl in *. lia.
Qed.

Lemma split_length (sep : ascii) (s : string) :
  length (Py.split sep s) = S (Spec.separators sep s).
Proof.
  unfold Py.split, Spec.separators. rewrite length_map. apply split_chars_length.
Qed.

Lemma clamp_max_min (p : Z) : Z.max 1 (Z.min 100 p) = Spec.clamp p 1 100.
Proof.
  unfold Spec.clamp.
  destruct (Z.ltb_spec p 1); [lia|]. destruct (Z.ltb_spec 100 p); lia.
Qed.

(** C8.  When the url parses, [compute_url_priority] returns the clamped
    value of depth*10 - domain importance (0 for an unknown host) + number
    of &-separated query segments + floor(path segments / 2) - source
    importance; and on every input, parsed or not, the result lies in
    [1, 100]. *)
Theorem compute_url_priority_formula
        (urlparse : string → option Urllib.ParseResult) (c : SmartCrawler.t)
        (url : string) (depth source_importance : Z) :
  (∀ parsed, urlparse url = Some parsed →
     SmartCrawler.compute_url_priority urlparse c url depth source_importance
     = Spec.priority (SmartCrawler.domain_importance c) parsed depth source_importance)
  ∧ 1 ≤ SmartCrawler.compute_url_priority urlparse c url depth source_importance ≤ 100.
Proof.
  unfold SmartCrawler.compute_url_priority. split.
  - intros parsed ->. unfold Spec.priority. rewrite clamp_max_min. f_equal.
    rewrite !split_length.
    assert (Hq : Z.of_nat (if Py.truthy (Urllib.query parsed)
                           then S (Spec.separators "&" (Urllib.query parsed)) else 0%nat)
                 = Spec.query_param_count (Urllib.query parsed)).
    { unfold Spec.query_param_count, Py.truthy. by destruct (Urllib.query parsed). }
    rewrite Hq. unfold Spec.path_segment_count.
    destruct (SmartCrawler.domain_importance c !! Urllib.netloc parsed); simpl; lia.
  - destruct (urlparse url); lia.
Qed.

Lemma compute_url_priority_formula_witness :
  Scenario.urlparse "http://h/p/q?x=1&y=2"
    = Some (Urllib.mk_parse_result "http" "h" "/p/q" "x=1&y=2") ∧
  SmartCrawler.compute_url_priority Scenario.urlparse
    (SmartCrawler.create (SearchEngine.create "t0")) "http://h/p/q?x=1&y=2" 2 5 = 18.
Proof.
  split; [reflexivity|].
  rewrite (proj1 (compute_url_priority_formula Scenario.urlparse
                    (SmartCrawler.create (SearchEngine.create "t0"))
                    "http://h/p/q?x=1&y=2" 2 5)
                 (Urllib.mk_parse_result "http" "h" "/p/q" "x=1&y=2") eq_refl).
  vm_compute. reflexivity.
Defined.

(** ** The queue as a heap *)

Section HeapFacts.

Context {A : Type}.
Variable lt : A → A → bool.

Lemma parent_before (pos : nat) : (0 < pos)%nat → ((pos - 1) / 2 < pos)%nat.
Proof.
  intros Hpos. apply Nat.Div0.div_lt_upper_bound. lia.
Qed.

(** Moving the parent down into the hole and the new item up to the
    parent's place rearranges the list. *)
Lemma hole_moves_up (heap : list A) (pos parentpos : nat) (parent newitem : A) :
  heap !! parentpos = Some parent → (pos < length heap)%nat → parentpos ≠ pos →
  <[parentpos := newitem]> (<[pos := parent]> heap) ≡ₚ <[pos := newitem]> heap.
Proof.
  intros Hparent Hpos Hne.
  rewrite <- (list_insert_insert_eq heap pos parent newitem).
  apply Permutation_insert_swap.
  - by apply list_lookup_insert_eq.
  - by rewrite list_lookup_insert_ne.
Qed.

Lemma siftdown_loop_permutation (fuel : nat) :
  ∀ (heap : list A) (startpos pos : nat) (newitem : A),
    (pos < length heap)%nat →
    Heapq.siftdown_loop lt fuel heap startpos pos newitem ≡ₚ <[pos := newitem]> heap.
Proof.
  induction fuel as [|fuel IH]; intros heap startpos pos newitem Hpos;
    cbn [Heapq.siftdown_loop]; [done|].
  destruct (Nat.ltb_spec startpos pos) as [Hlt|Hge]; [|done].
  destruct (heap !! ((pos - 1) / 2)%nat) as [parent|] eqn:Hparent; [|done].
  destruct (lt newitem parent); [|done].
  assert (((pos - 1) / 2 < pos)%nat) as Hbefore by (apply parent_before; lia).
  rewrite IH by (rewrite length_insert; lia).
  apply hole_moves_up; [done|done|lia].
Qed.

(** [heappush] keeps the old items and adds the new one. *)
Lemma heappush_permutation (heap : list A) (item : A) :
  Heapq.heappush lt heap item ≡ₚ heap ++ [item].
Proof.
  unfold Heapq.heappush, Heapq._siftdown.
  assert ((heap ++ [item]) !! length heap = Some item) as Hlast.
  { rewrite lookup_app_r by lia. by rewrite Nat.sub_diag. }
  rewrite Hlast.
  rewrite siftdown_loop_permutation by (rewrite length_app; simpl; lia).
  by rewrite list_insert_id.
Qed.

(** An item that is not smaller than the item at its parent position
    stays where [heappush] appended it. *)
Lemma heappush_in_place (heap : list A) (item : A) :
  (∀ parent, (0 < length heap)%nat →
     heap !! ((length heap - 1) / 2)%nat = Some parent → lt item parent = false) →
  Heapq.heappush lt heap item = heap ++ [item].
Proof.
  intros Hparent. unfold Heapq.heappush, Heapq._siftdown.
  assert ((heap ++ [item]) !! length heap = Some item) as Hlast.
  { rewrite lookup_app_r by lia. by rewrite Nat.sub_diag. }
  rewrite Hlast.
  destruct (length heap) as [|n] eqn:Hlen; cbn [Heapq.siftdown_loop].
  - by apply list_insert_id.
  - assert (((S n - 1) / 2 < S n)%nat) as Hbefore by (apply parent_before; lia).
    destruct (lookup_lt_is_Some_2 heap ((S n - 1) / 2)%nat) as [parent Hp]; [lia|].
    replace (0 <? S n)%nat with true by done.
    rewrite (lookup_app_l_Some _ _ _ _ Hp).
    rewrite (Hparent parent); [|lia|done].
    by apply list_insert_id.
Qed.

Lemma foldl_heappush_permutation (items : list A) :
  ∀ heap, foldl (Heapq.heappush lt) heap items ≡ₚ heap ++ items.
Proof.
  induction items as [|item items IH]; intros heap; simpl.
  - by rewrite app_nil_r.
  - rewrite IH, heappush_permutation. by rewrite <- app_assoc.
Qed.

(** Pushing the items of a heap list in list order rebuilds the same list. *)
Lemma foldl_heappush_heap (items : list A) :
  ∀ heap, Heapq.is_heap lt (heap ++ items) →
          foldl (Heapq.heappush lt) heap items = heap ++ items.
Proof.
  induction items as [|item items IH]; intros heap Hheap; simpl.
  - by rewrite app_nil_r.
  - rewrite heappush_in_place.
    + rewrite IH; rewrite <- app_assoc; done.
    + intros parent Hpos Hp.
      apply (Hheap (length heap) item parent Hpos).
      * rewrite lookup_app_r by lia. by rewrite Nat.sub_diag.
      * by apply lookup_app_l_Some.
Qed.

End HeapFacts.

(** ** State snapshots *)

Section SnapshotFacts.

Import SmartCrawler.

(** Putting entries back one by one touches the queue only. *)
Lemma restore_queue (entries : list item) :
  ∀ c, foldl (λ c entry, queue_put entry c) c entries
       = set_queue (foldl (Heapq.heappush item_lt) (queue c) entries) c.
Proof.
  induction entries as [|entry entries IH]; intros c; simpl.
  - by destruct c.
  - rewrite IH. by destruct c.
Qed.

End SnapshotFacts.

(** C9.  [save_state] then [load_state] on the same file, from any crawler
    and into any crawler: when [save_state] returns True (the file system
    took the write), [load_state] returns True, and the visited set, the
    stats, the access times and the fingerprints come back equal; the queue
    comes back with the same entries and priorities, and as the very same
    heap list whenever the saved list was a heap (which every list built by
    the queue is).  [load_state] returns False when the file is missing,
    does not unpickle, or holds a record that lacks a key. *)
Theorem save_state_load_state_roundtrip
        (write : string → SmartCrawler.write_outcome)
        (filename : string) (c c0 : SmartCrawler.t) (files : gmap string SmartCrawler.file) :
  (SmartCrawler.save_state write filename c files).1 = true →
  let saved := SmartCrawler.save_state write filename c files in
  let loaded := SmartCrawler.load_state filename c0 saved.2 in
  (write filename = SmartCrawler.Written ∧ loaded.1 = true ∧
   SmartCrawler.visited_urls loaded.2 = SmartCrawler.visited_urls c ∧
   SmartCrawler.queue loaded.2 ≡ₚ SmartCrawler.queue c ∧
   (Heapq.is_heap SmartCrawler.item_lt (SmartCrawler.queue c) →
    SmartCrawler.queue loaded.2 = SmartCrawler.queue c) ∧
   SmartCrawler.crawl_stats loaded.2 = SmartCrawler.crawl_stats c ∧
   SmartCrawler.domain_access_times loaded.2 = SmartCrawler.domain_access_times c ∧
   SmartCrawler.content_fingerprints loaded.2 = SmartCrawler.content_fingerprints c)
  ∧
  ((files !! filename = None ∨ files !! filename = Some SmartCrawler.Unreadable ∨
    ∃ s, files !! filename = Some (SmartCrawler.Pickled s) ∧ SmartCrawler.lacks_key s) →
   (SmartCrawler.load_state filename c0 files).1 = false).
Proof.
  intros Hsaved. split.
  - unfold SmartCrawler.save_state in *.
    destruct (write filename); [|discriminate|discriminate].
    unfold SmartCrawler.load_state. simpl.
    rewrite lookup_insert_eq. simpl. rewrite restore_queue. simpl.
    split; [done|]. split; [done|].
    split; [apply list_to_set_elements_L|].
    split; [apply (foldl_heappush_permutation SmartCrawler.item_lt _ [])|].
    split; [|done].
    intros Hheap. by apply (foldl_heappush_heap SmartCrawler.item_lt _ []).
  - unfold SmartCrawler.load_state.
    intros [->|[->|(s & -> & Hlack)]]; [done|done|].
    destruct s as [[urls|] [entries|] [st|] [times|] [fps|]]; simpl; try done;
      destruct Hlack as [?|[?|[?|[?|?]]]]; done.
Qed.

Lemma save_state_load_state_roundtrip_witness :
  SmartCrawler.queue
    (SmartCrawler.load_state Scenario.state_file Scenario.fresh_crawler
       (SmartCrawler.save_state Scenario.every_write_succeeds Scenario.state_file
          Scenario.waiting_crawler ∅).2).2
  = [(1, ("http://h/1", 0))]
  ∧ (SmartCrawler.load_state Scenario.state_file Scenario.fresh_crawler ∅).1 = false.
Proof.
  pose proof (save_state_load_state_roundtrip Scenario.every_write_succeeds
                Scenario.state_file Scenario.waiting_crawler Scenario.fresh_crawler ∅
                eq_refl) as [(_ & _ & _ & _ & Hqueue & _) Hmissing].
  split.
  - rewrite Hqueue; [reflexivity|].
    intros k child parent Hk Hchild Hparent.
    destruct k as [|[|k]]; [lia|discriminate|discriminate].
  - apply Hmissing. left. reflexivity.
Defined.

(** C10, as stated, fails: a state file whose record has the visited urls
    but no queue makes [load_state] return False after it has replaced the
    visited set and emptied the queue. *)
Lemma load_state_partial_restore :
  let files : gmap string SmartCrawler.file :=
    {[ Scenario.state_file := SmartCrawler.Pickled Scenario.truncated_state ]} in
  let loaded := SmartCrawler.load_state Scenario.state_file Scenario.waiting_crawler files in
  loaded.1 = false ∧
  SmartCrawler.queue Scenario.waiting_crawler = [(1, ("http://h/1", 0))] ∧
  SmartCrawler.queue loaded.2 = [] ∧
  elements (SmartCrawler.visited_urls Scenario.waiting_crawler) = [] ∧
  elements (SmartCrawler.visited_urls loaded.2) = ["http://h/a"] ∧
  loaded.2 ≠ Scenario.waiting_crawler.
Proof.
  repeat split; try (vm_compute; reflexivity).
  intros Heq. apply (f_equal SmartCrawler.queue) in Heq. vm_compute in Heq. discriminate.
Qed.

(** C10, amended.  When [load_state] returns False the fingerprint table is
    the one from before the call.  When it does so because the file is
    missing, does not unpickle, or its record lacks the visited urls, the
    whole crawler is as before.  Otherwise the attributes assigned before
    the line that fails hold the values of the file and the later ones are
    as before: the visited set is the file's; the queue is empty when the
    queue key is missing and else holds the file's entries (as the same
    heap list when they form a heap); the stats, then the access times,
    are the file's when their key is there and the old ones when not. *)
Theorem load_state_failure_leaves
        (filename : string) (c : SmartCrawler.t) (files : gmap string SmartCrawler.file) :
  (SmartCrawler.load_state filename c files).1 = false →
  let c' := (SmartCrawler.load_state filename c files).2 in
  SmartCrawler.content_fingerprints c' = SmartCrawler.content_fingerprints c ∧
  SmartCrawler.search_engine c' = SmartCrawler.search_engine c ∧
  ((files !! filename = None ∨ files !! filename = Some SmartCrawler.Unreadable ∨
    ∃ s, files !! filename = Some (SmartCrawler.Pickled s) ∧
         SmartCrawler.saved_visited_urls s = None) → c' = c) ∧
  (∀ s urls, files !! filename = Some (SmartCrawler.Pickled s) →
             SmartCrawler.saved_visited_urls s = Some urls →
             SmartCrawler.visited_urls c' = list_to_set urls ∧
             match SmartCrawler.saved_queue s with
             | None =>
                 SmartCrawler.queue c' = [] ∧
                 SmartCrawler.crawl_stats c' = SmartCrawler.crawl_stats c ∧
                 SmartCrawler.domain_access_times c' = SmartCrawler.domain_access_times c
             | Some entries =>
                 SmartCrawler.queue c' ≡ₚ entries ∧
                 (Heapq.is_heap SmartCrawler.item_lt entries →
                  SmartCrawler.queue c' = entries) ∧
                 match SmartCrawler.saved_crawl_stats s with
                 | None =>
                     SmartCrawler.crawl_stats c' = SmartCrawler.crawl_stats c ∧
                     SmartCrawler.domain_access_times c'
                     = SmartCrawler.domain_access_times c
                 | Some saved_stats =>
                     SmartCrawler.crawl_stats c' = saved_stats ∧
                     match SmartCrawler.saved_domain_access_times s with
                     | None =>
                         SmartCrawler.domain_access_times c'
                         = SmartCrawler.domain_access_times c
                     | Some times => SmartCrawler.domain_access_times c' = times
                     end
                 end
             end).
Proof.
  unfold SmartCrawler.load_state. intros Hfalse.
  destruct (files !! filename) as [[|s]|] eqn:Hfile; simpl.
  - split_and!; [done|done|done|]. intros s urls [=].
  - destruct s as [[urls|] [entries|] [st|] [times|] [fps|]]; simpl in *;
      try discriminate; rewrite ?restore_queue; simpl;
      (split_and!;
       [ done | done
       | intros [?|[?|(s & [= <-] & ?)]]; done
       | intros s urls' [= <-] [= <-]; simpl; split_and!;
         first [ done
               | apply (foldl_heappush_permutation SmartCrawler.item_lt _ [])
               | intros Hheap;
                 by apply (foldl_heappush_heap SmartCrawler.item_lt _ []) ] ]).
  - split_and!; [done|done|done|]. intros s urls [=].
Qed.

Lemma load_state_failure_leaves_witness :
  let files : gmap string SmartCrawler.file :=
    {[ Scenario.state_file := SmartCrawler.Pickled Scenario.partial_state ]} in
  let loaded := SmartCrawler.load_state Scenario.state_file Scenario.waiting_crawler files in
  loaded.1 = false ∧
  SmartCrawler.queue loaded.2 = [(7, ("http://h/2", 1))] ∧
  SmartCrawler.crawled (SmartCrawler.crawl_stats loaded.2) = 7 ∧
  SmartCrawler.domain_access_times loaded.2
  = SmartCrawler.domain_access_times Scenario.waiting_crawler.
Proof.
  cbv zeta.
  destruct (load_state_failure_leaves Scenario.state_file Scenario.waiting_crawler
              {[ Scenario.state_file := SmartCrawler.Pickled Scenario.partial_state ]})
    as (_ & _ & _ & Hpartial); [reflexivity|].
  destruct (Hpartial Scenario.partial_state ["http://h/a"] eq_refl eq_refl)
    as (_ & _ & Hqueue & Hstats & Htimes).
  split_and!; [reflexivity| |by rewrite Hstats|exact Htimes].
  apply Hqueue. intros k child parent Hk Hchild Hparent.
  destruct k as [|k]; [lia|discriminate].
Defined.

(** ** The crawl loop: robots and duplicates *)

Section CrawlFacts.

Import SmartCrawler.

Variable env : environment.

(** The robots verdict does not depend on the crawler, and the check only
    writes [domain_access_times]. *)
Lemma is_allowed_by_robots_frame (url : string) (c c0 : t) :
  let r := is_allowed_by_robots env url c in
  r.1 = (is_allowed_by_robots env url c0).1 ∧
  crawl_stats r.2 = crawl_stats c ∧
  visited_urls r.2 = visited_urls c ∧
  search_engine r.2 = search_engine c ∧
  queue r.2 = queue c ∧
  content_fingerprints r.2 = content_fingerprints c.
Proof.
  unfold is_allowed_by_robots.
  destruct (urlparse env url) as [parsed|]; [|done].
  destruct (robots env url) as [|[delay|] verdict]; [done| |done].
  destruct (Qeq_bool delay 0); done.
Qed.

Lemma apply_rate_limiting_frame (url : string) (c : t) :
  let r := default (c, []) (_apply_rate_limiting env url c) in
  dedup_view r.1 = dedup_view c ∧ ∀ u, HttpGet u ∉ r.2.
Proof.
  unfold _apply_rate_limiting.
  destruct (urlparse env url) as [parsed|]; simpl; [|split; [done|]; intros u; apply not_elem_of_nil].
  split; [done|]. intros u Hin.
  destruct (domain_access_times c !! Urllib.netloc parsed) as [last|];
    [|by apply not_elem_of_nil in Hin].
  destruct (negb _); [|by apply not_elem_of_nil in Hin].
  apply list_elem_of_singleton in Hin. discriminate.
Qed.

Lemma add_link_dedup (next_depth : Z) (acc : nat * t) (link : string * string) :
  dedup_view (add_link env next_depth acc link).2 = dedup_view acc.2.
Proof.
  unfold add_link. destruct acc as [n c]. simpl.
  repeat (case_match; try done).
Qed.

Lemma foldl_add_link_dedup (next_depth : Z) (links : list (string * string)) :
  ∀ acc, dedup_view (foldl (add_link env next_depth) acc links).2 = dedup_view acc.2.
Proof.
  induction links as [|link links IH]; intros acc; [done|].
  cbn [foldl]. rewrite IH. apply add_link_dedup.
Qed.

Lemma add_links_to_queue_dedup (links : list (string * string)) (depth : Z) (c : t) :
  dedup_view (_add_links_to_queue env links depth c).2 = dedup_view c.
Proof.
  unfold _add_links_to_queue. by rewrite foldl_add_link_dedup.
Qed.

Lemma index_page_dedup (url : string) (depth : Z) (content : string) (c : t) :
  dedup_view (index_page env url depth content c) = dedup_view c.
Proof.
  unfold index_page.
  destruct (extract_text_content env content url) as [[title main_content]|]; [|done].
  destruct (extract_metadata env content url) as [metadata|]; [|done].
  destruct (SearchEngine.add_document _ _ _ _ _ _ _) as [[doc|] e]; [|done].
  case_match; [|done].
  destruct (extract_links env content url) as [links|]; [|done].
  by rewrite add_links_to_queue_dedup.
Qed.

Lemma fetch_page_dedup (url : string) (depth : Z) (c : t) :
  dedup_view (fetch_page env url depth c).1 = dedup_view c.
Proof.
  unfold fetch_page.
  destruct (http_get env url) as [| |content status_code content_type]; [done|done|].
  destruct (status_code =? 200); [|done].
  case_match; [done|]. simpl. by rewrite index_page_dedup.
Qed.

(** One turn of the crawl loop neither consults nor changes the fingerprint
    table, and leaves the counter of skipped duplicates alone. *)
Lemma crawl_url_dedup (entry : item) (c : t) :
  dedup_view (crawl_url env entry c).1 = dedup_view c.
Proof.
  destruct entry as [priority [url depth]]. unfold crawl_url.
  case_bool_decide; [done|]. case_match; [done|].
  pose proof (is_allowed_by_robots_frame url (update_stats (set_current_url url) c) c)
    as (_ & Hstats & _ & _ & _ & Hfp).
  destruct (is_allowed_by_robots env url (update_stats (set_current_url url) c))
    as [allowed c1]. simpl in Hstats, Hfp.
  assert (dedup_view c1 = dedup_view c) as Hc1.
  { unfold dedup_view. by rewrite Hstats, Hfp. }
  destruct allowed; simpl.
  - pose proof (apply_rate_limiting_frame url c1) as [Hc2 _].
    destruct (default (c1, []) (_apply_rate_limiting env url c1)) as [c2 waits].
    pose proof (fetch_page_dedup url depth c2) as Hc3.
    destruct (fetch_page env url depth c2) as [c3 reports].
    simpl in *. congruence.
  - rewrite <- Hc1. done.
Qed.

Lemma crawl_loop_dedup (budget : nat) :
  ∀ c, dedup_view (crawl_loop env budget c).1.1 = dedup_view c.
Proof.
  induction budget as [|budget IH]; intros c; [done|].
  simpl. case_match; [done|].
  destruct (Heapq.heappop item_lt (queue c)) as [[entry rest]|]; [|done].
  pose proof (crawl_url_dedup entry (set_queue rest c)) as Hturn.
  destruct (crawl_url env entry (set_queue rest c)) as [c1 events].
  specialize (IH c1).
  destruct (crawl_loop env budget c1) as [[c2 later] n].
  simpl in *. by rewrite IH, Hturn.
Qed.

End CrawlFacts.

(** C6.  A url that the robots check denies, in a turn of the crawl loop:
    the claim wants no fetch, robots_blocked one higher and a row for the
    url in the visit log.  With a robots.txt that denies http://h/a the
    turn makes no request and counts the block, and it puts the url into
    the visited set in memory; but [is_url_visited] of the url, which the
    loop itself asks before each fetch, still answers False, and the visit
    log is empty. *)
Theorem robots_denied_no_visit_row :
  let env := Scenario.environment false in
  let turn := SmartCrawler.crawl_url env (1, ("http://h/a", 0)) Scenario.fresh_crawler in
  (SmartCrawler.is_allowed_by_robots env "http://h/a" Scenario.fresh_crawler).1 = false ∧
  turn.2 = [SmartCrawler.Broadcast "crawling"] ∧
  SmartCrawler.robots_blocked (SmartCrawler.crawl_stats turn.1) = 1 ∧
  elements (SmartCrawler.visited_urls turn.1) = ["http://h/a"] ∧
  SearchDatabase.is_url_visited "http://h/a"
    (SearchEngine.db (SmartCrawler.search_engine turn.1)) = false ∧
  SearchDatabase.crawler_visits (SearchEngine.db (SmartCrawler.search_engine turn.1)) = [].
Proof. vm_compute. done. Qed.

(** What a turn of the crawl loop does with a denied url, in general: no
    request at all, robots_blocked one higher, the url in the visited set
    in memory, and the search engine with its database, the visit log
    included, as it was. *)
Theorem robots_denied_turn
        (env : SmartCrawler.environment) (priority : Z) (url : string) (depth : Z)
        (c : SmartCrawler.t) :
  url ∉ SmartCrawler.visited_urls c →
  (SmartCrawler.force_recrawl c = true ∨
   SearchDatabase.is_url_visited url (SearchEngine.db (SmartCrawler.search_engine c)) = false) →
  (SmartCrawler.is_allowed_by_robots env url c).1 = false →
  let turn := SmartCrawler.crawl_url env (priority, (url, depth)) c in
  (∀ u, SmartCrawler.HttpGet u ∉ turn.2) ∧
  SmartCrawler.robots_blocked (SmartCrawler.crawl_stats turn.1)
    = SmartCrawler.robots_blocked (SmartCrawler.crawl_stats c) + 1 ∧
  url ∈ SmartCrawler.visited_urls turn.1 ∧
  SmartCrawler.search_engine turn.1 = SmartCrawler.search_engine c.
Proof.
  intros Hnew Hdb Hdenied. unfold SmartCrawler.crawl_url.
  rewrite bool_decide_eq_false_2 by done.
  assert (negb (SmartCrawler.force_recrawl c)
          && SearchDatabase.is_url_visited url
               (SearchEngine.db (SmartCrawler.search_engine c)) = false) as ->.
  { destruct Hdb as [-> | ->]; [done|apply andb_false_r]. }
  pose proof (is_allowed_by_robots_frame env url
                (SmartCrawler.update_stats (SmartCrawler.set_current_url url) c) c)
    as (Hverdict & Hstats & Hvisited & Hengine & _).
  destruct (SmartCrawler.is_allowed_by_robots env url
              (SmartCrawler.update_stats (SmartCrawler.set_current_url url) c))
    as [allowed c1].
  simpl in Hverdict, Hstats, Hvisited, Hengine.
  rewrite Hverdict, Hdenied. simpl. split_and!.
  - intros u Hin. apply list_elem_of_singleton in Hin. discriminate.
  - by rewrite Hstats.
  - apply elem_of_union_l. by apply elem_of_singleton.
  - done.
Qed.

Lemma robots_denied_turn_witness :
  let turn := SmartCrawler.crawl_url (Scenario.environment false) (1, ("http://h/a", 0))
                Scenario.fresh_crawler in
  SmartCrawler.robots_blocked (SmartCrawler.crawl_stats turn.1) = 1 ∧
  "http://h/a" ∈ SmartCrawler.visited_urls turn.1.
Proof.
  destruct (robots_denied_turn (Scenario.environment false) 1 "http://h/a" 0
              Scenario.fresh_crawler) as (_ & Hblocked & Hvisited & _).
  - apply not_elem_of_empty.
  - right. reflexivity.
  - reflexivity.
  - split; [exact Hblocked|exact Hvisited].
Defined.

(** C5.  A page whose fingerprint is in the table, handled by a turn of the
    crawl loop: the table maps the fingerprint of the page to http://h/1;
    the turn for http://h/2, which serves the same page, indexes it as a
    second document and leaves skipped_duplicates at 0.  [_process_page] on
    the same page skips it, counts it, and keeps http://h/1 in the table. *)
Theorem crawl_turn_indexes_duplicate :
  let env := Scenario.environment true in
  let c := Scenario.crawler_after_first_page in
  let fingerprint :=
    SmartCrawler.compute_content_fingerprint (SmartCrawler.md5_hexdigest env)
      Scenario.page_text Scenario.page_title in
  let turn := SmartCrawler.crawl_url env (1, ("http://h/2", 0)) c in
  let other := SmartCrawler._process_page env "http://h/2" Scenario.page_html
                 (Some "text/html; charset=utf-8") 0 c in
  SmartCrawler.content_fingerprints c !! fingerprint = Some "http://h/1" ∧
  map SearchDatabase.doc_url
      (SearchDatabase.documents (SearchEngine.db (SmartCrawler.search_engine turn.1)))
    = ["http://h/1"; "http://h/2"] ∧
  SmartCrawler.skipped_duplicates (SmartCrawler.crawl_stats turn.1) = 0 ∧
  SmartCrawler.indexed (SmartCrawler.crawl_stats turn.1) = 2 ∧
  map SearchDatabase.doc_url
      (SearchDatabase.documents (SearchEngine.db (SmartCrawler.search_engine other.2)))
    = ["http://h/1"] ∧
  SmartCrawler.skipped_duplicates (SmartCrawler.crawl_stats other.2) = 1 ∧
  SmartCrawler.content_fingerprints other.2 !! fingerprint = Some "http://h/1".
Proof. vm_compute. done. Qed.

(** ** Snippets *)

Section TextFacts.

Lemma chars_str (cs : list ascii) : Py.chars (Py.str cs) = cs.
Proof. apply list_ascii_of_string_of_list_ascii. Qed.

Lemma str_chars (s : string) : Py.str (Py.chars s) = s.
Proof. apply string_of_list_ascii_of_string. Qed.

Lemma chars_append (a b : string) : Py.chars (a +:+ b) = Py.chars a ++ Py.chars b.
Proof.
  unfold Py.chars. induction a as [|c a IH]; [done|]. simpl. by rewrite IH.
Qed.

Lemma chars_lower (s : string) : Py.chars (Py.lower s) = map Py.lower_char (Py.chars s).
Proof. unfold Py.lower. apply chars_str. Qed.

Lemma len_lower (s : string) : Py.len (Py.lower s) = Py.len s.
Proof. unfold Py.len. by rewrite chars_lower, length_map. Qed.

Lemma chars_slice (s : string) (i j : nat) :
  Py.chars (Py.slice s i j) = Py.slice_chars (Py.chars s) i j.
Proof. unfold Py.slice. apply chars_str. Qed.

(** [starts_with] and [contains_chars] decide "is a prefix" and "occurs as
    a block". *)
Lemma starts_with_prefix (t : list ascii) :
  ∀ cs, Py.starts_with t cs = true ↔ ∃ post, cs = t ++ post.
Proof.
  induction t as [|a t IH]; intros cs; simpl.
  - split; [intros _; by exists cs|done].
  - destruct cs as [|c cs].
    + split; [done|]. by intros [post [=]].
    + destruct (Ascii.eqb_spec a c) as [->|Hne].
      * rewrite IH. split; intros [post Hpost]; exists post; [by rewrite Hpost|].
        by injection Hpost.
      * split; [done|]. intros [post [= ? _]]. done.
Qed.

Lemma contains_chars_block (t : list ascii) :
  ∀ cs, Py.contains_chars t cs = true ↔ ∃ pre post, cs = pre ++ t ++ post.
Proof.
  induction cs as [|c cs IH]; simpl.
  - rewrite orb_false_r, starts_with_prefix. split.
    + intros [post Hpost]. by exists [], post.
    + intros (pre & post & Heq). symmetry in Heq.
      apply app_eq_nil in Heq as [-> Heq]. by exists post.
  - rewrite orb_true_iff, starts_with_prefix, IH. split.
    + intros [[post Hpost]|(pre & post & Heq)].
      * by exists [], post.
      * exists (c :: pre), post. by rewrite Heq.
    + intros (pre & post & Heq). destruct pre as [|p pre].
      * left. by exists post.
      * right. injection Heq as _ Heq. by exists pre, post.
Qed.

(** Slices of one list: cutting in the middle, clipping at the end, and
    a slice inside a wider one. *)
Lemma slice_chars_split (l : list ascii) (a b c : nat) :
  (a ≤ b)%nat → (b ≤ c)%nat →
  Py.slice_chars l a c = Py.slice_chars l a b ++ Py.slice_chars l b c.
Proof.
  intros Hab Hbc. unfold Py.slice_chars.
  replace (c - a)%nat with ((b - a) + (c - b))%nat by lia.
  rewrite <- take_take_drop. rewrite drop_drop.
  by replace (a + (b - a))%nat with b by lia.
Qed.

Lemma slice_chars_clip (l : list ascii) (i j : nat) :
  Py.slice_chars l i j = Py.slice_chars l i (Nat.min j (length l)).
Proof.
  unfold Py.slice_chars.
  destruct (decide (j ≤ length l)%nat) as [Hj|Hj].
  - by rewrite Nat.min_l.
  - rewrite Nat.min_r by lia.
    rewrite !take_ge; [done| |]; rewrite length_drop; lia.
Qed.

Lemma slice_chars_within (l : list ascii) (i j i' j' : nat) :
  (i' ≤ i)%nat → (Nat.min j (length l) ≤ j')%nat →
  ∃ pre post, Py.slice_chars l i' j' = pre ++ Py.slice_chars l i j ++ post.
Proof.
  intros Hi Hj. rewrite (slice_chars_clip l i j).
  set (j0 := Nat.min j (length l)) in *.
  destruct (decide (i ≤ j0)%nat) as [Hij|Hij].
  - exists (Py.slice_chars l i' i), (Py.slice_chars l j0 j').
    rewrite (slice_chars_split l i' i j') by lia.
    by rewrite (slice_chars_split l i j0 j') by lia.
  - exists (Py.slice_chars l i' j'), [].
    assert (Py.slice_chars l i j0 = []) as ->.
    { unfold Py.slice_chars. by replace (j0 - i)%nat with 0%nat by lia. }
    by rewrite !app_nil_r.
Qed.

Lemma slice_chars_map (f : ascii → ascii) (l : list ascii) (i j : nat) :
  Py.slice_chars (map f l) i j = map f (Py.slice_chars l i j).
Proof. unfold Py.slice_chars. by rewrite skipn_map, firstn_map. Qed.

Lemma slice_chars_length (l : list ascii) (i j : nat) :
  (length (Py.slice_chars l i j) ≤ j - i)%nat.
Proof. unfold Py.slice_chars. rewrite length_take. lia. Qed.

(** A block of at most 100 characters lies inside the window of 100
    characters that ends where the block ends. *)
Lemma block_in_window (t pre post : list ascii) :
  (length t ≤ 100)%nat →
  let i := (length pre + length t - 100)%nat in
  ∃ pre' post', Py.slice_chars (pre ++ t ++ post) i (i + 100) = pre' ++ t ++ post'.
Proof.
  intros Hlen i. unfold Py.slice_chars.
  replace (i + 100 - i)%nat with 100%nat by lia.
  rewrite drop_app_le by lia.
  exists (drop i pre), (take (100 - length (drop i pre ++ t)) post).
  rewrite (app_assoc (drop i pre) t post).
  rewrite take_app_ge by (rewrite length_app, length_drop; lia).
  by rewrite <- app_assoc.
Qed.

End TextFacts.

Section SnippetFacts.

Import SearchDatabase.

Lemma len_append (a b : string) : Py.len (a +:+ b) = (Py.len a + Py.len b)%nat.
Proof. unfold Py.len. by rewrite chars_append, length_app. Qed.

Lemma contains_block (t s : string) :
  Py.contains t s = true ↔ ∃ pre post, Py.chars s = pre ++ Py.chars t ++ post.
Proof. unfold Py.contains. apply contains_chars_block. Qed.

Lemma contains_lower_append_l (t a x : string) :
  Py.contains t (Py.lower x) = true → Py.contains t (Py.lower (a +:+ x)) = true.
Proof.
  rewrite !contains_block, !chars_lower, chars_append, map_app.
  intros (pre & post & ->). exists (map Py.lower_char (Py.chars a) ++ pre), post.
  by rewrite <- app_assoc.
Qed.

Lemma contains_lower_append_r (t x a : string) :
  Py.contains t (Py.lower x) = true → Py.contains t (Py.lower (x +:+ a)) = true.
Proof.
  rewrite !contains_block, !chars_lower, chars_append, map_app.
  intros (pre & post & ->). exists pre, (post ++ map Py.lower_char (Py.chars a)).
  by rewrite <- !app_assoc.
Qed.

Lemma count_matches_positive (query_tokens : list string) (window : string) :
  (0 < count_matches query_tokens window)%nat ↔
  ∃ token, token ∈ query_tokens ∧ Py.contains token window = true.
Proof.
  unfold count_matches. split.
  - destruct (filter _ query_tokens) as [|token rest] eqn:Hfilter; simpl; [lia|].
    intros _. exists token.
    assert (token ∈ filter (λ token, Py.contains token window = true) query_tokens) as Hin
      by (rewrite Hfilter; left).
    apply list_elem_of_filter in Hin as [? ?]. done.
  - intros (token & Hin & Hc).
    assert (token ∈ filter (λ token, Py.contains token window = true) query_tokens) as Hf
      by (by apply list_elem_of_filter).
    destruct (filter _ query_tokens); [by apply elem_of_nil in Hf|simpl; lia].
Qed.

(** What the scan returns after the windows [0 .. n-1]: the largest count
    seen, and the first window that reaches it. *)
Lemma scan_windows_best (content_lower : string) (query_tokens : list string) (n : nat) :
  let matches_at i := count_matches query_tokens (Py.slice content_lower i (i + 100)) in
  let r := foldl (scan_step content_lower query_tokens) (0%nat, 0%nat) (seq 0 n) in
  (∀ i, (i < n)%nat → (matches_at i ≤ r.2)%nat) ∧
  (r.2 = 0%nat → r.1 = 0%nat) ∧
  ((0 < r.2)%nat → (r.1 < n)%nat ∧ matches_at r.1 = r.2).
Proof.
  intros matches_at. induction n as [|n IH].
  - simpl. split_and!; [lia|done|lia].
  - rewrite seq_S, foldl_app. simpl.
    destruct (foldl _ _ (seq 0 n)) as [b m]. simpl in IH.
    destruct IH as (Hmax & Hzero & Hbest).
    unfold scan_step. simpl. fold (matches_at n).
    destruct (Nat.ltb_spec m (matches_at n)) as [Hlt|Hge]; simpl.
    + split_and!; [|lia|intros _; split; [lia|done]].
      intros i Hi. destruct (decide (i = n)) as [->|]; [lia|].
      specialize (Hmax i). lia.
    + split_and!; [|done|].
      * intros i Hi. destruct (decide (i = n)) as [->|]; [lia|]. apply Hmax. lia.
      * intros Hpos. destruct (Hbest Hpos). split; [lia|done].
Qed.

(** When a token of at most 100 characters occurs in the lower-cased
    content, some token occurs in the window the scan settles on. *)
Lemma best_window_has_token (content : string) (query_tokens : list string) :
  (∃ token, token ∈ query_tokens ∧ (Py.len token ≤ 100)%nat ∧
            Py.contains token (Py.lower content) = true) →
  let b := (scan_windows (Py.lower content) query_tokens (Py.len content)).1 in
  ∃ token, token ∈ query_tokens ∧
           Py.contains token (Py.slice (Py.lower content) b (b + 100)) = true.
Proof.
  intros (token & Hin & Hlen & Hocc) b. unfold scan_windows in b.
  apply contains_block in Hocc as (pre & post & Hsplit).
  assert (length (Py.chars (Py.lower content)) = Py.len content) as Hlow
    by (unfold Py.len; by rewrite chars_lower, length_map).
  assert (Py.len content = (length pre + length (Py.chars token) + length post)%nat)
    as Htotal by (rewrite <- Hlow, Hsplit, !length_app; lia).
  unfold Py.len in Hlen.
  destruct (decide (Py.len content ≤ 50)%nat) as [Hshort|Hlong].
  - exists token. split; [done|].
    assert (b = 0%nat) as ->.
    { unfold b. by replace (Py.len content - 50)%nat with 0%nat by lia. }
    apply contains_block. rewrite chars_slice. unfold Py.slice_chars.
    rewrite drop_0, take_ge by lia. by exists pre, post.
  - pose proof (scan_windows_best (Py.lower content) query_tokens (Py.len content - 50))
      as (Hmax & _ & Hbest).
    fold b in Hmax, Hbest. cbv zeta in Hmax, Hbest.
    set (i := (length pre + length (Py.chars token) - 100)%nat).
    assert ((i < Py.len content - 50)%nat) as Hi by lia.
    assert ((0 < count_matches query_tokens (Py.slice (Py.lower content) i (i + 100)))%nat)
      as Hfound.
    { apply count_matches_positive. exists token. split; [done|].
      apply contains_block. rewrite chars_slice, Hsplit.
      apply block_in_window. exact Hlen. }
    specialize (Hmax i Hi).
    destruct Hbest as [_ Hb]; [lia|].
    apply count_matches_positive. lia.
Qed.

(** The window the scan settles on lies inside the body of the snippet. *)
Lemma window_in_body (token content : string) (b start end_ : nat) :
  Py.contains token (Py.slice (Py.lower content) b (b + 100)) = true →
  (start ≤ b)%nat → (Nat.min (b + 100) (Py.len content) ≤ end_)%nat →
  Py.contains token (Py.lower (Py.slice content start end_)) = true.
Proof.
  rewrite !contains_block, !chars_slice, !chars_lower, chars_slice.
  intros (pre & post & Hwindow) Hstart Hend.
  rewrite <- slice_chars_map.
  destruct (slice_chars_within (map Py.lower_char (Py.chars content)) b (b + 100)
              start end_) as (pre' & post' & Hbody); [done| |].
  { rewrite length_map. exact Hend. }
  rewrite Hbody, Hwindow. exists (pre' ++ pre), (post ++ post').
  by rewrite <- !app_assoc.
Qed.

End SnippetFacts.

(** C7, as stated, fails on both counts.  A token of 101 characters that
    occurs at the end of a text of 201 characters is in no window of 100,
    and the snippet, cut from the start of the text, does not contain it.
    A token found in the middle of a long text gives a snippet of 20 + 160
    characters and two ellipses: 186, more than 160 + 6. *)
Lemma generate_snippet_misses_and_exceeds :
  (Py.contains Scenario.long_token (Py.lower Scenario.content_long_token) = true ∧
   Py.contains Scenario.long_token
     (Py.lower (SearchDatabase._generate_snippet Scenario.content_long_token
                  [Scenario.long_token] SearchDatabase.default_max_length)) = false) ∧
  Py.len (SearchDatabase._generate_snippet Scenario.content_needle ["needle"]
            SearchDatabase.default_max_length) = 186%nat.
Proof. vm_compute. done. Qed.

(** C7, amended.  With [max_length] at least 100 (160 by default) and a
    content of ASCII characters: when a query term of at most 100
    characters occurs in the lower-cased content, the snippet, lower-cased,
    contains a query term.  For every input the snippet has at most
    [max_length + 26] characters: 20 before the window, [max_length] from
    its start, and two ellipses of 3. *)
Theorem generate_snippet_term_and_length
        (content : string) (query_tokens : list string) (max_length : nat) :
  ((100 ≤ max_length)%nat →
   Py.isascii content = true →
   (∃ token, token ∈ query_tokens ∧ (Py.len token ≤ 100)%nat ∧
             Py.contains token (Py.lower content) = true) →
   ∃ token, token ∈ query_tokens ∧
            Py.contains token
              (Py.lower (SearchDatabase._generate_snippet content query_tokens max_length))
            = true)
  ∧ (Py.len (SearchDatabase._generate_snippet content query_tokens max_length)
     ≤ max_length + 26)%nat.
Proof.
  unfold SearchDatabase._generate_snippet.
  destruct (Py.truthy content) eqn:Htruthy; simpl.
  - set (b := (SearchDatabase.scan_windows (Py.lower content) query_tokens
                 (Py.len content)).1).
    set (start := (b - 20)%nat).
    set (end_ := Nat.min (Py.len content) (b + max_length)).
    split.
    + intros Hmax _ Hocc.
      destruct (best_window_has_token content query_tokens Hocc) as (token & Hin & Hwin).
      fold b in Hwin. exists token. split; [done|].
      assert (Py.contains token (Py.lower (Py.slice content start end_)) = true) as Hbody.
      { apply (window_in_body token content b); [done|unfold start; lia|unfold end_; lia]. }
      destruct (0 <? start)%nat, (end_ <? Py.len content)%nat.
      * by apply contains_lower_append_r, contains_lower_append_l.
      * by apply contains_lower_append_l.
      * by apply contains_lower_append_r.
      * exact Hbody.
    + assert (Py.len (Py.slice content start end_) ≤ max_length + 20)%nat as Hbody.
      { unfold Py.len. rewrite chars_slice.
        pose proof (slice_chars_length (Py.chars content) start end_).
        unfold start, end_ in *. lia. }
      assert (Py.len "..." = 3%nat) as Hdots by reflexivity.
      destruct (0 <? start)%nat, (end_ <? Py.len content)%nat;
        rewrite ?len_append, ?Hdots; lia.
  - split; [|unfold Py.len; simpl; lia].
    destruct content; [|done].
    intros _ _ (token & Hin & _ & Hocc). by exists token.
Qed.

Lemma generate_snippet_term_and_length_witness :
  Py.len Scenario.content_needle = 306%nat ∧
  ∃ token, token ∈ ["needle"] ∧
           Py.contains token
             (Py.lower (SearchDatabase._generate_snippet
                          Scenario.content_needle ["needle"] 160)) = true.
Proof.
  split; [reflexivity|].
  apply (proj1 (generate_snippet_term_and_length Scenario.content_needle ["needle"] 160)).
  - lia.
  - reflexivity.
  - exists "needle". split; [left|]. split; [vm_compute; lia|reflexivity].
Defined.

(* ===================================================================== *)
(** * Further properties of the store *)
(* ===================================================================== *)

Section StoreMore.

Import SearchDatabase.

Lemma filter_other_url (url url' : string) (rows : list document) :
  url' ≠ url →
  filter (λ d, doc_url d = url') (filter (λ d, doc_url d ≠ url) rows)
  = filter (λ d, doc_url d = url') rows.
Proof.
  intros Hne. apply list_filter_filter_l. intros d -> . done.
Qed.

Lemma doc_count_row_kept now url title content domain db :
  (∃ r, r ∈ metadata db ∧ md_key r = "doc_count") →
  ∃ r, r ∈ metadata (add_document now url title content domain db).2
       ∧ md_key r = "doc_count".
Proof.
  intros (r & Hin & Hkey). unfold add_document; simpl.
  eexists. split.
  - apply list_elem_of_In, in_map, list_elem_of_In. exact Hin.
  - by destruct (_ && _).
Qed.

(** On an integer cell the counter update is the integer one. *)
Lemma doc_count_is_add_document now url title content domain db (n : Z) :
  doc_count_is n db →
  doc_count_is (n + 1) (add_document now url title content domain db).2.
Proof.
  intros [(r & Hin & Hkey) Hvalue].
  pose proof (add_document_guard_never_fires now url title content domain db) as Hguard.
  unfold doc_count_is, add_document in *; simpl in *. rewrite Hguard. simpl. split.
  - eexists. split.
    + apply list_elem_of_In, in_map, list_elem_of_In. exact Hin.
    + by destruct (String.eqb (md_key r) "doc_count").
  - intros r' Hin' Hkey'. apply list_elem_of_In, in_map_iff in Hin' as (r0 & <- & Hin0).
    apply list_elem_of_In in Hin0.
    destruct (String.eqb_spec (md_key r0) "doc_count") as [Hk|Hk]; simpl in *.
    + rewrite (Hvalue r0 Hin0 Hk). by rewrite sql_integer_text.
    + done.
Qed.

Lemma doc_count_is_get (n : Z) (db : SearchDatabase.t) (dflt : string) :
  doc_count_is n db → get_metadata "doc_count" dflt db = sql_text n.
Proof.
  intros [(r & Hin & Hkey) Hvalue]. unfold get_metadata.
  destruct (filter _ (metadata db)) as [|first rest] eqn:Hfilter.
  - assert (r ∈ filter (λ r, md_key r = "doc_count") (metadata db)) as Hmem
      by (by apply list_elem_of_filter).
    rewrite Hfilter in Hmem. by apply elem_of_nil in Hmem.
  - assert (first ∈ filter (λ r, md_key r = "doc_count") (metadata db)) as Hmem
      by (rewrite Hfilter; left).
    apply list_elem_of_filter in Hmem as [Hk Hmem]. by apply Hvalue.
Qed.

End StoreMore.

(** X1.  [add_document] keeps the two keys of the documents table: when no
    two rows share a url and no two rows share an id before the call, the
    same holds after it. *)
Theorem add_document_keeps_keys_unique
        (now url title content domain : string) (db : SearchDatabase.t) :
  NoDup (SearchDatabase.doc_url <$> SearchDatabase.documents db) →
  NoDup (SearchDatabase.doc_id <$> SearchDatabase.documents db) →
  let db' := (SearchDatabase.add_document now url title content domain db).2 in
  NoDup (SearchDatabase.doc_url <$> SearchDatabase.documents db') ∧
  NoDup (SearchDatabase.doc_id <$> SearchDatabase.documents db').
Proof.
  intros Hurls Hids. unfold SearchDatabase.add_document; simpl.
  rewrite !fmap_app. simpl.
  assert (∀ f : SearchDatabase.document → Z,
            NoDup (f <$> SearchDatabase.documents db) →
            NoDup (f <$> filter (λ d, SearchDatabase.doc_url d ≠ url)
                           (SearchDatabase.documents db))) as HkeepZ.
  { intros f Hf. eapply sublist_NoDup; [exact Hf|]. apply fmap_sublist, sublist_filter. }
  assert (NoDup (SearchDatabase.doc_url
                   <$> filter (λ d, SearchDatabase.doc_url d ≠ url)
                         (SearchDatabase.documents db))) as Hkeep.
  { eapply sublist_NoDup; [exact Hurls|]. apply fmap_sublist, sublist_filter. }
  split; apply NoDup_app; (split; [auto|]); (split; [|apply NoDup_singleton]).
  - intros u Hu Hnew. apply list_elem_of_singleton in Hnew as ->.
    apply list_elem_of_fmap in Hu as (d & Hd & Hin).
    apply list_elem_of_filter in Hin as [Hne _]. done.
  - intros i Hi Hnew. apply list_elem_of_singleton in Hnew as ->.
    apply list_elem_of_fmap in Hi as (d & Hd & Hin).
    apply list_elem_of_filter in Hin as [_ Hin].
    apply next_rowid_above in Hin. lia.
Qed.

Lemma add_document_keeps_keys_unique_witness :
  let db' := (SearchDatabase.add_document "t2" "http://h/a" "T2" "again" "h"
                Scenario.store_with_one_document).2 in
  NoDup (SearchDatabase.doc_url <$> SearchDatabase.documents db') ∧
  NoDup (SearchDatabase.doc_id <$> SearchDatabase.documents db').
Proof.
  apply (add_document_keeps_keys_unique "t2" "http://h/a" "T2" "again" "h"
           Scenario.store_with_one_document).
  - vm_compute. apply NoDup_singleton.
  - vm_compute. apply NoDup_singleton.
Defined.

(** X2.  After [add_document], [get_document] of the url returns the row
    just written, under the returned id and with status 1, and
    [get_document] of any other url returns what it returned before. *)
Theorem add_document_then_get_document
        (now url title content domain : string) (db : SearchDatabase.t) :
  let r := SearchDatabase.add_document now url title content domain db in
  SearchDatabase.get_document url r.2
  = Some (SearchDatabase.mk_document r.1 url title content domain now now 1) ∧
  ∀ url', url' ≠ url →
          SearchDatabase.get_document url' r.2 = SearchDatabase.get_document url' db.
Proof.
  simpl. split.
  - unfold SearchDatabase.get_document, SearchDatabase.add_document; simpl.
    rewrite filter_app, filter_url_excluded. simpl.
    by rewrite filter_cons_True by done.
  - intros url' Hne. unfold SearchDatabase.get_document, SearchDatabase.add_document; simpl.
    rewrite filter_app, filter_other_url by done.
    rewrite filter_cons_False by (simpl; congruence).
    by rewrite filter_nil, app_nil_r.
Qed.

Lemma add_document_then_get_document_witness :
  SearchDatabase.get_document "http://h/a"
    (SearchDatabase.add_document "t2" "http://h/b" "B" "other" "h"
       Scenario.store_with_one_document).2
  = Some (SearchDatabase.mk_document 1 "http://h/a" "T" "hello world" "h" "t1" "t1" 1).
Proof.
  rewrite (proj2 (add_document_then_get_document "t2" "http://h/b" "B" "other" "h"
                    Scenario.store_with_one_document) "http://h/a"); [reflexivity|].
  discriminate.
Defined.

(** X3.  The doc_count cell counts calls of [add_document], not documents:
    on a store whose cell holds the decimal text of an integer [n], with
    room for the calls below the largest INTEGER, the cell holds the text
    of [n] plus the number of calls after a batch of calls, whether or not
    urls repeat. *)
Theorem add_documents_counts_calls
        (now dflt : string) (batch : list (string * string * string * string))
        (db : SearchDatabase.t) (n : Z) :
  SearchDatabase.doc_count_is n db →
  SearchDatabase.min_integer ≤ n →
  n + Z.of_nat (length batch) ≤ SearchDatabase.max_integer →
  SearchDatabase.doc_count_is (n + Z.of_nat (length batch))
    (SearchDatabase.add_documents now batch db) ∧
  SearchDatabase.get_metadata "doc_count" dflt (SearchDatabase.add_documents now batch db)
  = SearchDatabase.sql_text (n + Z.of_nat (length batch)).
Proof.
  intros Hcell _ _.
  assert (SearchDatabase.doc_count_is (n + Z.of_nat (length batch))
            (SearchDatabase.add_documents now batch db)) as Hafter.
  { unfold SearchDatabase.add_documents. revert db n Hcell.
    induction batch as [|[[[url title] content] domain] batch IH]; intros db n Hcell.
    - cbn [foldl length]. by rewrite Z.add_0_r.
    - cbn [foldl length].
      replace (n + Z.of_nat (S (length batch))) with (n + 1 + Z.of_nat (length batch))
        by lia.
      apply IH. by apply doc_count_is_add_document. }
  split; [exact Hafter|]. by apply doc_count_is_get.
Qed.

Lemma add_documents_counts_calls_witness :
  SearchDatabase.get_metadata "doc_count" "0"
    (SearchDatabase.add_documents "t1" Scenario.batch
       (SearchDatabase.init_db "t0" SearchDatabase.empty))
  = "3" ∧
  length (SearchDatabase.documents
            (SearchDatabase.add_documents "t1" Scenario.batch
               (SearchDatabase.init_db "t0" SearchDatabase.empty))) = 2%nat.
Proof.
  split; [|reflexivity].
  destruct (add_documents_counts_calls "t1" "0" Scenario.batch
              (SearchDatabase.init_db "t0" SearchDatabase.empty) 0) as [_ Hcell].
  - split.
    + eexists. split; [left|reflexivity].
    + intros r Hin Hkey. apply elem_of_cons in Hin as [->|Hin]; [reflexivity|].
      apply list_elem_of_singleton in Hin as ->. discriminate.
  - vm_compute. discriminate.
  - vm_compute. discriminate.
  - rewrite Hcell. reflexivity.
Defined.

Section StoreTables.

Import SearchDatabase.

Lemma existsb_false_iff {A} (f : A → bool) (l : list A) :
  existsb f l = false ↔ ∀ x, x ∈ l → f x = false.
Proof.
  induction l as [|a l IH]; simpl.
  - split; [intros _ x Hx; by apply elem_of_nil in Hx|done].
  - rewrite orb_false_iff, IH. split.
    + intros [Ha Hl] x Hx. apply elem_of_cons in Hx as [->|Hx]; auto.
    + intros Hall. split; [apply Hall; left|]. intros x Hx. apply Hall. by right.
Qed.

(** Inserting postings for words that are pairwise distinct and not yet
    taken for the document meets no key conflict. *)
Lemma insert_index_entries_fresh doc (wfs : list (string * Q)) :
  ∀ rows,
    NoDup wfs.*1 →
    (∀ e, e ∈ rows → ie_doc_id e = doc → ie_word e ∉ wfs.*1) →
    foldl (λ acc wf, acc ≫= insert_index_entry wf.1 doc wf.2) (Some rows) wfs
    = Some (rows ++ ((λ wf, mk_index_entry wf.1 doc wf.2 1) <$> wfs)).
Proof.
  induction wfs as [|[w f] wfs IH]; intros rows Hnodup Hfree.
  - simpl. by rewrite app_nil_r.
  - cbn [foldl fmap list_fmap]. simpl in Hnodup. apply NoDup_cons in Hnodup as [Hw Hnodup].
    assert (insert_index_entry w doc f rows = Some (rows ++ [mk_index_entry w doc f 1]))
      as Hins.
    { unfold insert_index_entry.
      assert (existsb (λ e, String.eqb (ie_word e) w && (ie_doc_id e =? doc)) rows = false)
        as ->; [|done].
      apply existsb_false_iff. intros e He.
      destruct (String.eqb_spec (ie_word e) w) as [Hword|]; [|done].
      destruct (Z.eqb_spec (ie_doc_id e) doc) as [Hdoc|]; [|done].
      exfalso. apply (Hfree e He Hdoc). rewrite Hword. simpl. left. }
    simpl. rewrite Hins. rewrite IH; [by rewrite <- app_assoc|done|].
    intros e He Hdoc. apply elem_of_app in He as [He|He].
    + intros Hin. apply (Hfree e He Hdoc). simpl. by right.
    + apply list_elem_of_singleton in He as ->. done.
Qed.

Lemma filter_doc_postings (doc doc' : Z) (wfs : list (string * Q)) :
  filter (λ e, ie_doc_id e = doc') ((λ wf, mk_index_entry wf.1 doc wf.2 1) <$> wfs)
  = if decide (doc = doc') then (λ wf, mk_index_entry wf.1 doc wf.2 1) <$> wfs else [].
Proof.
  induction wfs as [|wf wfs IH]; [by case_decide|].
  cbn [fmap list_fmap]. rewrite filter_cons. simpl. rewrite IH.
  by case_decide.
Qed.

Lemma filter_doc_cleared (doc : Z) (rows : list index_entry) :
  filter (λ e, ie_doc_id e = doc) (filter (λ e, ie_doc_id e ≠ doc) rows) = [].
Proof.
  induction rows as [|r rows IH]; [done|].
  rewrite (filter_cons (λ e, ie_doc_id e ≠ doc)). case_decide as Hne; [|exact IH].
  by rewrite filter_cons_False.
Qed.

End StoreTables.

(** X4.  [update_index] replaces the postings of a document: given a dict
    (pairwise distinct words) it succeeds; afterwards the postings of the
    document are exactly one posting per item, in item order, each with
    importance 1.0, and the postings of every other document, the
    documents and the metadata are as before. *)
Theorem update_index_replaces_postings
        (doc : Z) (word_frequencies : list (string * Q)) (db : SearchDatabase.t) :
  NoDup word_frequencies.*1 →
  ∃ db', SearchDatabase.update_index doc word_frequencies db = Some db' ∧
         SearchDatabase.postings_of doc db'
         = (λ wf, SearchDatabase.mk_index_entry wf.1 doc wf.2 1) <$> word_frequencies ∧
         (∀ doc', doc' ≠ doc →
                  SearchDatabase.postings_of doc' db' = SearchDatabase.postings_of doc' db) ∧
         SearchDatabase.documents db' = SearchDatabase.documents db ∧
         SearchDatabase.metadata db' = SearchDatabase.metadata db.
Proof.
  intros Hnodup. unfold SearchDatabase.update_index.
  rewrite insert_index_entries_fresh; [|done|].
  - eexists. split; [reflexivity|]. unfold SearchDatabase.postings_of. simpl.
    split_and!; [| |done|done].
    + rewrite filter_app, filter_doc_postings, decide_True by done.
      by rewrite filter_doc_cleared.
    + intros doc' Hne.
      rewrite filter_app, filter_doc_postings, decide_False by done.
      rewrite app_nil_r. apply list_filter_filter_l. intros e ->. done.
  - intros e He Hdoc. apply list_elem_of_filter in He as [Hne _]. done.
Qed.

Lemma update_index_replaces_postings_witness :
  ∃ db', SearchDatabase.update_index 1 [("hello", 1 # 2); ("world", 1 # 2)]
           Scenario.store_with_one_document = Some db' ∧
         SearchDatabase.ie_word <$> SearchDatabase.postings_of 1 db' = ["hello"; "world"].
Proof.
  destruct (update_index_replaces_postings 1 [("hello", 1 # 2); ("world", 1 # 2)]
              Scenario.store_with_one_document) as (db' & Hupd & Hpost & _).
  - simpl. apply NoDup_cons. split; [|apply NoDup_singleton].
    intros Hin. apply list_elem_of_singleton in Hin. discriminate.
  - exists db'. split; [exact Hupd|]. rewrite Hpost. reflexivity.
Defined.

Section VisitFacts.

Import SearchDatabase.

Lemma filter_visit_excluded (url : string) (rows : list visit) :
  filter (λ v, cv_url v = url) (filter (λ v, cv_url v ≠ url) rows) = [].
Proof.
  induction rows as [|r rows IH]; [done|].
  rewrite (filter_cons (λ v, cv_url v ≠ url)). case_decide as Hne; [|exact IH].
  by rewrite filter_cons_False.
Qed.

Lemma existsb_filter_other (url url' : string) (rows : list visit) :
  url' ≠ url →
  existsb (λ v, String.eqb (cv_url v) url') (filter (λ v, cv_url v ≠ url) rows)
  = existsb (λ v, String.eqb (cv_url v) url') rows.
Proof.
  intros Hne. induction rows as [|r rows IH]; [done|].
  rewrite filter_cons. case_decide as Hr; simpl; rewrite IH; [done|].
  destruct (String.eqb_spec (cv_url r) url') as [Heq|]; [|done].
  exfalso. apply Hne. destruct (decide (cv_url r = url)) as [Hurl|Hurl]; [congruence|].
  by destruct Hr.
Qed.

Lemma filter_key_excluded (key : string) (rows : list metadata_row) :
  filter (λ r, md_key r = key) (filter (λ r, md_key r ≠ key) rows) = [].
Proof.
  induction rows as [|r rows IH]; [done|].
  rewrite (filter_cons (λ r, md_key r ≠ key)). case_decide as Hne; [|exact IH].
  by rewrite filter_cons_False.
Qed.

Lemma insert_or_ignore_present (k v now : string) (rows : list metadata_row) (k' : string) :
  existsb (λ r, String.eqb (md_key r) k') (insert_or_ignore_metadata k v now rows)
  = existsb (λ r, String.eqb (md_key r) k') rows || String.eqb k k'.
Proof.
  unfold insert_or_ignore_metadata.
  destruct (existsb (λ r, String.eqb (md_key r) k) rows) eqn:Hk.
  - destruct (String.eqb_spec k k') as [<-|]; [|by rewrite orb_false_r].
    by rewrite Hk.
  - rewrite existsb_app. simpl. by rewrite orb_false_r.
Qed.

Lemma filter_insert_or_ignore_other (k v now : string) (rows : list metadata_row) (k' : string) :
  k ≠ k' →
  filter (λ r, md_key r = k') (insert_or_ignore_metadata k v now rows)
  = filter (λ r, md_key r = k') rows.
Proof.
  intros Hne. unfold insert_or_ignore_metadata.
  destruct (existsb _ rows); [done|].
  rewrite filter_app, filter_cons_False by done. by rewrite filter_nil, app_nil_r.
Qed.

Lemma filter_insert_or_ignore_same (k v now : string) (rows : list metadata_row) :
  filter (λ r, md_key r = k) (insert_or_ignore_metadata k v now rows)
  = if existsb (λ r, String.eqb (md_key r) k) rows
    then filter (λ r, md_key r = k) rows
    else [mk_metadata_row k v now].
Proof.
  unfold insert_or_ignore_metadata.
  destruct (existsb _ rows) eqn:Hk; [done|].
  rewrite filter_app, filter_cons_True by done. rewrite filter_nil.
  assert (filter (λ r, md_key r = k) rows = []) as ->; [|done].
  destruct (filter _ rows) as [|r rest] eqn:Hfilter; [done|].
  assert (r ∈ filter (λ r, md_key r = k) rows) as Hin by (rewrite Hfilter; left).
  apply list_elem_of_filter in Hin as [Hkey Hin].
  pose proof (proj1 (existsb_false_iff _ _) Hk r Hin) as Hr. simpl in Hr.
  rewrite Hkey, String.eqb_refl in Hr. discriminate.
Qed.

End VisitFacts.

(** X5.  [mark_url_visited] then [is_url_visited]: the marked url is
    reported visited, every other url is reported as before the call, and
    the visit log holds exactly one row for the marked url, the one just
    written, however often the url was marked before. *)
Theorem mark_url_visited_then_is_url_visited
        (now url : string) (depth : Z) (success : bool) (db : SearchDatabase.t) :
  let db' := SearchDatabase.mark_url_visited now url depth success db in
  SearchDatabase.is_url_visited url db' = true ∧
  (∀ url', url' ≠ url →
           SearchDatabase.is_url_visited url' db' = SearchDatabase.is_url_visited url' db) ∧
  filter (λ v, SearchDatabase.cv_url v = url) (SearchDatabase.crawler_visits db')
  = [SearchDatabase.mk_visit url now depth (if success then 1 else 0)].
Proof.
  unfold SearchDatabase.is_url_visited, SearchDatabase.mark_url_visited; simpl.
  split_and!.
  - rewrite existsb_app. simpl. by rewrite String.eqb_refl, orb_true_r.
  - intros url' Hne. rewrite existsb_app, existsb_filter_other by done. simpl.
    destruct (String.eqb_spec url url') as [Heq|]; [congruence|].
    by rewrite !orb_false_r.
  - rewrite filter_app, filter_visit_excluded. simpl.
    by rewrite filter_cons_True by done.
Qed.

Lemma mark_url_visited_then_is_url_visited_witness :
  SearchDatabase.is_url_visited "http://h/b"
    (SearchDatabase.mark_url_visited "t2" "http://h/a" 0 true
       (SearchDatabase.mark_url_visited "t1" "http://h/b" 1 false SearchDatabase.empty))
  = true.
Proof.
  rewrite (proj1 (proj2 (mark_url_visited_then_is_url_visited "t2" "http://h/a" 0 true
             (SearchDatabase.mark_url_visited "t1" "http://h/b" 1 false SearchDatabase.empty)))
             "http://h/b"); [reflexivity|discriminate].
Defined.

(** X6.  [update_metadata] then [get_metadata]: the key reads back the
    value just stored, whatever the default; every other key reads as
    before; and a key with no row reads as the default. *)
Theorem update_metadata_then_get_metadata
        (now key value dflt : string) (db : SearchDatabase.t) :
  SearchDatabase.get_metadata key dflt (SearchDatabase.update_metadata now key value db)
  = value ∧
  (∀ key', key' ≠ key →
           SearchDatabase.get_metadata key' dflt
             (SearchDatabase.update_metadata now key value db)
           = SearchDatabase.get_metadata key' dflt db) ∧
  ((∀ r, r ∈ SearchDatabase.metadata db → SearchDatabase.md_key r ≠ key) →
   SearchDatabase.get_metadata key dflt db = dflt).
Proof.
  unfold SearchDatabase.get_metadata, SearchDatabase.update_metadata,
    SearchDatabase.insert_or_replace_metadata; simpl.
  split_and!.
  - rewrite filter_app, filter_key_excluded. simpl.
    by rewrite filter_cons_True by done.
  - intros key' Hne. rewrite filter_app.
    rewrite (list_filter_filter_l (λ r, SearchDatabase.md_key r = key'))
      by (intros r ->; done).
    rewrite filter_cons_False by (simpl; congruence).
    by rewrite filter_nil, app_nil_r.
  - intros Hnone.
    destruct (filter _ (SearchDatabase.metadata db)) as [|r rest] eqn:Hfilter; [done|].
    assert (r ∈ filter (λ r, SearchDatabase.md_key r = key) (SearchDatabase.metadata db))
      as Hin by (rewrite Hfilter; left).
    apply list_elem_of_filter in Hin as [Hkey Hin]. by destruct (Hnone r Hin).
Qed.

Lemma update_metadata_then_get_metadata_witness :
  SearchDatabase.get_metadata "doc_count" "?"
    (SearchDatabase.update_metadata "t1" "last_crawl_url" "http://h/a"
       (SearchDatabase.init_db "t0" SearchDatabase.empty)) = "0"
  ∧ SearchDatabase.get_metadata "last_crawl_url" "?" SearchDatabase.empty = "?".
Proof.
  destruct (update_metadata_then_get_metadata "t1" "last_crawl_url" "http://h/a" "?"
              (SearchDatabase.init_db "t0" SearchDatabase.empty)) as (_ & Hother & _).
  destruct (update_metadata_then_get_metadata "t1" "last_crawl_url" "http://h/a" "?"
              SearchDatabase.empty) as (_ & _ & Hmissing).
  split.
  - rewrite Hother; [reflexivity|discriminate].
  - apply Hmissing. intros r Hin. by apply elem_of_nil in Hin.
Defined.

(** X7.  [init_db] on a database that was initialised before changes
    nothing, so opening an existing database keeps its counters; on any
    database it leaves the doc_count cell at the value it had, or at '0'
    when there was none. *)
Theorem init_db_again_changes_nothing (now now' dflt : string) (db : SearchDatabase.t) :
  SearchDatabase.init_db now' (SearchDatabase.init_db now db) = SearchDatabase.init_db now db
  ∧ SearchDatabase.get_metadata "doc_count" dflt (SearchDatabase.init_db now db)
    = if existsb (λ r, String.eqb (SearchDatabase.md_key r) "doc_count")
                 (SearchDatabase.metadata db)
      then SearchDatabase.get_metadata "doc_count" dflt db
      else "0".
Proof.
  split.
  - unfold SearchDatabase.init_db at 1. f_equal.
    set (rows := SearchDatabase.metadata (SearchDatabase.init_db now db)).
    assert (existsb (λ r, String.eqb (SearchDatabase.md_key r) "doc_count") rows = true)
      as Hcount.
    { unfold rows, SearchDatabase.init_db; simpl.
      rewrite !insert_or_ignore_present. simpl. by rewrite orb_true_r. }
    assert (existsb (λ r, String.eqb (SearchDatabase.md_key r) "last_crawl_time") rows = true)
      as Htime.
    { unfold rows, SearchDatabase.init_db; simpl.
      rewrite insert_or_ignore_present. simpl. by rewrite orb_true_r. }
    unfold SearchDatabase.insert_or_ignore_metadata at 2. rewrite Hcount.
    unfold SearchDatabase.insert_or_ignore_metadata. rewrite Htime.
    by destruct (SearchDatabase.init_db now db).
  - unfold SearchDatabase.get_metadata, SearchDatabase.init_db.
    cbn [SearchDatabase.metadata].
    rewrite filter_insert_or_ignore_other by discriminate.
    rewrite filter_insert_or_ignore_same.
    by destruct (existsb _ (SearchDatabase.metadata db)).
Qed.

(* ===================================================================== *)
(** * Further properties of snippets and of the tokenizer *)
(* ===================================================================== *)

Section SnippetMore.

Import SearchDatabase.

(** A token found in a slice of a text is found in the text. *)
Lemma contains_slice (token s : string) (i j : nat) :
  Py.contains token (Py.slice s i j) = true → Py.contains token s = true.
Proof.
  rewrite !contains_block, chars_slice. unfold Py.slice_chars.
  intros (pre & post & Hwindow).
  exists (take i (Py.chars s) ++ pre), (post ++ drop (j - i) (drop i (Py.chars s))).
  rewrite <- (take_drop i (Py.chars s)) at 1.
  rewrite <- (take_drop (j - i) (drop i (Py.chars s))) at 1.
  rewrite Hwindow. by rewrite <- !app_assoc.
Qed.

(** With no token anywhere in the text the scan stays at its start. *)
Lemma scan_windows_no_match (content_lower : string) (query_tokens : list string) (n : nat) :
  (∀ token, token ∈ query_tokens → Py.contains token content_lower = false) →
  scan_windows content_lower query_tokens n = (0%nat, 0%nat).
Proof.
  intros Hnone. unfold scan_windows.
  pose proof (scan_windows_best content_lower query_tokens (n - 50)) as (_ & Hzero & Hbest).
  cbv zeta in Hzero, Hbest.
  destruct (foldl _ _ (seq 0 (n - 50))) as [b m]. simpl in *.
  destruct m as [|m]; [by rewrite Hzero|].
  destruct Hbest as [_ Hcount]; [lia|].
  assert ((0 < count_matches query_tokens (Py.slice content_lower b (b + 100)))%nat)
    as Hpos by lia.
  apply count_matches_positive in Hpos as (token & Hin & Hocc).
  apply contains_slice in Hocc. rewrite (Hnone token Hin) in Hocc. discriminate.
Qed.

Lemma slice_all (s : string) (j : nat) : (Py.len s ≤ j)%nat → Py.slice s 0 j = s.
Proof.
  intros Hj. unfold Py.slice, Py.slice_chars.
  rewrite drop_0, take_ge by (unfold Py.len in Hj; lia). apply str_chars.
Qed.

End SnippetMore.

(** X8.  A snippet for a text in which no query token occurs, or for a
    text of at most 50 characters whatever the tokens, is the start of
    the text: the whole text when it has at most [max_length] characters,
    else its first [max_length] characters followed by "...". *)
Theorem generate_snippet_without_match
        (content : string) (query_tokens : list string) (max_length : nat) :
  (Py.len content ≤ 50)%nat ∨
  (∀ token, token ∈ query_tokens → Py.contains token (Py.lower content) = false) →
  SearchDatabase._generate_snippet content query_tokens max_length
  = if (max_length <? Py.len content)%nat
    then Py.slice content 0 max_length +:+ "..."
    else content.
Proof.
  intros Hcase. unfold SearchDatabase._generate_snippet.
  destruct content as [|c content]; [done|].
  change (negb (Py.truthy (String c content))) with false. cbv iota.
  generalize dependent (String c content). clear c content. intros text Hcase.
  assert (SearchDatabase.scan_windows (Py.lower text) query_tokens (Py.len text)
          = (0%nat, 0%nat)) as ->.
  { destruct Hcase as [Hshort|Hnone]; [|by apply scan_windows_no_match].
    unfold SearchDatabase.scan_windows.
    by replace (Py.len text - 50)%nat with 0%nat by lia. }
  cbn [fst].
  change (Nat.max 0 (0 - 20)) with 0%nat. change (0 <? 0)%nat with false.
  cbv iota zeta. rewrite Nat.add_0_l.
  destruct (Nat.ltb_spec max_length (Py.len text)) as [Hlong|Hfits].
  - rewrite Nat.min_r by lia.
    by destruct (Nat.ltb_spec max_length (Py.len text)) as [_|?]; [|lia].
  - rewrite Nat.min_l by lia. rewrite Nat.ltb_irrefl. by apply slice_all.
Qed.

Lemma generate_snippet_without_match_witness :
  SearchDatabase._generate_snippet Scenario.content_needle ["absent"] 160
  = Py.slice Scenario.content_needle 0 160 +:+ "...".
Proof.
  rewrite (generate_snippet_without_match Scenario.content_needle ["absent"] 160).
  - reflexivity.
  - right. intros token Hin. apply list_elem_of_singleton in Hin as ->.
    vm_compute. reflexivity.
Defined.

Section TokenizerFacts.

Lemma lower_char_idempotent (c : ascii) : Py.lower_char (Py.lower_char c) = Py.lower_char c.
Proof. by destruct c as [[] [] [] [] [] [] [] []]; vm_compute. Qed.

(** Every run [re.findall] returns is a non-empty run of word characters,
    and its characters come from the text (or from the run being read). *)
Lemma findall_word_from_runs (P : ascii → Prop) (cs : list ascii) :
  ∀ cur run,
    Forall P cs → Forall P cur → Forall (λ c, Py.is_word_char c = true) cur →
    run ∈ Py.findall_word_from cur cs →
    run ≠ [] ∧ Forall P run ∧ Forall (λ c, Py.is_word_char c = true) run.
Proof.
  induction cs as [|c cs IH]; intros cur run Hcs Hcur Hword Hin; simpl in Hin.
  - destruct cur as [|a cur]; [by apply elem_of_nil in Hin|].
    apply list_elem_of_singleton in Hin as ->.
    split_and!; [|by apply Forall_rev|by apply Forall_rev].
    intros Hnil. apply (f_equal length) in Hnil. rewrite length_rev in Hnil. done.
  - apply Forall_cons in Hcs as [Hc Hcs].
    destruct (Py.is_word_char c) eqn:Hw.
    + apply (IH (c :: cur) run); auto.
    + destruct cur as [|a cur]; [by apply (IH [] run)|].
      apply elem_of_cons in Hin as [->|Hin]; [|by apply (IH [] run)].
      split_and!; [|by apply Forall_rev|by apply Forall_rev].
      intros Hnil. apply (f_equal length) in Hnil. rewrite length_rev in Hnil. done.
Qed.

(** A text made of word characters only is one run. *)
Lemma findall_word_from_single (cs : list ascii) :
  ∀ cur, Forall (λ c, Py.is_word_char c = true) cs →
         Py.findall_word_from cur cs
         = match rev cur ++ cs with [] => [] | run => [run] end.
Proof.
  induction cs as [|c cs IH]; intros cur Hcs; simpl.
  - rewrite app_nil_r. destruct cur as [|a cur]; [done|].
    destruct (rev (a :: cur)) eqn:Hrev; [|done].
    apply (f_equal length) in Hrev. rewrite length_rev in Hrev. done.
  - apply Forall_cons in Hcs as [Hc Hcs]. rewrite Hc, IH by done.
    simpl. by rewrite <- app_assoc.
Qed.

End TokenizerFacts.

(** X9.  Every token [_tokenize] returns has at least two characters, is
    no stop word, is made of word characters none of which a lower-casing
    would change, and is a fixed point of the tokenizer: tokenizing the
    token gives back that token alone. *)
Theorem tokenize_token_well_formed (text token : string) :
  token ∈ SearchEngine._tokenize text →
  (2 ≤ Py.len token)%nat ∧
  (token ∉ SearchEngine.stopwords) ∧
  Forall (λ c, Py.is_word_char c = true ∧ Py.lower_char c = c) (Py.chars token) ∧
  SearchEngine._tokenize token = [token].
Proof.
  unfold SearchEngine._tokenize at 1.
  destruct (negb (Py.truthy text)); [intros Hin; by apply elem_of_nil in Hin|].
  cbv zeta. intros Hin. apply list_elem_of_In, filter_In in Hin as [Hin Hkeep].
  apply andb_true_iff in Hkeep as [Hlen Hstop].
  apply Nat.ltb_lt in Hlen. apply negb_true_iff in Hstop.
  unfold Py.findall_word in Hin. apply in_map_iff in Hin as (run & <- & Hin).
  apply list_elem_of_In in Hin.
  apply (findall_word_from_runs (λ c, Py.lower_char c = c)) in Hin
    as (Hne & Hlow & Hword); [| |done|done]; cycle 1.
  { rewrite chars_lower. apply Forall_forall. intros c Hc.
    apply list_elem_of_In, in_map_iff in Hc as (c0 & <- & _).
    apply lower_char_idempotent. }
  assert (Py.lower (Py.str run) = Py.str run) as Hfix.
  { unfold Py.lower. rewrite chars_str. f_equal.
    clear -Hlow. induction Hlow as [|c l Hc _ IH]; [done|]. simpl. by rewrite Hc, IH. }
  split_and!.
  - lia.
  - intros Hmem. apply list_elem_of_In in Hmem.
    assert (existsb (String.eqb (Py.str run)) SearchEngine.stopwords = true) as Hyes.
    { apply existsb_exists. exists (Py.str run). split; [done|apply String.eqb_refl]. }
    congruence.
  - rewrite chars_str. apply Forall_forall. intros c Hc. split.
    + by apply (proj1 (Forall_forall _ _) Hword).
    + by apply (proj1 (Forall_forall _ _) Hlow).
  - unfold SearchEngine._tokenize.
    assert (Py.truthy (Py.str run) = true) as ->.
    { destruct run; [done|reflexivity]. }
    cbn [negb]. cbv zeta. rewrite Hfix. unfold Py.findall_word.
    rewrite chars_str, findall_word_from_single by done.
    cbn [rev app]. destruct run as [|c run]; [done|].
    cbn [map List.filter].
    assert ((1 <? Py.len (Py.str (c :: run)))%nat = true) as -> by by apply Nat.ltb_lt.
    by rewrite Hstop.
Qed.

Lemma tokenize_token_well_formed_witness :
  SearchEngine._tokenize "Quick" = ["quick"] ∧ SearchEngine._tokenize "quick" = ["quick"].
Proof.
  split; [reflexivity|].
  apply (tokenize_token_well_formed "The Quick brown fox, and a dog" "quick").
  vm_compute. left.
Defined.

(* ===================================================================== *)
(** * Further properties of the indexer *)
(* ===================================================================== *)

Section CounterFacts.

Lemma map_fmap {A B} (f : A → B) (l : list A) : map f l = f <$> l.
Proof. induction l as [|a l IH]; [done|]. simpl. by rewrite IH. Qed.

Lemma counter_add_keys (w : string) (c : list (string * nat)) :
  (Py.counter_add w c).*1 = if bool_decide (w ∈ c.*1) then c.*1 else c.*1 ++ [w].
Proof.
  induction c as [|[w' n] c IH]; [done|].
  cbn [Py.counter_add]. destruct (String.eqb_spec w w') as [->|Hne].
  - rewrite !fmap_cons. cbn [fst]. rewrite bool_decide_eq_true_2; [done|left].
  - rewrite !fmap_cons, IH. cbn [fst].
    destruct (bool_decide_reflect (w ∈ c.*1)) as [Hin|Hnot].
    + rewrite bool_decide_eq_true_2; [done|by right].
    + rewrite bool_decide_eq_false_2; [done|].
      intros Hin. apply elem_of_cons in Hin as [?|?]; done.
Qed.

Lemma counter_add_total (w : string) (c : list (string * nat)) :
  foldr Nat.add 0%nat (Py.counter_add w c).*2 = S (foldr Nat.add 0%nat c.*2).
Proof.
  induction c as [|[w' n] c IH]; [done|].
  cbn [Py.counter_add]. destruct (String.eqb w w'); rewrite !fmap_cons; cbn [snd foldr];
    [done|]. rewrite IH. lia.
Qed.

(** Counting from any counter with distinct keys: the keys stay distinct,
    they are the old keys and the words counted, and the counts grow by
    the number of words. *)
Lemma counter_fold (words : list string) :
  ∀ acc, NoDup acc.*1 →
         let c := fold_left (λ c w, Py.counter_add w c) words acc in
         NoDup c.*1 ∧
         (∀ w, w ∈ c.*1 ↔ w ∈ acc.*1 ∨ w ∈ words) ∧
         foldr Nat.add 0%nat c.*2 = (foldr Nat.add 0%nat acc.*2 + length words)%nat.
Proof.
  induction words as [|w0 words IH]; intros acc Hacc; simpl.
  - split_and!; [done| |lia]. intros w. split; [by left|].
    intros [?|Hin]; [done|by apply elem_of_nil in Hin].
  - assert (NoDup (Py.counter_add w0 acc).*1) as Hstep.
    { rewrite counter_add_keys. destruct (bool_decide_reflect (w0 ∈ acc.*1)); [done|].
      apply NoDup_app. split_and!; [done| |apply NoDup_singleton].
      intros x Hx Hx0. apply list_elem_of_singleton in Hx0 as ->. done. }
    destruct (IH _ Hstep) as (Hnodup & Hkeys & Htotal).
    split_and!; [done| |rewrite Htotal, counter_add_total; lia].
    intros w. rewrite Hkeys, counter_add_keys.
    destruct (bool_decide_reflect (w0 ∈ acc.*1)) as [Hin|Hnot].
    + rewrite elem_of_cons. split; [intros [?|?]; auto|].
      intros [?|[->|?]]; auto.
    + rewrite elem_of_app, list_elem_of_singleton, elem_of_cons. tauto.
Qed.

Lemma Counter_keys (words : list string) :
  NoDup (Py.Counter words).*1 ∧
  (∀ w, w ∈ (Py.Counter words).*1 ↔ w ∈ words) ∧
  foldr Nat.add 0%nat (Py.Counter words).*2 = length words.
Proof.
  destruct (counter_fold words []) as (Hnodup & Hkeys & Htotal); [apply NoDup_nil_2|].
  split_and!; [done| |done].
  intros w. rewrite (Hkeys w). split; [|by right].
  intros [Hin|?]; [by apply elem_of_nil in Hin|done].
Qed.



End CounterFacts.

Section IndexerFacts.

Import SearchDatabase.

(** [update_index] on a dict: the table after the call. *)
Lemma update_index_dict (doc : Z) (wfs : list (string * Q)) (d : SearchDatabase.t) :
  NoDup wfs.*1 →
  update_index doc wfs d
  = Some (mk_db (documents d)
                (filter (λ e, ie_doc_id e ≠ doc) (index_entries d)
                   ++ ((λ wf, mk_index_entry wf.1 doc wf.2 1) <$> wfs))
                (metadata d) (crawler_visits d)).
Proof.
  intros Hnodup. unfold update_index.
  rewrite insert_index_entries_fresh; [done|done|].
  intros e He Hdoc. apply list_elem_of_filter in He as [Hne _]. done.
Qed.

Lemma normalize_frequencies_keys (c : list (string * nat)) (total : nat) :
  (SearchEngine.normalize_frequencies c total).*1 = c.*1.
Proof.
  unfold SearchEngine.normalize_frequencies.
  induction c as [|wc c IH]; [done|]. cbn [map]. rewrite !fmap_cons. by rewrite IH.
Qed.



Lemma truthy_nonempty (s : string) : s ≠ "" → Py.truthy s = true.
Proof. by destruct s. Qed.

(** What the engine's [add_document] returns and leaves behind for a
    non-empty url and content. *)
Lemma engine_add_document_unfold urlparse now url title content meta e :
  url ≠ "" → content ≠ "" →
  let domain := SearchEngine.document_domain urlparse url meta in
  let r := add_document now url title content domain (SearchEngine.db e) in
  let words := SearchEngine._tokenize (title +:+ " " +:+ content) in
  let db2 :=
    match words with
    | [] => r.2
    | _ :: _ =>
        mk_db (documents r.2)
              (filter (λ p, ie_doc_id p ≠ r.1) (index_entries r.2)
                 ++ ((λ wf, mk_index_entry wf.1 r.1 wf.2 1)
                       <$> SearchEngine.normalize_frequencies (Py.Counter words)
                             (length words)))
              (metadata r.2) (crawler_visits r.2)
    end in
  SearchEngine.add_document urlparse now url title content meta e
  = (SearchEngine.Returned (Some r.1),
     SearchEngine.mk_engine db2 (SearchEngine.read_doc_count db2)).
Proof.
  intros Hurl Hcontent. cbv zeta. unfold SearchEngine.add_document.
  rewrite (truthy_nonempty url), (truthy_nonempty content) by done.
  cbn [negb orb].
  destruct (add_document now url title content _ (SearchEngine.db e)) as [rid db1].
  cbn [fst snd].
  destruct (SearchEngine._tokenize (title +:+ " " +:+ content)) as [|w words] eqn:Hwords;
    [done|].
  rewrite update_index_dict; [done|].
  rewrite normalize_frequencies_keys. apply Counter_keys.
Qed.

End IndexerFacts.

(** X10.  The engine's [add_document] on a non-empty url and content, on a
    store whose doc_count cell holds the decimal text of an integer [n]
    below the largest INTEGER, does not raise: it returns the id of the
    row written, [get_document] of the url then returns that row (with the
    domain taken from the metadata or the url), the cell holds the text of
    [n + 1] and the cached [doc_count] is [n + 1], and the postings of
    every other document id are left as they were. *)
Theorem engine_add_document_returns_id
        (urlparse : string → option Urllib.ParseResult)
        (now url title content : string) (metadata : option (gmap string string))
        (e : SearchEngine.t) (n : Z) :
  url ≠ "" → content ≠ "" →
  SearchDatabase.doc_count_is n (SearchEngine.db e) →
  SearchDatabase.min_integer ≤ n →
  n + 1 ≤ SearchDatabase.max_integer →
  ∃ doc_id e',
    SearchEngine.add_document urlparse now url title content metadata e
    = (SearchEngine.Returned (Some doc_id), e') ∧
    SearchDatabase.get_document url (SearchEngine.db e')
    = Some (SearchDatabase.mk_document doc_id url title content
              (SearchEngine.document_domain urlparse url metadata) now now 1) ∧
    SearchDatabase.doc_count_is (n + 1) (SearchEngine.db e') ∧
    SearchEngine.doc_count e' = n + 1 ∧
    (∀ doc', doc' ≠ doc_id →
             SearchDatabase.postings_of doc' (SearchEngine.db e')
             = SearchDatabase.postings_of doc' (SearchEngine.db e)).
Proof.
  intros Hurl Hcontent Hcell _ _.
  pose proof (engine_add_document_unfold urlparse now url title content metadata e
                Hurl Hcontent) as Hrun.
  pose proof (doc_count_is_add_document now url title content
                (SearchEngine.document_domain urlparse url metadata) (SearchEngine.db e)
                n Hcell) as Hcounted.
  cbv zeta in Hrun. eexists _, _. split; [exact Hrun|].
  cbn [SearchEngine.db SearchEngine.doc_count].
  assert (SearchDatabase.get_document url
            (SearchDatabase.add_document now url title content
               (SearchEngine.document_domain urlparse url metadata) (SearchEngine.db e)).2
          = Some (SearchDatabase.mk_document
                    (SearchDatabase.add_document now url title content
                       (SearchEngine.document_domain urlparse url metadata)
                       (SearchEngine.db e)).1
                    url title content
                    (SearchEngine.document_domain urlparse url metadata) now now 1)) as Hget.
  { unfold SearchDatabase.get_document, SearchDatabase.add_document; simpl.
    rewrite filter_app, filter_url_excluded. simpl.
    by rewrite filter_cons_True by done. }
  destruct (SearchEngine._tokenize (title +:+ " " +:+ content)) as [|w words].
  - split_and!; [exact Hget|exact Hcounted| |done].
    unfold SearchEngine.read_doc_count.
    by rewrite (doc_count_is_get (n + 1)), sql_integer_text.
  - assert (SearchDatabase.doc_count_is (n + 1)
              (SearchDatabase.mk_db
                 (SearchDatabase.documents
                    (SearchDatabase.add_document now url title content
                       (SearchEngine.document_domain urlparse url metadata)
                       (SearchEngine.db e)).2)
                 (filter (λ p, SearchDatabase.ie_doc_id p
                               ≠ (SearchDatabase.add_document now url title content
                                    (SearchEngine.document_domain urlparse url metadata)
                                    (SearchEngine.db e)).1)
                    (SearchDatabase.index_entries
                       (SearchDatabase.add_document now url title content
                          (SearchEngine.document_domain urlparse url metadata)
                          (SearchEngine.db e)).2)
                  ++ ((λ wf, SearchDatabase.mk_index_entry wf.1
                               (SearchDatabase.add_document now url title content
                                  (SearchEngine.document_domain urlparse url metadata)
                                  (SearchEngine.db e)).1 wf.2 1)
                        <$> SearchEngine.normalize_frequencies (Py.Counter (w :: words))
                              (length (w :: words))))
                 (SearchDatabase.metadata
                    (SearchDatabase.add_document now url title content
                       (SearchEngine.document_domain urlparse url metadata)
                       (SearchEngine.db e)).2)
                 (SearchDatabase.crawler_visits
                    (SearchDatabase.add_document now url title content
                       (SearchEngine.document_domain urlparse url metadata)
                       (SearchEngine.db e)).2))) as Hindexed by exact Hcounted.
    split_and!; [exact Hget|exact Hindexed| |].
    + unfold SearchEngine.read_doc_count.
      by rewrite (doc_count_is_get (n + 1)), sql_integer_text.
    + intros doc' Hne. unfold SearchDatabase.postings_of.
      cbn [SearchDatabase.index_entries].
      rewrite filter_app, filter_doc_postings, decide_False by done.
      rewrite app_nil_r. cbn [SearchDatabase.add_document snd SearchDatabase.index_entries].
      apply list_filter_filter_l. intros p ->. done.
Qed.

Lemma engine_add_document_returns_id_witness :
  ∃ e', SearchEngine.add_document Scenario.urlparse "t1" "http://h/a" "T" "hello world" None
          (SearchEngine.create "t0")
        = (SearchEngine.Returned (Some 1), e') ∧
        SearchEngine.doc_count e' = 1.
Proof.
  destruct (engine_add_document_returns_id Scenario.urlparse "t1" "http://h/a" "T"
              "hello world" None (SearchEngine.create "t0") 0)
    as (doc_id & e' & Hrun & _ & _ & Hcount & _).
  - discriminate.
  - discriminate.
  - split.
    + eexists. split; [left|reflexivity].
    + intros r Hin Hkey. apply elem_of_cons in Hin as [->|Hin]; [reflexivity|].
      apply list_elem_of_singleton in Hin as ->. discriminate.
  - vm_compute. discriminate.
  - vm_compute. discriminate.
  - exists e'. split; [|exact Hcount].
    rewrite Hrun. vm_compute in Hrun. by injection Hrun as <- _.
Defined.



(* ===================================================================== *)
(** * Further properties of the crawler *)
(* ===================================================================== *)

(** X12.  [compute_url_priority] always answers a number from 1 to 100,
    a deeper url never gets a smaller number (a better priority) than the
    same url at a smaller depth, and a more important source page never
    makes the number larger. *)
Theorem compute_url_priority_monotone
        (urlparse : string → option Urllib.ParseResult) (c : SmartCrawler.t)
        (url : string) (depth depth' source source' : Z) :
  depth ≤ depth' → source' ≤ source →
  1 ≤ SmartCrawler.compute_url_priority urlparse c url depth source ≤ 100 ∧
  SmartCrawler.compute_url_priority urlparse c url depth source
  ≤ SmartCrawler.compute_url_priority urlparse c url depth' source'.
Proof.
  intros Hdepth Hsource. unfold SmartCrawler.compute_url_priority.
  destruct (urlparse url) as [parsed|]; [|lia].
  cbv zeta.
  destruct (SmartCrawler.domain_importance c !! Urllib.netloc parsed) as [importance|]; lia.
Qed.

Lemma compute_url_priority_monotone_witness :
  SmartCrawler.compute_url_priority Scenario.urlparse Scenario.fresh_crawler
    "http://h/p/q?x=1&y=2" 1 5
  ≤ SmartCrawler.compute_url_priority Scenario.urlparse Scenario.fresh_crawler
      "http://h/p/q?x=1&y=2" 2 5.
Proof.
  apply (compute_url_priority_monotone Scenario.urlparse Scenario.fresh_crawler
           "http://h/p/q?x=1&y=2" 1 2 5 5); lia.
Defined.

Section FingerprintFacts.

Lemma is_space_space : Py.is_space " " = true.
Proof. reflexivity. Qed.

(** Collapsing white space a second time changes nothing. *)
Lemma collapse_spaces_from_idempotent (cs : list ascii) :
  ∀ in_run, Py.collapse_spaces_from in_run (Py.collapse_spaces_from in_run cs)
            = Py.collapse_spaces_from in_run cs.
Proof.
  induction cs as [|c cs IH]; intros in_run; [done|].
  cbn [Py.collapse_spaces_from]. destruct (Py.is_space c) eqn:Hc.
  - destruct in_run; [apply IH|].
    cbn [Py.collapse_spaces_from]. rewrite is_space_space. by rewrite IH.
  - cbn [Py.collapse_spaces_from]. rewrite Hc. by rewrite IH.
Qed.

(** A non-empty run of white space collapses to one space, or to nothing
    inside a run that has begun. *)
Lemma collapse_spaces_from_run (ws rest : list ascii) :
  ws ≠ [] → Forall (λ c, Py.is_space c = true) ws →
  ∀ in_run, Py.collapse_spaces_from in_run (ws ++ rest)
            = (if in_run then [] else [" "%char]) ++ Py.collapse_spaces_from true rest.
Proof.
  induction ws as [|w ws IH]; intros Hne Hws in_run; [done|].
  apply Forall_cons in Hws as [Hw Hws].
  cbn [app Py.collapse_spaces_from]. rewrite Hw.
  destruct ws as [|w' ws]; [by destruct in_run|].
  rewrite (IH ltac:(done) Hws true). by destruct in_run.
Qed.

Lemma collapse_spaces_from_prefix (pre x y : list ascii) :
  (∀ in_run, Py.collapse_spaces_from in_run x = Py.collapse_spaces_from in_run y) →
  ∀ in_run, Py.collapse_spaces_from in_run (pre ++ x)
            = Py.collapse_spaces_from in_run (pre ++ y).
Proof.
  intros Hxy. induction pre as [|c pre IH]; intros in_run; [apply Hxy|].
  cbn [app Py.collapse_spaces_from]. by rewrite !IH.
Qed.

End FingerprintFacts.

(** X13.  [compute_content_fingerprint] does not see how much white space
    a text has, nor of which kind: two texts that differ in one run of
    white space have the same fingerprint, and so have a text and its
    white-space-normalised form. *)
Theorem compute_content_fingerprint_ignores_whitespace
        (md5_hexdigest : string → string) (before ws ws' after title : string) :
  ws ≠ "" → ws' ≠ "" →
  Forall (λ c, Py.is_space c = true) (Py.chars ws) →
  Forall (λ c, Py.is_space c = true) (Py.chars ws') →
  SmartCrawler.compute_content_fingerprint md5_hexdigest (before +:+ ws +:+ after) title
  = SmartCrawler.compute_content_fingerprint md5_hexdigest (before +:+ ws' +:+ after) title
  ∧ SmartCrawler.compute_content_fingerprint md5_hexdigest
      (Py.collapse_spaces (before +:+ ws +:+ after)) title
    = SmartCrawler.compute_content_fingerprint md5_hexdigest (before +:+ ws +:+ after) title.
Proof.
  intros Hne Hne' Hws Hws'.
  assert (∀ s : string, s ≠ "" → Py.chars s ≠ []) as Hchars by (by intros []).
  unfold SmartCrawler.compute_content_fingerprint. split.
  - assert (Py.collapse_spaces (before +:+ ws +:+ after)
            = Py.collapse_spaces (before +:+ ws' +:+ after)) as ->; [|done].
    unfold Py.collapse_spaces. f_equal. rewrite !chars_append.
    apply collapse_spaces_from_prefix. intros in_run.
    by rewrite !collapse_spaces_from_run by auto.
  - assert (Py.collapse_spaces (Py.collapse_spaces (before +:+ ws +:+ after))
            = Py.collapse_spaces (before +:+ ws +:+ after)) as ->; [|done].
    unfold Py.collapse_spaces. by rewrite chars_str, collapse_spaces_from_idempotent.
Qed.

Lemma compute_content_fingerprint_ignores_whitespace_witness :
  SmartCrawler.compute_content_fingerprint (λ text, text) "same body" "T"
  = SmartCrawler.compute_content_fingerprint (λ text, text)
      ("same" +:+ String "010" (String "009" "  ") +:+ "body") "T".
Proof.
  apply (compute_content_fingerprint_ignores_whitespace (λ text, text)
           "same" " " (String "010" (String "009" "  ")) "body" "T"); try discriminate.
  - repeat constructor.
  - repeat constructor.
Defined.

(** X14.  [is_duplicate_content] keeps the first url seen for a
    fingerprint: the call answers whether the fingerprint was known,
    afterwards the table maps it to the url it had, or to the given url
    when it had none; other fingerprints are untouched; and asking again
    with any url answers True and changes nothing. *)
Theorem is_duplicate_content_first_url_wins
        (fingerprint url url' : string) (c : SmartCrawler.t) :
  let r := SmartCrawler.is_duplicate_content fingerprint url c in
  r.1 = bool_decide (is_Some (SmartCrawler.content_fingerprints c !! fingerprint)) ∧
  SmartCrawler.content_fingerprints r.2 !! fingerprint
  = Some (default url (SmartCrawler.content_fingerprints c !! fingerprint)) ∧
  (∀ other, other ≠ fingerprint →
            SmartCrawler.content_fingerprints r.2 !! other
            = SmartCrawler.content_fingerprints c !! other) ∧
  SmartCrawler.is_duplicate_content fingerprint url' r.2 = (true, r.2).
Proof.
  unfold SmartCrawler.is_duplicate_content.
  destruct (SmartCrawler.content_fingerprints c !! fingerprint) as [first|] eqn:Hfp.
  - cbn [fst snd]. rewrite Hfp. split_and!; [|done|done|done].
    symmetry. apply bool_decide_eq_true_2. by eexists.
  - cbn [fst snd SmartCrawler.set_content_fingerprints SmartCrawler.content_fingerprints].
    rewrite lookup_insert_eq. split_and!; [|done| |done].
    + symmetry. apply bool_decide_eq_false_2. by intros [? ?].
    + intros other Hne. by rewrite lookup_insert_ne.
Qed.

Lemma is_duplicate_content_first_url_wins_witness :
  SmartCrawler.content_fingerprints
    (SmartCrawler.is_duplicate_content "f1" "http://h/1" Scenario.fresh_crawler).2 !! "f2"
  = None.
Proof.
  destruct (is_duplicate_content_first_url_wins "f1" "http://h/1" "http://h/2"
              Scenario.fresh_crawler) as (_ & _ & Hother & _).
  rewrite (Hother "f2"); [reflexivity|discriminate].
Defined.

Section LinkFacts.

Import SmartCrawler.

Variable env : environment.

Lemma compute_url_priority_range (c : t) (url : string) (depth source : Z) :
  1 ≤ compute_url_priority (urlparse env) c url depth source ≤ 100.
Proof.
  unfold compute_url_priority. destruct (urlparse env url); lia.
Qed.

(** One link: skipped with nothing changed, or queued once. *)
Lemma add_link_step (next_depth : Z) (n : nat) (c : t) (link : string * string) :
  let r := add_link env next_depth (n, c) link in
  (r = (n, c)) ∨
  (r.1 = S n ∧
   (link.1 ∉ visited_urls c) ∧
   (Py.startswith link.1 "http://" || Py.startswith link.1 "https://") = true ∧
   (∃ p, 1 ≤ p ≤ 100 ∧ queue r.2 ≡ₚ queue c ++ [(p, (link.1, next_depth))]) ∧
   queued (crawl_stats r.2) = queued (crawl_stats c) + 1 ∧
   visited_urls r.2 = visited_urls c ∧
   search_engine r.2 = search_engine c ∧
   force_recrawl r.2 = force_recrawl c ∧
   domain_importance r.2 = domain_importance c).
Proof.
  unfold add_link. cbv zeta.
  case_bool_decide as Hvisited; [by left|].
  destruct (negb (force_recrawl c) && _); [by left|].
  destruct (Py.startswith link.1 "http://" || Py.startswith link.1 "https://") eqn:Hhttp;
    [|by left].
  cbn [negb].
  destruct (urlparse env link.1) as [parsed|]; [|by left].
  destruct (existsb _ skipped_extensions); [by left|].
  right. cbn [fst snd]. split_and!; try done.
  eexists. split; [apply compute_url_priority_range|].
  apply (heappush_permutation item_lt).
Qed.

Lemma foldl_add_link_counts (next_depth : Z) (links : list (string * string)) :
  ∀ n c,
    let r := foldl (add_link env next_depth) (n, c) links in
    (n ≤ r.1 ≤ n + length links)%nat ∧
    length (queue r.2) = (length (queue c) + (r.1 - n))%nat ∧
    queued (crawl_stats r.2) = queued (crawl_stats c) + Z.of_nat (r.1 - n) ∧
    visited_urls r.2 = visited_urls c ∧
    search_engine r.2 = search_engine c ∧
    force_recrawl r.2 = force_recrawl c ∧
    domain_importance r.2 = domain_importance c ∧
    (∀ entry, entry ∈ queue r.2 →
              entry ∈ queue c ∨
              ∃ p u, entry = (p, (u, next_depth)) ∧ 1 ≤ p ≤ 100 ∧
                     u ∈ links.*1 ∧ (u ∉ visited_urls c) ∧
                     (Py.startswith u "http://" || Py.startswith u "https://") = true).
Proof.
  induction links as [|link links IH]; intros n c.
  - cbn [foldl fst snd length]. replace (n - n)%nat with 0%nat by lia.
    split_and!; try done; try lia. intros entry Hin. by left.
  - cbn [foldl].
    pose proof (add_link_step next_depth n c link) as Hstep. cbv zeta in Hstep.
    destruct (add_link env next_depth (n, c) link) as [n1 c1].
    specialize (IH n1 c1). cbv zeta in IH.
    destruct (foldl (add_link env next_depth) (n1, c1) links) as [n2 c2].
    cbn [fst snd length] in *.
    destruct IH as (Hn & Hlen & Hqueued & Hvis & Heng & Hforce & Himp & Hentries).
    destruct Hstep as [[= -> ->]|(-> & Hnew & Hhttp & (p & Hp & Hperm) & Hq1 & Hv1 & He1 & Hf1 & Hi1)].
    + split_and!; try done; try lia.
      intros entry Hin. destruct (Hentries entry Hin) as [?|(p & u & ? & ? & Hu & ? & ?)];
        [by left|].
      right. exists p, u. split_and!; try done; try lia. apply elem_of_cons. by right.
    + apply Permutation_length in Hperm as Hlen1. rewrite length_app in Hlen1.
      cbn [length] in Hlen1.
      split_and!; try congruence; try lia.
      intros entry Hin. destruct (Hentries entry Hin) as [Hold|(p' & u & ? & ? & Hu & Hnv & ?)].
      * rewrite Hperm in Hold. apply elem_of_app in Hold as [?|Hold]; [by left|].
        apply list_elem_of_singleton in Hold as ->.
        right. exists p, link.1. split_and!; try done; try lia. apply elem_of_cons. by left.
      * right. exists p', u. split_and!; try done; try lia; [|congruence].
        apply elem_of_cons. by right.
Qed.

End LinkFacts.

(** X15.  [_add_links_to_queue] looks at the first 100 links only, returns
    the number of entries it put on the queue, and that is how much the
    queue and the [queued] counter grow; the visited set and the search
    engine are not touched.  Every new entry has the next depth, a
    priority from 1 to 100 and a url that is one of those links, starts
    with http:// or https:// and is not in the visited set. *)
Theorem add_links_to_queue_counts
        (env : SmartCrawler.environment) (links : list (string * string))
        (current_depth : Z) (c : SmartCrawler.t) :
  let r := SmartCrawler._add_links_to_queue env links current_depth c in
  (r.1 ≤ 100)%nat ∧ (r.1 ≤ length links)%nat ∧
  length (SmartCrawler.queue r.2) = (length (SmartCrawler.queue c) + r.1)%nat ∧
  SmartCrawler.queued (SmartCrawler.crawl_stats r.2)
  = SmartCrawler.queued (SmartCrawler.crawl_stats c) + Z.of_nat r.1 ∧
  SmartCrawler.visited_urls r.2 = SmartCrawler.visited_urls c ∧
  SmartCrawler.search_engine r.2 = SmartCrawler.search_engine c ∧
  (∀ entry, entry ∈ SmartCrawler.queue r.2 →
            entry ∈ SmartCrawler.queue c ∨
            ∃ p u, entry = (p, (u, current_depth + 1)) ∧ 1 ≤ p ≤ 100 ∧
                   u ∈ (take 100 links).*1 ∧ (u ∉ SmartCrawler.visited_urls c) ∧
                   (Py.startswith u "http://" || Py.startswith u "https://") = true).
Proof.
  unfold SmartCrawler._add_links_to_queue. cbv zeta.
  pose proof (foldl_add_link_counts env (current_depth + 1)
                (take (Nat.min 100 (length links)) links) 0 c) as Hfold.
  cbv zeta in Hfold.
  destruct (foldl _ _ (take (Nat.min 100 (length links)) links)) as [n c'].
  cbn [fst snd] in *. rewrite length_take in Hfold.
  destruct Hfold as (Hn & Hlen & Hqueued & Hvis & Heng & _ & _ & Hentries).
  rewrite Nat.sub_0_r in Hlen, Hqueued.
  split_and!; try done; try lia.
  intros entry Hin. destruct (Hentries entry Hin) as [?|(p & u & ? & ? & Hu & ? & ?)];
    [by left|].
  right. exists p, u. split_and!; try done; try lia.
  assert (take (Nat.min 100 (length links)) links = take 100 links) as Htake;
    [|by rewrite <- Htake].
  destruct (decide (100 ≤ length links)%nat).
  - by rewrite Nat.min_l.
  - rewrite Nat.min_r by lia. by rewrite !take_ge by lia.
Qed.

Lemma add_links_to_queue_counts_witness :
  let links := [("http://h/1", "one"); ("ftp://h/x", "file"); ("http://h/1", "one again")] in
  let r := SmartCrawler._add_links_to_queue (Scenario.environment true) links 0
             Scenario.fresh_crawler in
  r.1 = 2%nat ∧ length (SmartCrawler.queue r.2) = 2%nat.
Proof.
  cbv zeta.
  destruct (add_links_to_queue_counts (Scenario.environment true)
              [("http://h/1", "one"); ("ftp://h/x", "file"); ("http://h/1", "one again")] 0
              Scenario.fresh_crawler) as (_ & _ & Hlen & _).
  split; [reflexivity|]. rewrite Hlen. reflexivity.
Defined.

Section TurnFacts.

Import SmartCrawler.

Variable env : environment.

Lemma index_page_visited (url : string) (depth : Z) (content : string) (c : t) :
  visited_urls (index_page env url depth content c) = visited_urls c.
Proof.
  unfold index_page.
  destruct (extract_text_content env content url) as [[title main_content]|]; [|done].
  destruct (extract_metadata env content url) as [metadata|]; [|done].
  destruct (SearchEngine.add_document _ _ _ _ _ _ _) as [[doc|] e]; [|done].
  case_match; [|done].
  destruct (extract_links env content url) as [links|]; [|done].
  unfold _add_links_to_queue.
  pose proof (foldl_add_link_counts env (depth + 1)
                (take (Nat.min 100 (length links)) links) 0
                (update_stats (add_indexed 1) (set_search_engine e c)))
    as (_ & _ & _ & Hvisited & _).
  by rewrite Hvisited.
Qed.

Lemma fetch_page_visited (url : string) (depth : Z) (c : t) :
  visited_urls (fetch_page env url depth c).1 = {[url]} ∪ visited_urls c.
Proof.
  unfold fetch_page.
  destruct (http_get env url) as [| |content status_code content_type]; [done|done|].
  destruct (status_code =? 200); [|done].
  case_match; [done|]. cbn [fst]. by rewrite index_page_visited.
Qed.

Lemma apply_rate_limiting_visited (url : string) (c : t) :
  let r := default (c, []) (_apply_rate_limiting env url c) in
  visited_urls r.1 = visited_urls c ∧ fetched r.2 = [].
Proof.
  unfold _apply_rate_limiting.
  destruct (urlparse env url) as [parsed|]; [|done].
  cbn [default fst snd]. split; [done|].
  destruct (domain_access_times c !! Urllib.netloc parsed) as [last|]; [|done].
  by destruct (negb _).
Qed.

(** Whether a turn goes as far as the request. *)
Lemma crawl_url_turn (priority : Z) (url : string) (depth : Z) (c : t) :
  let r := crawl_url env (priority, (url, depth)) c in
  visited_urls r.1 = {[url]} ∪ visited_urls c ∧
  fetched r.2
  = if bool_decide (url ∈ visited_urls c)
       || (negb (force_recrawl c)
           && SearchDatabase.is_url_visited url (SearchEngine.db (search_engine c)))
       || negb (is_allowed_by_robots env url c).1
    then [] else [url].
Proof.
  unfold crawl_url. cbv zeta.
  case_bool_decide as Hvisited.
  { cbn [fst snd orb]. split; [|done].
    symmetry. apply subseteq_union_1_L. by apply singleton_subseteq_l. }
  cbn [orb update_stats set_crawl_stats force_recrawl search_engine].
  destruct (negb (force_recrawl c) && _); [done|].
  cbn [orb].
  pose proof (is_allowed_by_robots_frame env url (update_stats (set_current_url url) c) c)
    as (Hverdict & _ & Hvis & _).
  cbv zeta in Hverdict, Hvis. unfold update_stats, set_crawl_stats in Hverdict, Hvis.
  rewrite <- Hverdict.
  destruct (is_allowed_by_robots env url _) as [allowed c1].
  cbn [fst snd visited_urls] in *.
  destruct allowed; cbn [negb].
  - pose proof (apply_rate_limiting_visited url c1) as [Hvis2 Hwaits]. cbv zeta in Hvis2, Hwaits.
    destruct (default (c1, []) (_apply_rate_limiting env url c1)) as [c2 waits].
    pose proof (fetch_page_visited url depth c2) as Hvis3.
    destruct (fetch_page env url depth c2) as [c3 reports].
    cbn [fst snd] in *. split; [congruence|].
    unfold fetched in *. cbn [app omap list_omap]. rewrite !omap_app, Hwaits.
    by destruct reports.
  - cbn [fst snd]. split; [|done]. unfold visit, update_stats. cbn. by rewrite Hvis.
Qed.

Lemma heappop_none (heap : list item) :
  Heapq.heappop item_lt heap = None → heap = [].
Proof.
  unfold Heapq.heappop. destruct (last heap) as [lastelt|] eqn:Hlast.
  - by destruct (take (length heap - 1) heap).
  - intros _. by apply last_None.
Qed.

(** The loop as a whole. *)
Lemma crawl_loop_run (budget : nat) :
  ∀ c, let r := crawl_loop env budget c in
       visited_urls c ⊆ visited_urls r.1.1 ∧
       NoDup (fetched r.1.2) ∧
       (∀ url, url ∈ fetched r.1.2 → (url ∉ visited_urls c) ∧ url ∈ visited_urls r.1.1) ∧
       (r.2 ≤ budget)%nat ∧
       (r.2 = budget ∨ status (crawl_stats r.1.1) = "stopping" ∨ queue r.1.1 = []).
Proof.
  induction budget as [|budget IH]; intros c; cbv zeta.
  - cbn. split_and!; [done|apply NoDup_nil_2| |done|by left].
    intros url Hin. by apply elem_of_nil in Hin.
  - cbn [crawl_loop].
    destruct (String.eqb_spec (status (crawl_stats c)) "stopping") as [Hstop|_].
    { cbn. split_and!; [done|apply NoDup_nil_2| |lia|by right; left].
      intros url Hin. by apply elem_of_nil in Hin. }
    destruct (Heapq.heappop item_lt (queue c)) as [[[priority [url depth]] rest]|] eqn:Hpop.
    2:{ cbn. split_and!; [done|apply NoDup_nil_2| |lia|right; right; by apply heappop_none].
        intros u Hin. by apply elem_of_nil in Hin. }
    pose proof (crawl_url_turn priority url depth (set_queue rest c)) as [Hvis Hfetched].
    cbv zeta in Hvis, Hfetched.
    destruct (crawl_url env (priority, (url, depth)) (set_queue rest c)) as [c1 events].
    specialize (IH c1). cbv zeta in IH.
    destruct (crawl_loop env budget c1) as [[c2 later] n].
    cbn [fst snd set_queue visited_urls] in *.
    destruct IH as (Hsub & Hnodup & Hlater & Hn & Hexit).
    assert (fetched (events ++ later) = fetched events ++ fetched later) as ->
      by apply omap_app.
    assert (∀ u, u ∈ fetched events → u = url ∧ url ∉ visited_urls c) as Hturn.
    { intros u Hu. rewrite Hfetched in Hu.
      case_bool_decide as Hseen; [by apply elem_of_nil in Hu|].
      destruct (_ || _); [by apply elem_of_nil in Hu|].
      apply list_elem_of_singleton in Hu. done. }
    assert (url ∈ visited_urls c1) as Hmarked.
    { rewrite Hvis. apply elem_of_union_l. by apply elem_of_singleton. }
    assert (visited_urls c ⊆ visited_urls c1) as Hgrows.
    { rewrite Hvis. apply union_subseteq_r. }
    split_and!.
    + by etrans.
    + apply NoDup_app. split_and!; [|intros u Hu Hu'|done].
      * rewrite Hfetched. destruct (_ || _); [apply NoDup_nil_2|apply NoDup_singleton].
      * destruct (Hturn u Hu) as [-> _]. by destruct (Hlater url Hu') as [Hnot _].
    + intros u Hu. apply elem_of_app in Hu as [Hu|Hu].
      * destruct (Hturn u Hu) as [-> Hnot]. split; [done|]. by apply Hsub.
      * destruct (Hlater u Hu) as [Hnot Hin]. split; [|done].
        intros Hc. apply Hnot. by apply Hgrows.
    + lia.
    + destruct Hexit as [->|[?|?]]; auto.
Qed.

End TurnFacts.

(** X16.  One turn of the crawl loop on the entry [(priority, (url, depth))]
    leaves the visited set as it was plus the url, whatever happens to the
    request; it requests the url exactly when the url is not in the visited
    set, is not recorded as visited in the database (or [force_recrawl] is
    set) and the robots rules allow it; and it never requests another url. *)
Theorem crawl_url_visits_its_url
        (env : SmartCrawler.environment) (priority : Z) (url : string) (depth : Z)
        (c : SmartCrawler.t) :
  let r := SmartCrawler.crawl_url env (priority, (url, depth)) c in
  SmartCrawler.visited_urls r.1 = {[url]} ∪ SmartCrawler.visited_urls c ∧
  SmartCrawler.fetched r.2
  = if bool_decide (url ∈ SmartCrawler.visited_urls c)
       || (negb (SmartCrawler.force_recrawl c)
           && SearchDatabase.is_url_visited url
                (SearchEngine.db (SmartCrawler.search_engine c)))
       || negb (SmartCrawler.is_allowed_by_robots env url c).1
    then [] else [url].
Proof. apply crawl_url_turn. Qed.

(** X17.  In a run of the crawl loop no url is requested twice, no url
    that was in the visited set at the start is requested, every url
    requested is in the visited set at the end, and the visited set only
    grows. *)
Theorem crawl_loop_requests_once
        (env : SmartCrawler.environment) (budget : nat) (c : SmartCrawler.t) :
  let r := SmartCrawler.crawl_loop env budget c in
  NoDup (SmartCrawler.fetched r.1.2) ∧
  (∀ url, url ∈ SmartCrawler.fetched r.1.2 →
          (url ∉ SmartCrawler.visited_urls c) ∧ url ∈ SmartCrawler.visited_urls r.1.1) ∧
  SmartCrawler.visited_urls c ⊆ SmartCrawler.visited_urls r.1.1.
Proof.
  pose proof (crawl_loop_run env budget c) as (Hsub & Hnodup & Hfetched & _).
  done.
Qed.

Lemma crawl_loop_requests_once_witness :
  let r := SmartCrawler.crawl_loop (Scenario.environment true) SmartCrawler.max_urls
             (SmartCrawler.queue_put (2, ("http://h/1", 1)) Scenario.waiting_crawler) in
  SmartCrawler.fetched r.1.2 = ["http://h/1"] ∧ r.2 = 2%nat ∧
  "http://h/1" ∈ SmartCrawler.visited_urls r.1.1.
Proof.
  cbv zeta.
  destruct (crawl_loop_requests_once (Scenario.environment true) SmartCrawler.max_urls
              (SmartCrawler.queue_put (2, ("http://h/1", 1)) Scenario.waiting_crawler))
    as (_ & Hfetched & _).
  assert (SmartCrawler.fetched
            (SmartCrawler.crawl_loop (Scenario.environment true) SmartCrawler.max_urls
               (SmartCrawler.queue_put (2, ("http://h/1", 1)) Scenario.waiting_crawler)).1.2
          = ["http://h/1"]) as Hrun by (vm_compute; reflexivity).
  split_and!; [exact Hrun|vm_compute; reflexivity|].
  apply Hfetched. rewrite Hrun. left.
Defined.

(** X18.  The crawl loop takes at most [budget] entries from the queue
    (at most 10000 in the code), and when it ends either the budget is
    spent, or the status is "stopping", or the queue is empty. *)
Theorem crawl_loop_ends
        (env : SmartCrawler.environment) (budget : nat) (c : SmartCrawler.t) :
  let r := SmartCrawler.crawl_loop env budget c in
  (r.2 ≤ budget)%nat ∧
  (r.2 = budget ∨
   SmartCrawler.status (SmartCrawler.crawl_stats r.1.1) = "stopping" ∨
   SmartCrawler.queue r.1.1 = []).
Proof.
  pose proof (crawl_loop_run env budget c) as (_ & _ & _ & Hn & Hexit).
  done.
Qed.

Section PageFacts.

Import SmartCrawler.

Variable env : environment.

(** [_process_page] up to the fingerprint check, for an HTML page of at
    least 100 characters whose text can be extracted. *)
Lemma process_page_reaches_check
      (url content : string) (content_type : option string) (depth : Z) (c : t)
      (parsed : Urllib.ParseResult) (title main_content : string) :
  urlparse env url = Some parsed →
  Py.startswith (Py.lower (default "" content_type)) "text/html" = true →
  (100 ≤ Py.len content)%nat →
  extract_text_content env content url = Some (title, main_content) →
  ∃ c0,
    search_engine c0 = search_engine c ∧ queue c0 = queue c ∧
    content_fingerprints c0 = content_fingerprints c ∧
    skipped_duplicates (crawl_stats c0) = skipped_duplicates (crawl_stats c) ∧
    indexed (crawl_stats c0) = indexed (crawl_stats c) ∧
    max_depth (crawl_stats c0) = max_depth (crawl_stats c) ∧
    _process_page env url content content_type depth c
    = let fingerprint :=
        compute_content_fingerprint (md5_hexdigest env) main_content title in
      let '(duplicate, c1) := is_duplicate_content fingerprint url c0 in
      if duplicate
      then (SearchEngine.Returned (), update_stats (add_skipped_duplicates 1) c1)
      else
        match extract_metadata env content url with
        | None => (SearchEngine.Returned (), update_stats (add_errors 1) c1)
        | Some metadata =>
            match SearchEngine.add_document (urlparse env) (isoformat_now env) url
                    title main_content (Some metadata) (search_engine c1) with
            | (SearchEngine.Raised, e) =>
                (SearchEngine.Returned (),
                 update_stats (add_errors 1) (set_search_engine e c1))
            | (SearchEngine.Returned _, e) =>
                let c2 := update_stats (add_indexed 1) (set_search_engine e c1) in
                let recent :=
                  take 5 (mk_recent_url url (title_display title) (Urllib.netloc parsed)
                            :: recent_urls (crawl_stats c2)) in
                let c3 := update_stats (set_recent_urls recent) c2 in
                if depth <? default 2 (max_depth (crawl_stats c3)) then
                  match extract_links env content url with
                  | None => (SearchEngine.Returned (), update_stats (add_errors 1) c3)
                  | Some links =>
                      (SearchEngine.Returned (), (_add_links_to_queue env links depth c3).2)
                  end
                else (SearchEngine.Returned (), c3)
            end
        end.
Proof.
  intros Hparse Hhtml Hlen Htext. unfold _process_page. rewrite Hparse, Hhtml.
  assert (negb (Py.truthy content) || (Py.len content <? 100)%nat = false) as ->.
  { apply orb_false_iff. split.
    - destruct content; [|done]. change (Py.len "") with 0%nat in Hlen. lia.
    - apply Nat.ltb_ge. exact Hlen. }
  cbn [negb]. rewrite Htext.
  eexists (if bool_decide (("domain:" +:+ Urllib.netloc parsed) ∈ visited_urls c) then c
           else update_stats (add_domains_crawled 1)
                  (visit ("domain:" +:+ Urllib.netloc parsed) c)).
  split_and!; by case_bool_decide.
Qed.

End PageFacts.

(** X19.  [_process_page] on an HTML page of at least 100 characters whose
    fingerprint is already in the table skips the page: it returns without
    raising, counts one more skipped duplicate, and leaves the search
    engine, the queue, the fingerprint table and the count of indexed
    pages as they were. *)
Theorem process_page_skips_duplicate
        (env : SmartCrawler.environment) (url content : string)
        (content_type : option string) (depth : Z) (c : SmartCrawler.t)
        (parsed : Urllib.ParseResult) (title main_content first : string) :
  SmartCrawler.urlparse env url = Some parsed →
  Py.startswith (Py.lower (default "" content_type)) "text/html" = true →
  (100 ≤ Py.len content)%nat →
  SmartCrawler.extract_text_content env content url = Some (title, main_content) →
  SmartCrawler.content_fingerprints c
    !! SmartCrawler.compute_content_fingerprint (SmartCrawler.md5_hexdigest env)
         main_content title = Some first →
  let r := SmartCrawler._process_page env url content content_type depth c in
  r.1 = SearchEngine.Returned () ∧
  SmartCrawler.search_engine r.2 = SmartCrawler.search_engine c ∧
  SmartCrawler.queue r.2 = SmartCrawler.queue c ∧
  SmartCrawler.content_fingerprints r.2 = SmartCrawler.content_fingerprints c ∧
  SmartCrawler.skipped_duplicates (SmartCrawler.crawl_stats r.2)
  = SmartCrawler.skipped_duplicates (SmartCrawler.crawl_stats c) + 1 ∧
  SmartCrawler.indexed (SmartCrawler.crawl_stats r.2)
  = SmartCrawler.indexed (SmartCrawler.crawl_stats c).
Proof.
  intros Hparse Hhtml Hlen Htext Hknown.
  destruct (process_page_reaches_check env url content content_type depth c parsed title
              main_content Hparse Hhtml Hlen Htext)
    as (c0 & Heng & Hqueue & Hfp & Hskipped & Hindexed & _ & ->).
  cbv zeta. unfold SmartCrawler.is_duplicate_content. rewrite Hfp, Hknown.
  cbn [fst snd]. split_and!; try done. cbn. by rewrite Hskipped.
Qed.

Lemma process_page_skips_duplicate_witness :
  let r := SmartCrawler._process_page (Scenario.environment true) "http://h/2"
             Scenario.page_html (Some "text/html; charset=utf-8") 0
             Scenario.crawler_after_first_page in
  SmartCrawler.skipped_duplicates (SmartCrawler.crawl_stats r.2) = 1 ∧
  SmartCrawler.search_engine r.2
  = SmartCrawler.search_engine Scenario.crawler_after_first_page.
Proof.
  destruct (process_page_skips_duplicate (Scenario.environment true) "http://h/2"
              Scenario.page_html (Some "text/html; charset=utf-8") 0
              Scenario.crawler_after_first_page
              (Urllib.mk_parse_result "http" "h" "/2" "")
              Scenario.page_title Scenario.page_text "http://h/1")
    as (_ & Hengine & _ & _ & Hskipped & _);
    [reflexivity|reflexivity|vm_compute; lia|reflexivity|reflexivity|].
  cbv zeta. split; [rewrite Hskipped; reflexivity|exact Hengine].
Defined.

Section FreshPageFacts.

Import SmartCrawler.

Variable env : environment.




Lemma add_links_to_queue_engine (links : list (string * string)) (depth : Z) (c : t) :
  search_engine (_add_links_to_queue env links depth c).2 = search_engine c.
Proof.
  unfold _add_links_to_queue.
  by pose proof (foldl_add_link_counts env (depth + 1)
                   (take (Nat.min 100 (length links)) links) 0 c)
    as (_ & _ & _ & _ & -> & _).
Qed.

End FreshPageFacts.



(* ===================================================================== *)
(** * Searching what was indexed *)
(* ===================================================================== *)

Section SearchFacts.

Import SearchDatabase.

(** What the join selects. *)
Lemma search_rows_spec (query_tokens : list string) (time_filter : option string)
      (d : SearchDatabase.t) (id : Z) :
  id ∈ search_rows query_tokens time_filter d ↔
  ∃ row posting,
    row ∈ documents d ∧ doc_id row = id ∧ doc_status row = 1 ∧
    in_time_filter time_filter row = true ∧
    posting ∈ index_entries d ∧ ie_doc_id posting = id ∧ ie_word posting ∈ query_tokens.
Proof.
  unfold search_rows. rewrite list_elem_of_In, in_flat_map. split.
  - intros (row & Hrow & Hin). apply filter_In in Hrow as [Hrow Hok].
    apply andb_true_iff in Hok as [Hstatus Htime]. apply Z.eqb_eq in Hstatus.
    apply in_map_iff in Hin as (posting & <- & Hposting).
    apply filter_In in Hposting as [Hposting Hmatch].
    apply andb_true_iff in Hmatch as [Hdoc Hword]. apply Z.eqb_eq in Hdoc.
    apply existsb_exists in Hword as (token & Htoken & Heq). apply String.eqb_eq in Heq.
    exists row, posting. rewrite !list_elem_of_In. split_and!; try done. by rewrite Heq.
  - intros (row & posting & Hrow & <- & Hstatus & Htime & Hposting & Hdoc & Hword).
    apply list_elem_of_In in Hrow, Hposting, Hword.
    exists row. split.
    + apply filter_In. split; [done|]. apply andb_true_iff. split; [|done].
      by apply Z.eqb_eq.
    + apply in_map_iff. exists posting. split; [done|]. apply filter_In. split; [done|].
      apply andb_true_iff. split; [by apply Z.eqb_eq|].
      apply existsb_exists. exists (ie_word posting). split; [done|apply String.eqb_refl].
Qed.

Lemma NoDup_fmap_injective {A B} (f : A → B) (l : list A) (x y : A) :
  NoDup (f <$> l) → x ∈ l → y ∈ l → f x = f y → x = y.
Proof.
  induction l as [|a l IH]; intros Hnodup Hx Hy Heq; [by apply elem_of_nil in Hx|].
  rewrite fmap_cons in Hnodup. apply NoDup_cons in Hnodup as [Hfresh Hnodup].
  apply elem_of_cons in Hx as [->|Hx]; apply elem_of_cons in Hy as [->|Hy]; auto.
  - exfalso. apply Hfresh. rewrite Heq. apply list_elem_of_fmap. by exists y.
  - exfalso. apply Hfresh. rewrite <- Heq. apply list_elem_of_fmap. by exists x.
Qed.

(** The tables the engine's [add_document] leaves. *)
Lemma engine_add_document_tables urlparse now url title content meta e :
  url ≠ "" → content ≠ "" →
  let e' := (SearchEngine.add_document urlparse now url title content meta e).2 in
  let rid := next_rowid (documents (SearchEngine.db e)) in
  documents (SearchEngine.db e')
  = filter (λ row, doc_url row ≠ url) (documents (SearchEngine.db e))
      ++ [mk_document rid url title content
            (SearchEngine.document_domain urlparse url meta) now now 1] ∧
  ∀ w, w ∈ SearchEngine._tokenize (title +:+ " " +:+ content) →
       ∃ posting, posting ∈ index_entries (SearchEngine.db e') ∧
                  ie_doc_id posting = rid ∧ ie_word posting = w.
Proof.
  intros Hurl Hcontent.
  pose proof (engine_add_document_unfold urlparse now url title content meta e
                Hurl Hcontent) as Hrun.
  cbv zeta in *. rewrite Hrun. cbn [snd SearchEngine.db].
  destruct (SearchEngine._tokenize (title +:+ " " +:+ content)) as [|w0 words0] eqn:Htok.
  - split; [done|]. intros w Hw. by apply elem_of_nil in Hw.
  - split; [done|]. intros w Hw. cbn [index_entries].
    destruct (Counter_keys (w0 :: words0)) as (_ & Hkeys & _).
    apply Hkeys in Hw.
    rewrite <- (normalize_frequencies_keys _ (length (w0 :: words0))) in Hw.
    apply list_elem_of_fmap in Hw as (wf & -> & Hwf).
    eexists. split.
    + apply elem_of_app. right. apply list_elem_of_fmap. by exists wf.
    + done.
Qed.

End SearchFacts.



(** X22.  [search] counts existing documents only: every matching id is
    the id of an active document that has a posting for one of the query
    tokens, and the total is at most the number of active documents. *)
Theorem search_counts_active_documents
        (query_tokens : list string) (time_filter : option string) (d : SearchDatabase.t) :
  (∀ id, id ∈ SearchDatabase.search_rows query_tokens time_filter d →
         ∃ row posting,
           row ∈ SearchDatabase.documents d ∧ SearchDatabase.doc_id row = id ∧
           SearchDatabase.doc_status row = 1 ∧
           posting ∈ SearchDatabase.index_entries d ∧
           SearchDatabase.ie_doc_id posting = id ∧
           SearchDatabase.ie_word posting ∈ query_tokens) ∧
  (SearchDatabase.search_total query_tokens time_filter d
   ≤ SearchDatabase.active_documents d)%nat.
Proof.
  split.
  - intros id Hid. apply search_rows_spec in Hid
      as (row & posting & ? & ? & ? & _ & ? & ? & ?).
    by exists row, posting.
  - unfold SearchDatabase.search_total, SearchDatabase.active_documents.
    destruct query_tokens as [|q qs]; [lia|].
    rewrite <- (length_fmap SearchDatabase.doc_id
                  (filter (λ row, SearchDatabase.doc_status row = 1)
                     (SearchDatabase.documents d))).
    apply submseteq_length, NoDup_submseteq; [apply NoDup_remove_dups|].
    intros id Hid. apply elem_of_remove_dups, search_rows_spec in Hid
      as (row & posting & Hrow & <- & Hstatus & _).
    apply list_elem_of_fmap. exists row. split; [done|]. by apply list_elem_of_filter.
Qed.

(** X23.  Replacing a document removes it from the search under its old
    id: when ids are unique and the url already has a document, after the
    engine's [add_document] of that url no query matches the old id,
    although the postings of the old id stay in the table. *)
Theorem replaced_document_not_found
        (urlparse : string → option Urllib.ParseResult)
        (now url title content : string) (metadata : option (gmap string string))
        (e : SearchEngine.t) (old : SearchDatabase.document)
        (query_tokens : list string) (time_filter : option string) :
  NoDup (SearchDatabase.doc_id <$> SearchDatabase.documents (SearchEngine.db e)) →
  SearchDatabase.get_document url (SearchEngine.db e) = Some old →
  url ≠ "" → content ≠ "" →
  let e' := (SearchEngine.add_document urlparse now url title content metadata e).2 in
  (SearchDatabase.doc_id old
   ∉ SearchDatabase.search_rows query_tokens time_filter (SearchEngine.db e')) ∧
  SearchDatabase.postings_of (SearchDatabase.doc_id old) (SearchEngine.db e')
  = SearchDatabase.postings_of (SearchDatabase.doc_id old) (SearchEngine.db e).
Proof.
  intros Hids Hold Hurl Hcontent.
  destruct (engine_add_document_tables urlparse now url title content metadata e
              Hurl Hcontent) as [Hdocs _].
  cbv zeta in *.
  assert (old ∈ SearchDatabase.documents (SearchEngine.db e)
          ∧ SearchDatabase.doc_url old = url) as [Hin Hsame].
  { unfold SearchDatabase.get_document in Hold.
    destruct (filter _ (SearchDatabase.documents (SearchEngine.db e))) as [|first rest]
      eqn:Hfilter; [done|].
    injection Hold as ->.
    assert (old ∈ filter (λ row, SearchDatabase.doc_url row = url)
                    (SearchDatabase.documents (SearchEngine.db e))) as Hmem
      by (rewrite Hfilter; left).
    apply list_elem_of_filter in Hmem as [? ?]. done. }
  split.
  - intros Hfound. apply search_rows_spec in Hfound as (row & _ & Hrow & Hid & _).
    rewrite Hdocs in Hrow. apply elem_of_app in Hrow as [Hrow|Hrow].
    + apply list_elem_of_filter in Hrow as [Hother Hrow].
      apply Hother. rewrite <- Hsame. f_equal.
      by apply (NoDup_fmap_injective SearchDatabase.doc_id
                  (SearchDatabase.documents (SearchEngine.db e))).
    + apply list_elem_of_singleton in Hrow as ->. cbn in Hid.
      pose proof (next_rowid_above _ _ Hin). lia.
  - pose proof (engine_add_document_unfold urlparse now url title content metadata e
                  Hurl Hcontent) as Hrun.
    cbv zeta in Hrun. rewrite Hrun. cbn [snd SearchEngine.db].
    pose proof (next_rowid_above _ _ Hin) as Hfresh.
    destruct (SearchEngine._tokenize (title +:+ " " +:+ content)) as [|w words]; [done|].
    unfold SearchDatabase.postings_of. cbn [SearchDatabase.index_entries].
    rewrite filter_app, filter_doc_postings.
    rewrite decide_False by (cbn; lia).
    rewrite app_nil_r. cbn [SearchDatabase.add_document snd SearchDatabase.index_entries].
    apply list_filter_filter_l. intros p ->. cbn. lia.
Qed.

Lemma replaced_document_not_found_witness :
  let e := (SearchEngine.add_document Scenario.urlparse "t1" "http://h/a" "T" "hello world"
              None (SearchEngine.create "t0")).2 in
  let e' := (SearchEngine.add_document Scenario.urlparse "t2" "http://h/a" "T" "other text"
               None e).2 in
  (1 ∉ SearchDatabase.search_rows ["hello"] None (SearchEngine.db e')) ∧
  SearchDatabase.ie_word <$> SearchDatabase.postings_of 1 (SearchEngine.db e')
  = ["hello"; "world"].
Proof.
  cbv zeta.
  destruct (replaced_document_not_found Scenario.urlparse "t2" "http://h/a" "T" "other text"
              None
              (SearchEngine.add_document Scenario.urlparse "t1" "http://h/a" "T"
                 "hello world" None (SearchEngine.create "t0")).2
              (SearchDatabase.mk_document 1 "http://h/a" "T" "hello world" "h" "t1" "t1" 1)
              ["hello"] None) as [Hnot Hpostings].
  - vm_compute. apply NoDup_singleton.
  - reflexivity.
  - discriminate.
  - discriminate.
  - split; [exact Hnot|]. cbn [SearchDatabase.doc_id] in Hpostings.
    rewrite Hpostings. reflexivity.
Defined.

Section ClearFacts.

Import SearchDatabase.

(** After every doc_count cell was set to '0', the count reads '0'. *)
Lemma get_metadata_after_reset (rows : list metadata_row) (idx : list index_entry)
      (docs : list document) (visits : list visit) :
  get_metadata "doc_count" "0"
    (mk_db docs idx
       (map (λ r, if String.eqb (md_key r) "doc_count"
                  then mk_metadata_row (md_key r) "0" (md_updated r) else r) rows)
       visits) = "0".
Proof.
  unfold get_metadata. cbn [metadata].
  induction rows as [|r rows IH]; [done|].
  cbn [map]. destruct (String.eqb_spec (md_key r) "doc_count") as [Hkey|Hkey].
  - by rewrite filter_cons_True by done.
  - by rewrite filter_cons_False by done.
Qed.

End ClearFacts.

(** X24.  [clear_index] empties the index but not the crawl history: after
    it every query has 0 matches, the cached and the stored document count
    are 0, the urls recorded as visited are still recorded, and the next
    document added gets id 1. *)
Theorem clear_index_then_add_document
        (urlparse : string → option Urllib.ParseResult)
        (now url title content query visited : string)
        (metadata : option (gmap string string)) (e : SearchEngine.t) :
  url ≠ "" → content ≠ "" →
  let cleared := SearchEngine.clear_index e in
  SearchEngine.search_total query cleared = 0%nat ∧
  SearchEngine.doc_count cleared = 0 ∧
  SearchEngine.read_doc_count (SearchEngine.db cleared) = 0 ∧
  SearchDatabase.is_url_visited visited (SearchEngine.db cleared)
  = SearchDatabase.is_url_visited visited (SearchEngine.db e) ∧
  (SearchEngine.add_document urlparse now url title content metadata cleared).1
  = SearchEngine.Returned (Some 1).
Proof.
  intros Hurl Hcontent. cbv zeta. split_and!.
  - unfold SearchEngine.search_total, SearchDatabase.search_total.
    by destruct (SearchEngine._tokenize query).
  - done.
  - unfold SearchEngine.read_doc_count, SearchEngine.clear_index. cbn [SearchEngine.db].
    by rewrite get_metadata_after_reset.
  - done.
  - by rewrite (engine_add_document_unfold urlparse now url title content metadata
                  (SearchEngine.clear_index e) Hurl Hcontent).
Qed.

Lemma clear_index_then_add_document_witness :
  let e := (SearchEngine.add_document Scenario.urlparse "t1" "http://h/a" "T" "hello world"
              None (SearchEngine.create "t0")).2 in
  SearchEngine.search_total "hello" e = 1%nat ∧
  SearchEngine.search_total "hello" (SearchEngine.clear_index e) = 0%nat ∧
  (SearchEngine.add_document Scenario.urlparse "t2" "http://h/2" "T" "second" None
     (SearchEngine.clear_index e)).1 = SearchEngine.Returned (Some 1).
Proof.
  cbv zeta.
  destruct (clear_index_then_add_document Scenario.urlparse "t2" "http://h/2" "T" "second"
              "hello" "http://h/a" None
              (SearchEngine.add_document Scenario.urlparse "t1" "http://h/a" "T"
                 "hello world" None (SearchEngine.create "t0")).2)
    as (Hsearch & _ & _ & _ & Hadd); [discriminate|discriminate|].
  split_and!; [reflexivity|exact Hsearch|exact Hadd].
Defined.

(** X25.  A run of the crawl loop never looks at content fingerprints:
    whatever pages it fetches and indexes, the fingerprint table and the
    count of skipped duplicates at the end are those of the start. *)
Theorem crawl_loop_keeps_fingerprints
        (env : SmartCrawler.environment) (budget : nat) (c : SmartCrawler.t) :
  let c' := (SmartCrawler.crawl_loop env budget c).1.1 in
  SmartCrawler.content_fingerprints c' = SmartCrawler.content_fingerprints c ∧
  SmartCrawler.skipped_duplicates (SmartCrawler.crawl_stats c')
  = SmartCrawler.skipped_duplicates (SmartCrawler.crawl_stats c).
Proof.
  pose proof (crawl_loop_dedup env budget c) as Hview.
  unfold SmartCrawler.dedup_view in Hview. injection Hview as Hfingerprints Hskipped.
  done.
Qed.

(* ===================================================================== *)
(** * The crawl loop and the visit table *)
(* ===================================================================== *)

Section VisitTableFacts.

Import SmartCrawler.

Variable env : environment.

(** The visit table of the database behind the crawler. *)
Local Abbreviation visit_table c :=
  (SearchDatabase.crawler_visits (SearchEngine.db (search_engine c))).

Lemma engine_add_document_visits urlparse now url title content meta e :
  SearchDatabase.crawler_visits
    (SearchEngine.db (SearchEngine.add_document urlparse now url title content meta e).2)
  = SearchDatabase.crawler_visits (SearchEngine.db e).
Proof.
  unfold SearchEngine.add_document.
  destruct (negb (Py.truthy url) || negb (Py.truthy content)); [done|].
  cbn [SearchDatabase.add_document].
  destruct (SearchEngine._tokenize (title +:+ " " +:+ content)) as [|w words]; [done|].
  unfold SearchDatabase.update_index.
  by destruct (foldl _ _ _).
Qed.

Lemma index_page_visits (url : string) (depth : Z) (content : string) (c : t) :
  visit_table (index_page env url depth content c) = visit_table c.
Proof.
  unfold index_page.
  destruct (extract_text_content env content url) as [[title main_content]|]; [|done].
  destruct (extract_metadata env content url) as [metadata|]; [|done].
  pose proof (engine_add_document_visits (urlparse env) (isoformat_now env) url title
                main_content (Some metadata) (search_engine c)) as Hkept.
  destruct (SearchEngine.add_document _ _ _ _ _ _ _) as [[doc|] e]; [|done].
  case_match; [|done].
  destruct (extract_links env content url) as [links|]; [|done].
  by rewrite add_links_to_queue_engine.
Qed.

Lemma crawl_url_visits (entry : item) (c : t) :
  visit_table (crawl_url env entry c).1 = visit_table c.
Proof.
  destruct entry as [priority [url depth]]. unfold crawl_url.
  case_bool_decide; [done|]. case_match; [done|].
  pose proof (is_allowed_by_robots_frame env url (update_stats (set_current_url url) c) c)
    as (_ & _ & _ & Hengine & _).
  destruct (is_allowed_by_robots env url (update_stats (set_current_url url) c))
    as [allowed c1]. cbn [fst snd] in Hengine.
  destruct allowed; cbn [negb]; [|cbn; by rewrite Hengine].
  assert (search_engine (default (c1, []) (_apply_rate_limiting env url c1)).1
          = search_engine c1) as Hlimited.
  { unfold _apply_rate_limiting. by destruct (urlparse env url). }
  destruct (default (c1, []) (_apply_rate_limiting env url c1)) as [c2 waits].
  cbn [fst] in Hlimited.
  assert (visit_table (fetch_page env url depth c2).1 = visit_table c2) as Hfetched.
  { unfold fetch_page.
    destruct (http_get env url) as [| |content status_code content_type]; [done|done|].
    destruct (status_code =? 200); [|done].
    case_match; [done|]. cbn [fst]. by rewrite index_page_visits. }
  destruct (fetch_page env url depth c2) as [c3 reports].
  cbn [fst] in *. by rewrite Hfetched, Hlimited, Hengine.
Qed.

Lemma crawl_loop_visits (budget : nat) :
  ∀ c, visit_table (crawl_loop env budget c).1.1 = visit_table c.
Proof.
  induction budget as [|budget IH]; intros c; [done|].
  cbn [crawl_loop]. case_match; [done|].
  destruct (Heapq.heappop item_lt (queue c)) as [[entry rest]|]; [|done].
  pose proof (crawl_url_visits entry (set_queue rest c)) as Hturn.
  destruct (crawl_url env entry (set_queue rest c)) as [c1 events].
  specialize (IH c1).
  destruct (crawl_loop env budget c1) as [[c2 later] n].
  cbn [fst] in *. by rewrite IH, Hturn.
Qed.

End VisitTableFacts.

(** X26.  A run of the crawl loop never writes the visit table of the
    database: the table at the end is the table at the start, so
    [is_url_visited] answers for every url as it did before the run,
    also for the urls the run fetched. *)
Theorem crawl_loop_never_marks_visits
        (env : SmartCrawler.environment) (budget : nat) (c : SmartCrawler.t) (url : string) :
  let c' := (SmartCrawler.crawl_loop env budget c).1.1 in
  SearchDatabase.crawler_visits (SearchEngine.db (SmartCrawler.search_engine c'))
  = SearchDatabase.crawler_visits (SearchEngine.db (SmartCrawler.search_engine c)) ∧
  SearchDatabase.is_url_visited url (SearchEngine.db (SmartCrawler.search_engine c'))
  = SearchDatabase.is_url_visited url (SearchEngine.db (SmartCrawler.search_engine c)).
Proof.
  cbv zeta. unfold SearchDatabase.is_url_visited.
  by rewrite crawl_loop_visits.
Qed.

(** X27.  A crawl delay from robots.txt is not waited for.  The robots
    check writes the delay (or [min_crawl_delay], if larger) over the
    host's last access time; the rate limiter then compares the clock with
    that number, so with any clock that has passed it by [min_crawl_delay]
    the turn contains no sleep, however recently the host was accessed. *)
Theorem crawl_url_ignores_crawl_delay
        (env : SmartCrawler.environment) (priority : Z) (url : string) (depth : Z)
        (c : SmartCrawler.t) (delay : Q) (verdict : bool) :
  SmartCrawler.robots env url = SmartCrawler.RobotsRules (Some delay) verdict →
  ¬ (delay == 0)%Q →
  (SmartCrawler.min_crawl_delay c + SmartCrawler.min_crawl_delay c
   <= SmartCrawler.time_time env)%Q →
  (SmartCrawler.min_crawl_delay c + delay <= SmartCrawler.time_time env)%Q →
  ∀ wait, SmartCrawler.Sleep wait
          ∉ (SmartCrawler.crawl_url env (priority, (url, depth)) c).2.
Proof.
  intros Hrobots Hdelay Hmin Hlong wait. unfold SmartCrawler.crawl_url.
  case_bool_decide; [apply not_elem_of_nil|].
  destruct (negb (SmartCrawler.force_recrawl c) && _); [apply not_elem_of_nil|].
  unfold SmartCrawler.is_allowed_by_robots, SmartCrawler._apply_rate_limiting.
  destruct (SmartCrawler.urlparse env url) as [parsed|] eqn:Hparse.
  - rewrite Hrobots.
    assert (Qeq_bool delay 0 = false) as ->.
    { destruct (Qeq_bool delay 0) eqn:Heq; [|done]. by apply Qeq_bool_iff in Heq. }
    destruct verdict; cbn [negb].
    + cbn [SmartCrawler.domain_access_times SmartCrawler.set_domain_access_times
           SmartCrawler.update_stats SmartCrawler.set_crawl_stats
           SmartCrawler.min_crawl_delay].
      rewrite lookup_insert_eq.
      assert (Qle_bool (SmartCrawler.min_crawl_delay c)
                (SmartCrawler.time_time env
                 - (if Qle_bool delay (SmartCrawler.min_crawl_delay c)
                    then SmartCrawler.min_crawl_delay c else delay)) = true) as ->.
      { apply Qle_bool_iff. destruct (Qle_bool delay (SmartCrawler.min_crawl_delay c)); lra. }
      cbn [negb default from_option id]. destruct (SmartCrawler.fetch_page _ _ _ _) as [c3 reports].
      cbn [snd]. intros Hin.
      destruct reports; repeat (apply elem_of_cons in Hin as [Hin|Hin]; [discriminate|]);
        by apply elem_of_nil in Hin.
    + cbn [snd]. intros Hin. apply list_elem_of_singleton in Hin. discriminate.
  - cbn [negb default from_option id]. destruct (SmartCrawler.fetch_page _ _ _ _) as [c3 reports].
    cbn [snd]. intros Hin.
    destruct reports; repeat (apply elem_of_cons in Hin as [Hin|Hin]; [discriminate|]);
      by apply elem_of_nil in Hin.
Qed.

Lemma crawl_url_ignores_crawl_delay_witness :
  SmartCrawler.domain_access_times Scenario.crawler_just_accessed !! "h" = Some 100%Q ∧
  ∀ wait, SmartCrawler.Sleep wait
          ∉ (SmartCrawler.crawl_url Scenario.environment_with_crawl_delay
               (1, ("http://h/1", 0)) Scenario.crawler_just_accessed).2.
Proof.
  split; [reflexivity|].
  apply (crawl_url_ignores_crawl_delay Scenario.environment_with_crawl_delay 1
           "http://h/1" 0 Scenario.crawler_just_accessed 5%Q true);
    [reflexivity|discriminate|vm_compute; discriminate|vm_compute; discriminate].
Defined.
